(** * Vulkan Launchpad bring-up and render loop (src/Main.cpp)

    A shallow embedding of [main] and of its helpers
    [handleGlfwKeyCallback], [isKeyDown], [getRequiredInstanceExtensions]
    and [selectQueueFamilyIndex].  Every call into GLFW, Vulkan, the
    Vulkan Launchpad framework, the teapot geometry provider and the camera
    is recorded as an [event] in a call log; what those collaborators answer
    is read from a [world].  The program itself lives in a small state and
    error monad [M]. *)

From Stdlib Require Import ZArith Lia.
From stdpp Require Import base gmap list strings.

Local Open Scope Z_scope.

(** ** Machine data *)

(** Handles ([GLFWwindow*], [VkInstance], [VkBuffer], ...) are opaque machine
    words; the null handle is [0]. *)
Definition handle := Z.
Definition VK_NULL_HANDLE : handle := 0.

(** [uint32_t] arithmetic wraps modulo [2^32]. *)
Definition u32 (z : Z) : Z := z mod 2 ^ 32.

(** A [float] is carried around as its IEEE-754 binary32 bit pattern; the
    program only stores and copies floats, it never computes with them. *)
Definition float := Z.
Definition f_0 : float := 0.              (* 0.0f  *)
Definition f_1 : float := 1065353216.     (* 1.0f  = 0x3f800000 *)
Definition f_m1 : float := 3212836864.    (* -1.0f = 0xbf800000 *)
Definition f_0_25 : float := 1048576000.  (* 0.25f = 0x3e800000 *)
Definition f_0_39 : float := 1053273620.  (* 0.39f = 0x3ec7ae14 *)
Definition f_0_58 : float := 1058306785.  (* 0.58f = 0x3f147ae1 *)
Definition f_0_93 : float := 1064178811.  (* 0.93f = 0x3f6e147b *)

Definition vec4 : Type := float * float * float * float.
(** [glm::mat4] is column major: four columns of four floats. *)
Definition mat4 : Type := vec4 * vec4 * vec4 * vec4.

Definition sizeof_float : Z := 4.
Definition sizeof_vec4 : Z := 4 * sizeof_float.
Definition sizeof_mat4 : Z := 4 * sizeof_vec4.

(** The double quote character, for the messages that quote a name. *)
Definition dq : string := String (Ascii.ascii_of_nat 34) EmptyString.

(** ** Constants of the Vulkan and GLFW headers *)

Definition VkResult := Z.
Definition VK_SUCCESS : VkResult := 0.
Definition VK_TRUE : Z := 1.
Definition VK_FALSE : Z := 0.
Definition VK_QUEUE_GRAPHICS_BIT : Z := 1.
Definition VK_SHARING_MODE_EXCLUSIVE : Z := 0.
Definition VK_PRESENT_MODE_FIFO_KHR : Z := 2.
Definition VK_IMAGE_USAGE_COLOR_ATTACHMENT_BIT : Z := 16.
Definition VK_COMPOSITE_ALPHA_OPAQUE_BIT_KHR : Z := 1.
Definition VK_DESCRIPTOR_TYPE_UNIFORM_BUFFER : Z := 6.
Definition VK_SHADER_STAGE_VERTEX_BIT : Z := 1.
Definition VK_SHADER_STAGE_FRAGMENT_BIT : Z := 16.
Definition VK_BUFFER_USAGE_TRANSFER_DST_BIT : Z := 2.
Definition VK_BUFFER_USAGE_UNIFORM_BUFFER_BIT : Z := 16.
Definition VK_WHOLE_SIZE : Z := 2 ^ 64 - 1.
Definition VK_VERTEX_INPUT_RATE_VERTEX : Z := 0.
Definition VK_FORMAT_R32G32B32_SFLOAT : Z := 106.
Definition VK_POLYGON_MODE_FILL : Z := 0.
Definition VK_CULL_MODE_NONE : Z := 0.
Definition VK_KHR_SWAPCHAIN_EXTENSION_NAME : string := "VK_KHR_swapchain".

Definition VK_STRUCTURE_TYPE_APPLICATION_INFO : Z := 0.
Definition VK_STRUCTURE_TYPE_INSTANCE_CREATE_INFO : Z := 1.
Definition VK_STRUCTURE_TYPE_DEVICE_QUEUE_CREATE_INFO : Z := 2.
Definition VK_STRUCTURE_TYPE_DEVICE_CREATE_INFO : Z := 3.
Definition VK_STRUCTURE_TYPE_DESCRIPTOR_SET_LAYOUT_CREATE_INFO : Z := 32.
Definition VK_STRUCTURE_TYPE_DESCRIPTOR_POOL_CREATE_INFO : Z := 33.
Definition VK_STRUCTURE_TYPE_DESCRIPTOR_SET_ALLOCATE_INFO : Z := 34.
Definition VK_STRUCTURE_TYPE_WRITE_DESCRIPTOR_SET : Z := 35.
Definition VK_STRUCTURE_TYPE_SWAPCHAIN_CREATE_INFO_KHR : Z := 1000001000.

Definition VK_MAKE_API_VERSION (variant major minor patch : Z) : Z :=
  u32 (Z.lor (Z.lor (Z.lor (Z.shiftl variant 29) (Z.shiftl major 22))
                    (Z.shiftl minor 12)) patch).
Definition VK_API_VERSION_1_1 : Z := VK_MAKE_API_VERSION 0 1 1 0.

Definition GLFW_FALSE : Z := 0.
Definition GLFW_RELEASE : Z := 0.
Definition GLFW_PRESS : Z := 1.
Definition GLFW_KEY_ESCAPE : Z := 256.
Definition GLFW_NO_API : Z := 0.
Definition GLFW_RESIZABLE : Z := 131075.   (* 0x00020003 *)
Definition GLFW_CLIENT_API : Z := 139265.  (* 0x00022001 *)

Definition EXIT_SUCCESS : Z := 0.

(** ** Structures the program fills in

    Only the members the source assigns are listed; every structure is
    zero-initialised first, so the members left out are zero. *)

Record VkExtent2D := { width : Z; height : Z }.

Record VkQueueFamilyProperties := {
  queueFlags : Z;
  queueCount : Z;
  timestampValidBits : Z }.

Record VkSurfaceCapabilitiesKHR := {
  minImageCount : Z;
  maxImageCount : Z;
  currentExtent : VkExtent2D;
  currentTransform : Z }.

Record VkSurfaceFormatKHR := { format : Z; colorSpace : Z }.

Record VkApplicationInfo := {
  app_sType : Z;
  pEngineName : string;
  engineVersion : Z;
  pApplicationName : string;
  applicationVersion : Z;
  apiVersion : Z }.

Record VkInstanceCreateInfo := {
  inst_sType : Z;
  pApplicationInfo : VkApplicationInfo;
  ppEnabledLayerNames : list string;
  inst_ppEnabledExtensionNames : list string }.

Record VkDeviceQueueCreateInfo := {
  dq_sType : Z;
  queueFamilyIndex : Z;
  dq_queueCount : Z;
  pQueuePriorities : list float }.

Record VkDeviceCreateInfo := {
  dev_sType : Z;
  pQueueCreateInfos : list VkDeviceQueueCreateInfo;
  dev_ppEnabledExtensionNames : list string }.

Record VkSwapchainCreateInfoKHR := {
  sc_sType : Z;
  sc_surface : handle;
  sc_minImageCount : Z;
  imageFormat : Z;
  imageColorSpace : Z;
  imageExtent : VkExtent2D;
  imageArrayLayers : Z;
  imageUsage : Z;
  imageSharingMode : Z;
  queueFamilyIndexCount : Z;
  pQueueFamilyIndices : list Z;
  preTransform : Z;
  compositeAlpha : Z;
  presentMode : Z;
  clipped : Z }.

Record VklSwapchainImageDetails := {
  imageHandle : handle;
  det_imageFormat : Z;
  det_imageUsage : Z;
  clearValue : vec4 }.

Record VklSwapchainFramebufferComposition := {
  colorAttachmentImageDetails : VklSwapchainImageDetails;
  depthAttachmentImageHandle : handle }.

Record VklSwapchainConfig := {
  swapchainHandle : handle;
  cfg_imageExtent : VkExtent2D;
  swapchainImages : list VklSwapchainFramebufferComposition }.

Record VkVertexInputBindingDescription := {
  vb_binding : Z; stride : Z; inputRate : Z }.

Record VkVertexInputAttributeDescription := {
  va_location : Z; va_binding : Z; va_format : Z }.

Record VkDescriptorSetLayoutBinding := {
  lb_binding : Z;
  lb_descriptorType : Z;
  lb_descriptorCount : Z;
  stageFlags : Z }.

Record VklGraphicsPipelineConfig := {
  vertexShaderPath : string;
  fragmentShaderPath : string;
  vertexInputBuffers : list VkVertexInputBindingDescription;
  inputAttributeDescriptions : list VkVertexInputAttributeDescription;
  polygonDrawMode : Z;
  triangleCullingMode : Z;
  descriptorLayout : list VkDescriptorSetLayoutBinding }.

Record VkDescriptorPoolSize := { ps_type : Z; ps_descriptorCount : Z }.

Record VkDescriptorPoolCreateInfo := {
  pool_sType : Z; maxSets : Z; pPoolSizes : list VkDescriptorPoolSize }.

Record VkDescriptorSetLayoutCreateInfo := {
  layout_sType : Z; pBindings : list VkDescriptorSetLayoutBinding }.

Record VkDescriptorSetAllocateInfo := {
  alloc_sType : Z; descriptorPool : handle; pSetLayouts : list handle }.

Record VkDescriptorBufferInfo := {
  bi_buffer : handle; bi_offset : Z; bi_range : Z }.

Record VkWriteDescriptorSet := {
  wr_sType : Z;
  dstSet : handle;
  dstBinding : Z;
  wr_descriptorCount : Z;
  wr_descriptorType : Z;
  pBufferInfo : VkDescriptorBufferInfo }.

(** [struct UniformBufferData] of [main], with its default member
    initialisers. *)
Record UniformBufferData := { color : vec4; transformation : mat4 }.

Definition initial_uniform_buffer_data : UniformBufferData :=
  {| color := (f_1, f_0_25, f_0, f_1);
     transformation := ((f_1, f_0, f_0, f_0),
                        (f_0, f_m1, f_0, f_0),
                        (f_0, f_0, f_m1, f_0),
                        (f_0, f_0, f_0, f_1)) |}.

Definition sizeof_UniformBufferData : Z := sizeof_vec4 + sizeof_mat4.

(** ** The call log *)

(** How a run can end fatally: with the message handed to
    [VKL_EXIT_WITH_ERROR], or with the Vulkan result code that
    [VKL_CHECK_VULKAN_RESULT] rejected. *)
Inductive failure :=
| ErrorMessage (msg : string)
| VulkanResult (result : VkResult).

(** One constructor per function of a collaborator that the program calls,
    with the arguments the program passes. *)
Inductive event :=
| E_LOG (msg : string)
| E_EXIT_WITH_ERROR (f : failure)
| E_glfwSetErrorCallback
| E_glfwInit
| E_glfwWindowHint (hint value : Z)
| E_glfwCreateWindow (w h : Z) (title : string) (monitor share : handle)
| E_glfwSetKeyCallback (window : handle)
| E_glfwGetRequiredInstanceExtensions
| E_vklGetRequiredInstanceExtensions
| E_hlpIsInstanceExtensionSupported (name : string)
| E_hlpIsInstanceLayerSupported (name : string)
| E_vkCreateInstance (info : VkInstanceCreateInfo)
| E_glfwCreateWindowSurface (instance window : handle)
| E_vkEnumeratePhysicalDevices (instance : handle) (capacity : option Z)
| E_hlpSelectPhysicalDeviceIndex (devices : list handle) (count : Z) (surface : handle)
| E_vkGetPhysicalDeviceQueueFamilyProperties (physical_device : handle) (capacity : option Z)
| E_vkGetPhysicalDeviceSurfaceSupportKHR (physical_device : handle) (index : Z) (surface : handle)
| E_vkCreateDevice (physical_device : handle) (info : VkDeviceCreateInfo)
| E_vkGetDeviceQueue (device : handle) (family index : Z)
| E_hlpGetPhysicalDeviceSurfaceCapabilities (physical_device surface : handle)
| E_hlpGetSurfaceImageFormat (physical_device surface : handle)
| E_vkCreateSwapchainKHR (device : handle) (info : VkSwapchainCreateInfoKHR)
| E_vkGetSwapchainImagesKHR (device swapchain : handle) (capacity : Z)
| E_vklInitFramework (instance surface physical_device device queue : handle)
                     (config : VklSwapchainConfig)
| E_vklCreateGraphicsPipeline (config : VklGraphicsPipelineConfig)
| E_vklCreateHostCoherentBufferWithBackingMemory (size usage : Z)
| E_vklCopyDataIntoHostCoherentBuffer (buffer : handle) (data : UniformBufferData) (size : Z)
| E_vkCreateDescriptorPool (device : handle) (info : VkDescriptorPoolCreateInfo)
| E_vkCreateDescriptorSetLayout (device : handle) (info : VkDescriptorSetLayoutCreateInfo)
| E_vkAllocateDescriptorSets (device : handle) (info : VkDescriptorSetAllocateInfo)
| E_vkUpdateDescriptorSets (device : handle) (writes : list VkWriteDescriptorSet)
| E_vklCreateCamera (window : handle)
| E_teapotCreateGeometryAndBuffers
| E_glfwWindowShouldClose (window : handle)
| E_glfwPollEvents
| E_glfwSetWindowShouldClose (window : handle) (value : bool)
| E_vklUpdateCamera (camera : handle)
| E_vklGetCameraViewProjectionMatrix (camera : handle)
| E_vklWaitForNextSwapchainImage
| E_vklStartRecordingCommands
| E_teapotDraw (pipeline descriptor_set : handle)
| E_vklEndRecordingCommands
| E_vklPresentCurrentSwapchainImage
| E_vkDeviceWaitIdle (device : handle)
| E_vklDestroyCamera (camera : handle)
| E_vklDestroyHostCoherentBufferAndItsBackingMemory (buffer : handle)
| E_vklDestroyGraphicsPipeline (pipeline : handle)
| E_teapotDestroyBuffers
| E_vklDestroyFramework
| E_glfwTerminate.

(** ** What the collaborators answer *)

(** What GLFW hands to the program while it drains the event queue: a key
    event goes to the registered key callback; a click on the window's close
    button sets the close flag inside GLFW without any call into the
    program. *)
Inductive input_event :=
| KeyEvent (key scancode action mods : Z)
| CloseRequest.

(** The answers of GLFW, the Vulkan driver, the framework, the helpers and
    the camera.  For a call with out-parameters the answer is what the
    program's variables hold once the call has returned.  The properties of
    a physical device (its queue families, presentation support) are a
    function of the device: Vulkan fixes them for the life of the
    instance. *)
Record world := {
  w_check_passes : VkResult → bool;
  w_glfwInit : bool;
  w_glfwCreateWindow : handle;
  w_glfwGetRequiredInstanceExtensions : list string;
  w_vklGetRequiredInstanceExtensions : list string;
  w_hlpIsInstanceExtensionSupported : string → bool;
  w_hlpIsInstanceLayerSupported : string → bool;
  w_vkCreateInstance : VkResult * handle;
  w_glfwCreateWindowSurface : VkResult * handle;
  w_vkEnumeratePhysicalDevices_count : VkResult * Z;
  w_vkEnumeratePhysicalDevices : VkResult * list handle;
  w_hlpSelectPhysicalDeviceIndex : list handle → handle → Z;
  w_queue_families : handle → list VkQueueFamilyProperties;
  w_surface_support : handle → Z → handle → Z;
  w_vkCreateDevice : VkResult * handle;
  w_vkGetDeviceQueue : handle;
  w_surface_capabilities : VkSurfaceCapabilitiesKHR;
  w_surface_format : VkSurfaceFormatKHR;
  w_vkCreateSwapchainKHR : VkResult * handle;
  w_vkGetSwapchainImagesKHR : VkResult * Z * list handle;
  w_vklInitFramework : bool;
  w_vklCreateGraphicsPipeline : handle;
  w_vklCreateHostCoherentBuffer : handle;
  w_vkCreateDescriptorPool : VkResult * handle;
  w_vkCreateDescriptorSetLayout : VkResult * handle;
  w_vkAllocateDescriptorSets : VkResult * handle;
  w_vklCreateCamera : handle;
  w_initially_closing : bool;
  w_poll_events : nat → list input_event;
  w_camera_matrix : nat → mat4 }.

(** ** Program state and the monad *)

(** The global [g_isGlfwKeyDown], the close flag GLFW keeps for the one
    window, and how many times the event queue was drained. *)
Record state := {
  g_isGlfwKeyDown : gmap Z bool;
  should_close : bool;
  polls : nat }.

Definition set_keys (m : gmap Z bool) (s : state) : state :=
  {| g_isGlfwKeyDown := m; should_close := should_close s; polls := polls s |}.

Definition set_should_close (b : bool) (s : state) : state :=
  {| g_isGlfwKeyDown := g_isGlfwKeyDown s; should_close := b; polls := polls s |}.

Definition count_poll (s : state) : state :=
  {| g_isGlfwKeyDown := g_isGlfwKeyDown s; should_close := should_close s;
     polls := S (polls s) |}.

(** [Ret]: the computation returned.  [Fatal]: the process was terminated.
    [Undefined]: a vector was indexed out of its bounds.  [Unfinished]: the
    render loop was still running when the iteration budget ran out. *)
Inductive outcome (A : Type) :=
| Ret (a : A)
| Fatal (f : failure)
| Undefined
| Unfinished.
Arguments Ret {A} a.
Arguments Fatal {A} f.
Arguments Undefined {A}.
Arguments Unfinished {A}.

(** What running a computation gives: how it ended, the state it left, and
    the calls it made, oldest first. *)
Record run (A : Type) := Run {
  outcome_of : outcome A;
  state_of : state;
  calls_of : list event }.
Arguments Run {A} _ _ _.
Arguments outcome_of {A} _.
Arguments state_of {A} _.
Arguments calls_of {A} _.

Definition M (A : Type) : Type := state → run A.

Definition M_ret {A} (a : A) : M A := λ s, Run (Ret a) s [].

(** Sequencing stops at the first computation that does not return; the
    calls made up to there are kept. *)
Definition M_bind {A B} (f : A → M B) (m : M A) : M B :=
  λ s, match m s with
       | Run (Ret a) s' calls =>
           match f a s' with
           | Run o s'' calls' => Run o s'' (calls ++ calls')
           end
       | Run (Fatal e) s' calls => Run (Fatal e) s' calls
       | Run Undefined s' calls => Run Undefined s' calls
       | Run Unfinished s' calls => Run Unfinished s' calls
       end.

#[global] Instance M_MRet : MRet M := @M_ret.
#[global] Instance M_MBind : MBind M := @M_bind.

Definition call (e : event) : M unit := λ s, Run (Ret tt) s [e].
Definition get_state : M state := λ s, Run (Ret s) s [].
Definition modify (f : state → state) : M unit := λ s, Run (Ret tt) (f s) [].
Definition undefined {A} : M A := λ s, Run Undefined s [].
Definition unfinished {A} : M A := λ s, Run Unfinished s [].

Definition when (b : bool) (m : M unit) : M unit := if b then m else mret tt.

(** A call into a collaborator: log it, take the world's answer. *)
Definition ask {A} (e : event) (answer : A) : M A := λ s, Run (Ret answer) s [e].

(** Modelled from the spec: the macro [VKL_LOG] of VulkanLaunchpad.h, which
    is not among the sources; it reports a message and goes on. *)
Definition VKL_LOG (msg : string) : M unit := call (E_LOG msg).

(** Fatal termination: the failure is reported and the process ends on the
    spot, whatever was to follow. *)
Definition fatal {A} (f : failure) : M A :=
  λ s, Run (Fatal f) s [E_EXIT_WITH_ERROR f].

(** Modelled from the spec: the macro [VKL_EXIT_WITH_ERROR] of
    VulkanLaunchpad.h, which is not among the sources.  Per the spec's error
    handling design every error is fatal: the process logs a message naming
    the failed stage and terminates immediately with an error status. *)
Definition VKL_EXIT_WITH_ERROR {A} (msg : string) : M A :=
  fatal (ErrorMessage msg).

(** Modelled from the spec: the macro [VKL_CHECK_VULKAN_RESULT] of
    VulkanLaunchpad.h, which is not among the sources.  Per the spec a
    creation call that reports a non-success status is fatal; which result
    codes the macro lets pass is left to the world ([w_check_passes]). *)
Definition VKL_CHECK_VULKAN_RESULT (W : world) (result : VkResult) : M unit :=
  if w_check_passes W result then mret tt else fatal (VulkanResult result).

(** ** The program *)

Definition is_empty {A} (v : list A) : bool :=
  match v with [] => true | _ => false end.

(** [std::vector::operator[]], also where only the address of the element
    is taken ([&v[0]]): an index that is not below the size of the vector is
    undefined behaviour.  [main] takes [&v[0]] of three vectors that can be
    empty (lines 145, 190 and 193, 318); the vectors of lines 143, 240 and
    288 hold one element each. *)
Definition element_at {A} (v : list A) (i : nat) : M A :=
  match v !! i with
  | Some x => mret x
  | None => undefined
  end.

Section Program.

Variable W : world.

(** *** Key handling ([g_isGlfwKeyDown], lines 504-525) *)

(** [std::unordered_map::operator[]] used as an lvalue that is assigned. *)
Definition assign_key (key : Z) (down : bool) : M unit :=
  modify (λ s, set_keys (<[key := down]> (g_isGlfwKeyDown s)) s).

(** [std::unordered_map::operator[]] used as an rvalue: a key that is absent
    is first inserted with the value-initialised [bool], which is [false]. *)
Definition subscript (key : Z) (m : gmap Z bool) : bool * gmap Z bool :=
  match m !! key with
  | Some down => (down, m)
  | None => (false, <[key := false]> m)
  end.

Definition glfwSetWindowShouldClose (window : handle) (value : bool) : M unit :=
  call (E_glfwSetWindowShouldClose window value);;
  modify (set_should_close value).

Definition handleGlfwKeyCallback
    (glfw_window : handle) (key scancode action mods : Z) : M unit :=
  when (action =? GLFW_PRESS) (assign_key key true);;
  when (action =? GLFW_RELEASE) (assign_key key false);;
  when ((action =? GLFW_RELEASE) && (key =? GLFW_KEY_ESCAPE))
       (glfwSetWindowShouldClose glfw_window true).

Definition isKeyDown (glfw_key_code : Z) : M bool :=
  λ s, let '(down, m) := subscript glfw_key_code (g_isGlfwKeyDown s) in
       Run (Ret down) (set_keys m s) [].

(** *** GLFW's event queue *)

Fixpoint deliver (window : handle) (evs : list input_event) : M unit :=
  match evs with
  | [] => mret tt
  | KeyEvent key scancode action mods :: rest =>
      handleGlfwKeyCallback window key scancode action mods;;
      deliver window rest
  | CloseRequest :: rest =>
      modify (set_should_close true);;
      deliver window rest
  end.

Definition glfwPollEvents : M unit :=
  call E_glfwPollEvents;;
  s ← get_state;
  modify count_poll;;
  deliver (w_glfwCreateWindow W) (w_poll_events W (polls s)).

Definition glfwWindowShouldClose (window : handle) : M bool :=
  call (E_glfwWindowShouldClose window);;
  s ← get_state;
  mret (should_close s).

Definition vklGetCameraViewProjectionMatrix (camera : handle) : M mat4 :=
  call (E_vklGetCameraViewProjectionMatrix camera);;
  s ← get_state;
  mret (w_camera_matrix W (polls s)).

(** *** [getRequiredInstanceExtensions] (lines 527-551) *)

Fixpoint check_extensions (exts : list string) : M unit :=
  match exts with
  | [] => mret tt
  | ext :: rest =>
      supported ← ask (E_hlpIsInstanceExtensionSupported ext)
                      (w_hlpIsInstanceExtensionSupported W ext);
      (if negb supported
       then VKL_EXIT_WITH_ERROR
              ("Required extension " +:+ dq +:+ ext +:+ dq +:+ " is not supported")
       else mret tt);;
      VKL_LOG ("Extension " +:+ dq +:+ ext +:+ dq +:+ " is supported");;
      check_extensions rest
  end.

Definition getRequiredInstanceExtensions : M (list string) :=
  glfw_extensions ← ask E_glfwGetRequiredInstanceExtensions
                        (w_glfwGetRequiredInstanceExtensions W);
  vkl_extensions ← ask E_vklGetRequiredInstanceExtensions
                       (w_vklGetRequiredInstanceExtensions W);
  let all_required_extensions := glfw_extensions ++ vkl_extensions in
  check_extensions all_required_extensions;;
  mret all_required_extensions.

(** *** [selectQueueFamilyIndex] (lines 553-580) *)

(** The [for] loop.  [remaining] is [queue_family_count - queue_family_index],
    so the loop condition [queue_family_index < queue_family_count] reads
    [remaining <> 0].  [Some i] is the [return i] inside the loop, [None] is
    the loop running to its end. *)
Fixpoint selectQueueFamilyIndex_loop
    (physical_device surface : handle)
    (queue_families : list VkQueueFamilyProperties)
    (remaining : nat) (queue_family_index : Z) : M (option Z) :=
  match remaining with
  | O => mret None
  | S remaining' =>
      match queue_families !! Z.to_nat queue_family_index with
      | None => undefined
      | Some family =>
          if negb (Z.land (queueFlags family) VK_QUEUE_GRAPHICS_BIT =? 0) then
            presentation_supported ←
              ask (E_vkGetPhysicalDeviceSurfaceSupportKHR
                     physical_device queue_family_index surface)
                  (w_surface_support W physical_device queue_family_index surface);
            if VK_TRUE =? presentation_supported then
              mret (Some queue_family_index)
            else
              selectQueueFamilyIndex_loop physical_device surface queue_families
                remaining' (u32 (queue_family_index + 1))
          else
            selectQueueFamilyIndex_loop physical_device surface queue_families
              remaining' (u32 (queue_family_index + 1))
      end
  end.

Definition selectQueueFamilyIndex (physical_device surface : handle) : M Z :=
  queue_family_count ←
    ask (E_vkGetPhysicalDeviceQueueFamilyProperties physical_device None)
        (Z.of_nat (length (w_queue_families W physical_device)));
  queue_families ←
    ask (E_vkGetPhysicalDeviceQueueFamilyProperties physical_device
           (Some queue_family_count))
        (w_queue_families W physical_device);
  found ← selectQueueFamilyIndex_loop physical_device surface queue_families
            (Z.to_nat queue_family_count) 0;
  match found with
  | Some queue_family_index => mret queue_family_index
  | None =>
      VKL_EXIT_WITH_ERROR
        "Unable to find a suitable queue family that supports graphics and presentation on the same queue."
  end.

(** *** [main] (lines 68-494), task by task *)

Definition window_width : Z := 800.
Definition window_height : Z := 800.
Definition window_title : string := "Tutorial Window".

Definition validation_layer : string := "VK_LAYER_KHRONOS_validation".

(** Lines 70-110: GLFW and the window.  [fullscreen] is the constant
    [false], so the primary monitor is never asked for; the window is created
    with [NULL] for the monitor and for the shared context. *)
Definition task_1_1 : M handle :=
  VKL_LOG ":::::: WELCOME TO VULKAN LAUNCHPAD ::::::";;
  call E_glfwSetErrorCallback;;
  initialised ← ask E_glfwInit (w_glfwInit W);
  (if negb initialised then VKL_EXIT_WITH_ERROR "Failed to init GLFW" else mret tt);;
  call (E_glfwWindowHint GLFW_CLIENT_API GLFW_NO_API);;
  call (E_glfwWindowHint GLFW_RESIZABLE GLFW_FALSE);;
  window ← ask (E_glfwCreateWindow window_width window_height window_title
                  VK_NULL_HANDLE VK_NULL_HANDLE)
               (w_glfwCreateWindow W);
  (if window =? 0 then
     VKL_LOG "If your program reaches this point, that means two things:";;
     VKL_LOG "1) Project setup was successful. Everything is working fine.";;
     VKL_LOG "2) You haven't implemented the first task, which is creating a window with GLFW.";;
     VKL_EXIT_WITH_ERROR "No GLFW window created."
   else mret tt);;
  VKL_LOG "Task 1.1 done.";;
  call (E_glfwSetKeyCallback window);;
  mret window.

(** Lines 115-157: the Vulkan instance. *)
Definition application_info : VkApplicationInfo :=
  {| app_sType := VK_STRUCTURE_TYPE_APPLICATION_INFO;
     pEngineName := "Vulkan Launchpad";
     engineVersion := VK_MAKE_API_VERSION 0 2023 1 0;
     pApplicationName := "An Introduction to Vulkan";
     applicationVersion := VK_MAKE_API_VERSION 0 2023 1 1;
     apiVersion := VK_API_VERSION_1_1 |}.

(** The create info points at the first required extension
    ([&required_extensions[0]], line 145): the vector must not be empty. *)
Definition task_1_2 : M handle :=
  required_extensions ← getRequiredInstanceExtensions;
  layer_supported ← ask (E_hlpIsInstanceLayerSupported validation_layer)
                        (w_hlpIsInstanceLayerSupported W validation_layer);
  (if negb layer_supported then
     VKL_EXIT_WITH_ERROR
       ("Validation layer " +:+ dq +:+ validation_layer +:+ dq +:+ " is not supported.")
   else mret tt);;
  VKL_LOG ("Validation layer " +:+ dq +:+ validation_layer +:+ dq +:+ " is supported.");;
  let enabled_layers := [validation_layer] in
  element_at required_extensions 0;;
  let instance_create_info :=
    {| inst_sType := VK_STRUCTURE_TYPE_INSTANCE_CREATE_INFO;
       pApplicationInfo := application_info;
       ppEnabledLayerNames := enabled_layers;
       inst_ppEnabledExtensionNames := required_extensions |} in
  '(result, vk_instance) ← ask (E_vkCreateInstance instance_create_info)
                               (w_vkCreateInstance W);
  VKL_CHECK_VULKAN_RESULT W result;;
  (if vk_instance =? 0 then
     VKL_EXIT_WITH_ERROR "No VkInstance created or handle not assigned."
   else mret tt);;
  VKL_LOG "Task 1.2 done.";;
  mret vk_instance.

(** Lines 162-172: the window surface. *)
Definition task_1_3 (window vk_instance : handle) : M handle :=
  '(result, vk_surface) ← ask (E_glfwCreateWindowSurface vk_instance window)
                              (w_glfwCreateWindowSurface W);
  VKL_CHECK_VULKAN_RESULT W result;;
  (if vk_surface =? 0 then
     VKL_EXIT_WITH_ERROR "No VkSurfaceKHR created or handle not assigned."
   else mret tt);;
  VKL_LOG "Task 1.3 done.";;
  mret vk_surface.

(** Lines 177-201: the physical device.  The vector is resized to the count
    of the first enumeration; the second enumeration fills it from the
    front.  The second enumeration and the helper are passed
    [&phys_devices[0]], of a vector that has the same size at both places. *)
Definition task_1_4 (vk_instance vk_surface : handle) : M handle :=
  '(result, num_physical_devices) ←
    ask (E_vkEnumeratePhysicalDevices vk_instance None)
        (w_vkEnumeratePhysicalDevices_count W);
  VKL_CHECK_VULKAN_RESULT W result;;
  element_at (replicate (Z.to_nat num_physical_devices) VK_NULL_HANDLE) 0;;
  '(result, written) ←
    ask (E_vkEnumeratePhysicalDevices vk_instance (Some num_physical_devices))
        (w_vkEnumeratePhysicalDevices W);
  let phys_devices := resize (Z.to_nat num_physical_devices) VK_NULL_HANDLE written in
  VKL_CHECK_VULKAN_RESULT W result;;
  idx_phys_device ←
    ask (E_hlpSelectPhysicalDeviceIndex phys_devices
           (Z.of_nat (length phys_devices)) vk_surface)
        (w_hlpSelectPhysicalDeviceIndex W phys_devices vk_surface);
  match phys_devices !! Z.to_nat idx_phys_device with
  | None => undefined
  | Some vk_physical_device =>
      (if vk_physical_device =? 0 then
         VKL_EXIT_WITH_ERROR "No VkPhysicalDevice selected or handle not assigned."
       else mret tt);;
      VKL_LOG "Task 1.4 done.";;
      mret vk_physical_device
  end.

(** Lines 212-216: the sanity check on a queue family index: the family
    count of the device is asked for again, and an index that is not below
    it ends the process. *)
Definition sanity_check (vk_physical_device : handle)
    (selected_queue_family_index : Z) : M unit :=
  queue_family_count ←
    ask (E_vkGetPhysicalDeviceQueueFamilyProperties vk_physical_device None)
        (Z.of_nat (length (w_queue_families W vk_physical_device)));
  if selected_queue_family_index >=? queue_family_count then
    VKL_EXIT_WITH_ERROR "Invalid queue family index selected."
  else mret tt.

(** Lines 209-217: the queue family, and the sanity check on its index. *)
Definition task_1_5 (vk_physical_device vk_surface : handle) : M Z :=
  selected_queue_family_index ← selectQueueFamilyIndex vk_physical_device vk_surface;
  sanity_check vk_physical_device selected_queue_family_index;;
  VKL_LOG "Task 1.5 done.";;
  mret selected_queue_family_index.

(** Lines 222-265: the logical device and its one queue. *)
Definition queue_priority : float := f_1.

Definition device_create_info (selected_queue_family_index : Z) : VkDeviceCreateInfo :=
  let queue_create_info :=
    {| dq_sType := VK_STRUCTURE_TYPE_DEVICE_QUEUE_CREATE_INFO;
       queueFamilyIndex := selected_queue_family_index;
       dq_queueCount := 1;
       pQueuePriorities := [queue_priority] |} in
  {| dev_sType := VK_STRUCTURE_TYPE_DEVICE_CREATE_INFO;
     pQueueCreateInfos := [queue_create_info];
     dev_ppEnabledExtensionNames := [VK_KHR_SWAPCHAIN_EXTENSION_NAME] |}.

Definition task_1_6 (vk_physical_device : handle) (selected_queue_family_index : Z)
    : M (handle * handle) :=
  '(result, vk_device) ←
    ask (E_vkCreateDevice vk_physical_device
           (device_create_info selected_queue_family_index))
        (w_vkCreateDevice W);
  VKL_CHECK_VULKAN_RESULT W result;;
  (if vk_device =? 0 then
     VKL_EXIT_WITH_ERROR "No VkDevice created or handle not assigned."
   else mret tt);;
  vk_queue ← ask (E_vkGetDeviceQueue vk_device selected_queue_family_index 0)
                 (w_vkGetDeviceQueue W);
  (if vk_queue =? 0 then
     VKL_EXIT_WITH_ERROR "No VkQueue selected or handle not assigned."
   else mret tt);;
  VKL_LOG "Task 1.6 done.";;
  mret (vk_device, vk_queue).

(** Lines 270-329: the swapchain and its images.  The vector of images is
    created with [minImageCount] null handles, and [&swap_chain_images[0]]
    is passed to the retrieval, before the vector is tested for being
    empty. *)
Definition hlpGetSurfaceImageFormat (vk_physical_device vk_surface : handle)
    : M VkSurfaceFormatKHR :=
  ask (E_hlpGetSurfaceImageFormat vk_physical_device vk_surface) (w_surface_format W).

Definition swapchain_create_info
    (vk_surface : handle) (surface_capabilities : VkSurfaceCapabilitiesKHR)
    (selected_queue_family_index : Z) (image_format image_color_space : Z)
    : VkSwapchainCreateInfoKHR :=
  let vec_queue_family_indices := [selected_queue_family_index] in
  {| sc_sType := VK_STRUCTURE_TYPE_SWAPCHAIN_CREATE_INFO_KHR;
     sc_surface := vk_surface;
     sc_minImageCount := minImageCount surface_capabilities;
     imageArrayLayers := 1;
     imageUsage := VK_IMAGE_USAGE_COLOR_ATTACHMENT_BIT;
     preTransform := currentTransform surface_capabilities;
     compositeAlpha := VK_COMPOSITE_ALPHA_OPAQUE_BIT_KHR;
     clipped := VK_TRUE;
     imageSharingMode := VK_SHARING_MODE_EXCLUSIVE;
     queueFamilyIndexCount := u32 (Z.of_nat (length vec_queue_family_indices));
     pQueueFamilyIndices := vec_queue_family_indices;
     imageFormat := image_format;
     imageColorSpace := image_color_space;
     imageExtent := {| width := window_width; height := window_height |};
     presentMode := VK_PRESENT_MODE_FIFO_KHR |}.

Definition task_1_7
    (vk_physical_device vk_surface vk_device : handle)
    (selected_queue_family_index : Z)
    : M (VkSwapchainCreateInfoKHR * handle * list handle) :=
  surface_capabilities ←
    ask (E_hlpGetPhysicalDeviceSurfaceCapabilities vk_physical_device vk_surface)
        (w_surface_capabilities W);
  surface_format ← hlpGetSurfaceImageFormat vk_physical_device vk_surface;
  surface_format' ← hlpGetSurfaceImageFormat vk_physical_device vk_surface;
  let info := swapchain_create_info vk_surface surface_capabilities
                selected_queue_family_index
                (format surface_format) (colorSpace surface_format') in
  '(result, vk_swapchain) ← ask (E_vkCreateSwapchainKHR vk_device info)
                                (w_vkCreateSwapchainKHR W);
  VKL_CHECK_VULKAN_RESULT W result;;
  (if vk_swapchain =? 0 then
     VKL_EXIT_WITH_ERROR "No VkSwapchainKHR created or handle not assigned."
   else mret tt);;
  element_at
    (replicate (Z.to_nat (minImageCount surface_capabilities)) VK_NULL_HANDLE) 0;;
  '(result, image_count, written) ←
    ask (E_vkGetSwapchainImagesKHR vk_device vk_swapchain
           (minImageCount surface_capabilities))
        (w_vkGetSwapchainImagesKHR W);
  let swap_chain_images :=
    resize (Z.to_nat (minImageCount surface_capabilities)) VK_NULL_HANDLE written in
  VKL_CHECK_VULKAN_RESULT W result;;
  (if is_empty swap_chain_images then
     VKL_EXIT_WITH_ERROR "Swap chain images not retrieved."
   else mret tt);;
  (if negb (image_count =? minImageCount surface_capabilities) then
     VKL_EXIT_WITH_ERROR "image count mismatch"
   else mret tt);;
  VKL_LOG "Task 1.7 done.";;
  mret (info, vk_swapchain, swap_chain_images).

(** Lines 336-364: hand the swapchain to the framework. *)
Fixpoint swapchain_framebuffers
    (vk_physical_device vk_surface : handle) (swap_chain_images : list handle)
    (swapchainImages : list VklSwapchainFramebufferComposition)
    : M (list VklSwapchainFramebufferComposition) :=
  match swap_chain_images with
  | [] => mret swapchainImages
  | vk_image :: rest =>
      surface_format ← hlpGetSurfaceImageFormat vk_physical_device vk_surface;
      let framebufferData :=
        {| colorAttachmentImageDetails :=
             {| det_imageFormat := format surface_format;
                det_imageUsage := VK_IMAGE_USAGE_COLOR_ATTACHMENT_BIT;
                imageHandle := vk_image;
                clearValue := (f_0_39, f_0_58, f_0_93, f_1) |};
           depthAttachmentImageHandle := VK_NULL_HANDLE |} in
      swapchain_framebuffers vk_physical_device vk_surface rest
        (swapchainImages ++ [framebufferData])
  end.

Definition task_1_8
    (vk_instance vk_surface vk_physical_device vk_device vk_queue : handle)
    (info : VkSwapchainCreateInfoKHR) (vk_swapchain : handle)
    (swap_chain_images : list handle) : M unit :=
  framebuffers ← swapchain_framebuffers vk_physical_device vk_surface
                   swap_chain_images [];
  let swapchain_config :=
    {| cfg_imageExtent := imageExtent info;
       swapchainHandle := vk_swapchain;
       swapchainImages := framebuffers |} in
  initialised ←
    ask (E_vklInitFramework vk_instance vk_surface vk_physical_device vk_device
           vk_queue swapchain_config)
        (w_vklInitFramework W);
  (if negb initialised then VKL_EXIT_WITH_ERROR "Failed to init Vulkan Launchpad"
   else mret tt);;
  VKL_LOG "Task 1.8 done.".

(** Lines 366-459: pipeline, uniform buffer, descriptors, camera, teapot. *)
Definition descriptor_binding : VkDescriptorSetLayoutBinding :=
  {| lb_binding := 0;
     lb_descriptorType := VK_DESCRIPTOR_TYPE_UNIFORM_BUFFER;
     lb_descriptorCount := 1;
     stageFlags := Z.lor VK_SHADER_STAGE_FRAGMENT_BIT VK_SHADER_STAGE_VERTEX_BIT |}.

Definition pipeline_config : VklGraphicsPipelineConfig :=
  {| vertexShaderPath := "../../shaders/vertex.shader";
     fragmentShaderPath := "../../shaders/fragment.shader";
     vertexInputBuffers :=
       [ {| vb_binding := 0; stride := sizeof_float * 3;
            inputRate := VK_VERTEX_INPUT_RATE_VERTEX |} ];
     inputAttributeDescriptions :=
       [ {| va_binding := 0; va_location := 0;
            va_format := VK_FORMAT_R32G32B32_SFLOAT |} ];
     polygonDrawMode := VK_POLYGON_MODE_FILL;
     triangleCullingMode := VK_CULL_MODE_NONE;
     descriptorLayout := [descriptor_binding] |}.

Definition descriptor_pool_create_info : VkDescriptorPoolCreateInfo :=
  {| pool_sType := VK_STRUCTURE_TYPE_DESCRIPTOR_POOL_CREATE_INFO;
     maxSets := 8;
     pPoolSizes := [ {| ps_type := VK_DESCRIPTOR_TYPE_UNIFORM_BUFFER;
                        ps_descriptorCount := 16 |} ] |}.

Definition descript_set_create_info : VkDescriptorSetLayoutCreateInfo :=
  {| pBindings := [descriptor_binding];
     layout_sType := VK_STRUCTURE_TYPE_DESCRIPTOR_SET_LAYOUT_CREATE_INFO |}.

Definition write_descriptor_set (vk_descriptor_set vk_uniform_buffer : handle)
    : VkWriteDescriptorSet :=
  {| wr_sType := VK_STRUCTURE_TYPE_WRITE_DESCRIPTOR_SET;
     dstSet := vk_descriptor_set;
     dstBinding := 0;
     wr_descriptorCount := 1;
     wr_descriptorType := VK_DESCRIPTOR_TYPE_UNIFORM_BUFFER;
     pBufferInfo := {| bi_buffer := vk_uniform_buffer; bi_offset := 0;
                       bi_range := VK_WHOLE_SIZE |} |}.

(** What the render loop and the cleanup use of the above. *)
Record frame_resources := {
  vk_pipeline : handle;
  vk_uniform_buffer : handle;
  vk_descriptor_set : handle;
  camera : handle }.

Definition create_frame_resources (window vk_device : handle)
    (uniform_buffer_data : UniformBufferData) : M frame_resources :=
  pipeline ← ask (E_vklCreateGraphicsPipeline pipeline_config)
                 (w_vklCreateGraphicsPipeline W);
  uniform_buffer ←
    ask (E_vklCreateHostCoherentBufferWithBackingMemory sizeof_UniformBufferData
           (Z.lor VK_BUFFER_USAGE_TRANSFER_DST_BIT VK_BUFFER_USAGE_UNIFORM_BUFFER_BIT))
        (w_vklCreateHostCoherentBuffer W);
  call (E_vklCopyDataIntoHostCoherentBuffer uniform_buffer uniform_buffer_data
          sizeof_UniformBufferData);;
  '(result, vk_descriptor_pool) ←
    ask (E_vkCreateDescriptorPool vk_device descriptor_pool_create_info)
        (w_vkCreateDescriptorPool W);
  VKL_CHECK_VULKAN_RESULT W result;;
  '(result, vk_descriptor_set_layout) ←
    ask (E_vkCreateDescriptorSetLayout vk_device descript_set_create_info)
        (w_vkCreateDescriptorSetLayout W);
  VKL_CHECK_VULKAN_RESULT W result;;
  let descriptor_set_alloc_info :=
    {| alloc_sType := VK_STRUCTURE_TYPE_DESCRIPTOR_SET_ALLOCATE_INFO;
       descriptorPool := vk_descriptor_pool;
       pSetLayouts := [vk_descriptor_set_layout] |} in
  '(result, descriptor_set) ←
    ask (E_vkAllocateDescriptorSets vk_device descriptor_set_alloc_info)
        (w_vkAllocateDescriptorSets W);
  call (E_vkUpdateDescriptorSets vk_device
          [write_descriptor_set descriptor_set uniform_buffer]);;
  cam ← ask (E_vklCreateCamera window) (w_vklCreateCamera W);
  call E_teapotCreateGeometryAndBuffers;;
  mret {| vk_pipeline := pipeline; vk_uniform_buffer := uniform_buffer;
          vk_descriptor_set := descriptor_set; camera := cam |}.

(** Lines 464-476: the render loop.  One iteration of the [while] body: *)
Definition render_frame (r : frame_resources)
    (uniform_buffer_data : UniformBufferData) : M UniformBufferData :=
  glfwPollEvents;;
  call (E_vklUpdateCamera (camera r));;
  matrix ← vklGetCameraViewProjectionMatrix (camera r);
  let uniform_buffer_data :=
    {| color := color uniform_buffer_data; transformation := matrix |} in
  call (E_vklCopyDataIntoHostCoherentBuffer (vk_uniform_buffer r)
          uniform_buffer_data sizeof_UniformBufferData);;
  call E_vklWaitForNextSwapchainImage;;
  call E_vklStartRecordingCommands;;
  call (E_teapotDraw (vk_pipeline r) (vk_descriptor_set r));;
  call E_vklEndRecordingCommands;;
  call E_vklPresentCurrentSwapchainImage;;
  mret uniform_buffer_data.

(** The [while] loop; [budget] bounds the number of iterations that are
    followed, and a loop that wants one more ends [Unfinished]. *)
Fixpoint render_loop (budget : nat) (window : handle) (r : frame_resources)
    (uniform_buffer_data : UniformBufferData) : M UniformBufferData :=
  closing ← glfwWindowShouldClose window;
  if (closing : bool) then mret uniform_buffer_data
  else
    match budget with
    | O => unfinished
    | S budget' =>
        uniform_buffer_data ← render_frame r uniform_buffer_data;
        render_loop budget' window r uniform_buffer_data
    end.

(** Lines 485-491: cleanup. *)
Definition task_1_10 (r : frame_resources) : M unit :=
  call (E_vklDestroyCamera (camera r));;
  call (E_vklDestroyHostCoherentBufferAndItsBackingMemory (vk_uniform_buffer r));;
  call (E_vklDestroyGraphicsPipeline (vk_pipeline r));;
  call E_teapotDestroyBuffers;;
  call E_vklDestroyFramework;;
  call E_glfwTerminate.

(** Lines 68-459: everything up to the render loop. *)
Definition bring_up : M (handle * handle * frame_resources) :=
  window ← task_1_1;
  vk_instance ← task_1_2;
  vk_surface ← task_1_3 window vk_instance;
  vk_physical_device ← task_1_4 vk_instance vk_surface;
  selected_queue_family_index ← task_1_5 vk_physical_device vk_surface;
  '(vk_device, vk_queue) ← task_1_6 vk_physical_device selected_queue_family_index;
  '(info, vk_swapchain, swap_chain_images) ←
    task_1_7 vk_physical_device vk_surface vk_device selected_queue_family_index;
  task_1_8 vk_instance vk_surface vk_physical_device vk_device vk_queue
    info vk_swapchain swap_chain_images;;
  r ← create_frame_resources window vk_device initial_uniform_buffer_data;
  mret (window, vk_device, r).

Definition main (budget : nat) : M Z :=
  '(window, vk_device, r) ← bring_up;
  render_loop budget window r initial_uniform_buffer_data;;
  call (E_vkDeviceWaitIdle vk_device);;
  task_1_10 r;;
  mret EXIT_SUCCESS.

(** The state the process starts in. *)
Definition initial_state : state :=
  {| g_isGlfwKeyDown := ∅; should_close := w_initially_closing W; polls := 0%nat |}.

Definition run_main (budget : nat) : run Z := main budget initial_state.

End Program.

(** ** A sample world *)

(** One device with a compute-only family, a graphics family that cannot
    present and a family that can do both; the user releases Escape while
    the second frame polls. *)
Definition sample_world : world :=
  {| w_check_passes := λ r, r =? VK_SUCCESS;
     w_glfwInit := true;
     w_glfwCreateWindow := 100;
     w_glfwGetRequiredInstanceExtensions := ["VK_KHR_surface"; "VK_KHR_xcb_surface"];
     w_vklGetRequiredInstanceExtensions := ["VK_EXT_debug_utils"];
     w_hlpIsInstanceExtensionSupported := λ _, true;
     w_hlpIsInstanceLayerSupported := λ _, true;
     w_vkCreateInstance := (VK_SUCCESS, 101);
     w_glfwCreateWindowSurface := (VK_SUCCESS, 102);
     w_vkEnumeratePhysicalDevices_count := (VK_SUCCESS, 1);
     w_vkEnumeratePhysicalDevices := (VK_SUCCESS, [103]);
     w_hlpSelectPhysicalDeviceIndex := λ _ _, 0;
     w_queue_families := λ _,
       [ {| queueFlags := 2; queueCount := 1; timestampValidBits := 64 |};
         {| queueFlags := 7; queueCount := 1; timestampValidBits := 64 |};
         {| queueFlags := 15; queueCount := 16; timestampValidBits := 64 |} ];
     w_surface_support := λ _ index _, if index =? 2 then VK_TRUE else VK_FALSE;
     w_vkCreateDevice := (VK_SUCCESS, 104);
     w_vkGetDeviceQueue := 105;
     w_surface_capabilities :=
       {| minImageCount := 2; maxImageCount := 8;
          currentExtent := {| width := 1600; height := 1600 |};
          currentTransform := 1 |};
     w_surface_format := {| format := 44; colorSpace := 0 |};
     w_vkCreateSwapchainKHR := (VK_SUCCESS, 106);
     w_vkGetSwapchainImagesKHR := (VK_SUCCESS, 2, [107; 108]);
     w_vklInitFramework := true;
     w_vklCreateGraphicsPipeline := 109;
     w_vklCreateHostCoherentBuffer := 110;
     w_vkCreateDescriptorPool := (VK_SUCCESS, 111);
     w_vkCreateDescriptorSetLayout := (VK_SUCCESS, 112);
     w_vkAllocateDescriptorSets := (VK_SUCCESS, 113);
     w_vklCreateCamera := 114;
     w_initially_closing := false;
     w_poll_events := λ n,
       match n with
       | 0%nat => [KeyEvent 87 25 GLFW_PRESS 0]
       | 1%nat => [KeyEvent 87 25 GLFW_RELEASE 0; KeyEvent GLFW_KEY_ESCAPE 9 GLFW_RELEASE 0]
       | _ => []
       end;
     w_camera_matrix := λ n,
       let d := Z.of_nat n in ((d, 0, 0, 0), (0, d, 0, 0), (0, 0, d, 0), (0, 0, 0, d)) |}.

(** A world with another answer to [vkGetSwapchainImagesKHR]. *)
Definition with_swapchain_images (W : world) (answer : VkResult * Z * list handle)
    : world :=
  {| w_check_passes := w_check_passes W;
     w_glfwInit := w_glfwInit W;
     w_glfwCreateWindow := w_glfwCreateWindow W;
     w_glfwGetRequiredInstanceExtensions := w_glfwGetRequiredInstanceExtensions W;
     w_vklGetRequiredInstanceExtensions := w_vklGetRequiredInstanceExtensions W;
     w_hlpIsInstanceExtensionSupported := w_hlpIsInstanceExtensionSupported W;
     w_hlpIsInstanceLayerSupported := w_hlpIsInstanceLayerSupported W;
     w_vkCreateInstance := w_vkCreateInstance W;
     w_glfwCreateWindowSurface := w_glfwCreateWindowSurface W;
     w_vkEnumeratePhysicalDevices_count := w_vkEnumeratePhysicalDevices_count W;
     w_vkEnumeratePhysicalDevices := w_vkEnumeratePhysicalDevices W;
     w_hlpSelectPhysicalDeviceIndex := w_hlpSelectPhysicalDeviceIndex W;
     w_queue_families := w_queue_families W;
     w_surface_support := w_surface_support W;
     w_vkCreateDevice := w_vkCreateDevice W;
     w_vkGetDeviceQueue := w_vkGetDeviceQueue W;
     w_surface_capabilities := w_surface_capabilities W;
     w_surface_format := w_surface_format W;
     w_vkCreateSwapchainKHR := w_vkCreateSwapchainKHR W;
     w_vkGetSwapchainImagesKHR := answer;
     w_vklInitFramework := w_vklInitFramework W;
     w_vklCreateGraphicsPipeline := w_vklCreateGraphicsPipeline W;
     w_vklCreateHostCoherentBuffer := w_vklCreateHostCoherentBuffer W;
     w_vkCreateDescriptorPool := w_vkCreateDescriptorPool W;
     w_vkCreateDescriptorSetLayout := w_vkCreateDescriptorSetLayout W;
     w_vkAllocateDescriptorSets := w_vkAllocateDescriptorSets W;
     w_vklCreateCamera := w_vklCreateCamera W;
     w_initially_closing := w_initially_closing W;
     w_poll_events := w_poll_events W;
     w_camera_matrix := w_camera_matrix W |}.

(** A driver that hands out three images where two were asked for. *)
Definition mismatch_world : world :=
  with_swapchain_images sample_world (VK_SUCCESS, 3, [107; 108; 109]).

(** ** Vocabulary of the properties *)

(** *** Queue family selection *)

Definition graphics_capable (family : VkQueueFamilyProperties) : bool :=
  negb (Z.land (queueFlags family) VK_QUEUE_GRAPHICS_BIT =? 0).

(** The spec's predicate: family [n] of the device can take graphics
    commands and the presentation-support query for index [n] and the surface
    answers true. *)
Definition suitable (W : world) (physical_device surface : handle) (n : nat) : bool :=
  match w_queue_families W physical_device !! n with
  | Some family =>
      graphics_capable family
      && (VK_TRUE =? w_surface_support W physical_device (Z.of_nat n) surface)
  | None => false
  end.

(** The presentation-support queries made while families [start], ...,
    [start + len - 1] are visited in this order: one per family with the
    graphics bit. *)
Fixpoint probes (W : world) (physical_device surface : handle) (start len : nat)
    : list event :=
  match len with
  | O => []
  | S len' =>
      match w_queue_families W physical_device !! start with
      | Some family =>
          if graphics_capable family
          then [E_vkGetPhysicalDeviceSurfaceSupportKHR physical_device
                  (Z.of_nat start) surface]
          else []
      | None => []
      end ++ probes W physical_device surface (S start) len'
  end.

Definition no_suitable_family : string :=
  "Unable to find a suitable queue family that supports graphics and presentation on the same queue.".

(** What the loop guarantees when it starts at family [k] with [remaining]
    families to go. *)
Definition loop_post (W : world) (physical_device surface : handle)
    (s : state) (k remaining : nat) (r : run (option Z)) : Prop :=
  state_of r = s ∧
  match outcome_of r with
  | Ret (Some i) =>
      ∃ n, i = Z.of_nat n ∧ (k ≤ n < k + remaining)%nat ∧
           suitable W physical_device surface n = true ∧
           (∀ m, (k ≤ m < n)%nat → suitable W physical_device surface m = false) ∧
           calls_of r = probes W physical_device surface k (S n - k)
  | Ret None =>
      (∀ m, (k ≤ m)%nat → suitable W physical_device surface m = false) ∧
      calls_of r = probes W physical_device surface k remaining
  | _ => False
  end.

(** *** Key state *)

(** What can happen to the key map: GLFW delivers a key event to the
    callback, or somebody asks [isKeyDown]. *)
Inductive key_op :=
| Delivered (key scancode action mods : Z)
| Queried (key : Z).

Definition key_op_run (window : handle) (op : key_op) : M unit :=
  match op with
  | Delivered key scancode action mods =>
      handleGlfwKeyCallback window key scancode action mods
  | Queried key => isKeyDown key;; mret tt
  end.

Fixpoint key_ops_run (window : handle) (ops : list key_op) : M unit :=
  match ops with
  | [] => mret tt
  | op :: rest => key_op_run window op;; key_ops_run window rest
  end.

Definition delivers (k : Z) (op : key_op) : bool :=
  match op with
  | Delivered key _ _ _ => key =? k
  | Queried _ => false
  end.

(** The value the map holds for a key, an absent key counting as up. *)
Definition held (s : state) (k : Z) : bool :=
  default false (g_isGlfwKeyDown s !! k).

(** *** The render loop *)

Definition escape_release (ev : input_event) : bool :=
  match ev with
  | KeyEvent key _ action _ => (action =? GLFW_RELEASE) && (key =? GLFW_KEY_ESCAPE)
  | CloseRequest => false
  end.

(** An event that makes GLFW report a close request from then on. *)
Definition requests_close (ev : input_event) : bool :=
  match ev with
  | KeyEvent _ _ _ _ => escape_release ev
  | CloseRequest => true
  end.

(** The calls the key callback makes while a batch of events is drained. *)
Definition callback_calls (window : handle) (evs : list input_event) : list event :=
  flat_map (λ ev, if escape_release ev
                  then [E_glfwSetWindowShouldClose window true] else []) evs.

(** *** Bring-up *)

Definition framebuffer (image_format : Z) (vk_image : handle)
    : VklSwapchainFramebufferComposition :=
  {| colorAttachmentImageDetails :=
       {| det_imageFormat := image_format;
          det_imageUsage := VK_IMAGE_USAGE_COLOR_ATTACHMENT_BIT;
          imageHandle := vk_image;
          clearValue := (f_0_39, f_0_58, f_0_93, f_1) |};
     depthAttachmentImageHandle := VK_NULL_HANDLE |}.

Definition invalid_index : string := "Invalid queue family index selected.".

(** The index the selector returns for a device and a surface, when it
    returns, together with the bound [main] checks it against. *)
Definition selected (W : world) (physical_device surface : handle) (i : Z) : Prop :=
  outcome_of (selectQueueFamilyIndex W physical_device surface (initial_state W))
    = Ret i ∧
  0 ≤ i < Z.of_nat (length (w_queue_families W physical_device)).

(** The surface the window system hands out, and the logical device. *)
Definition the_surface (W : world) : handle := (w_glfwCreateWindowSurface W).2.
Definition the_device (W : world) : handle := (w_vkCreateDevice W).2.

(** The vector of physical devices after the two enumerations. *)
Definition phys_devices (W : world) : list handle :=
  resize (Z.to_nat (w_vkEnumeratePhysicalDevices_count W).2) VK_NULL_HANDLE
    (w_vkEnumeratePhysicalDevices W).2.

(** The physical device and the queue family [main] works with: the device
    at the index the helper answers for the enumerated devices and the
    surface, and the index the selector returns for that device and the
    surface. *)
Definition main_selects (W : world) (physical_device : handle) (i : Z) : Prop :=
  phys_devices W
    !! Z.to_nat (w_hlpSelectPhysicalDeviceIndex W (phys_devices W) (the_surface W))
    = Some physical_device ∧
  selected W physical_device (the_surface W) i.

(** Where a run may end with an error: never at the sanity check of the
    selected index. *)
Definition exit_allowed (f : failure) : Prop :=
  f ≠ ErrorMessage invalid_index.

(** The calls made between the creation of the window and the hand-over to
    the framework (lines 127-329), with what is known of their arguments. *)
Inductive context_call (W : world) : event → Prop :=
| cc_log msg : context_call W (E_LOG msg)
| cc_exit f : exit_allowed f → context_call W (E_EXIT_WITH_ERROR f)
| cc_glfw_extensions : context_call W E_glfwGetRequiredInstanceExtensions
| cc_vkl_extensions : context_call W E_vklGetRequiredInstanceExtensions
| cc_extension_supported name :
    context_call W (E_hlpIsInstanceExtensionSupported name)
| cc_layer_supported name : context_call W (E_hlpIsInstanceLayerSupported name)
| cc_create_instance info : context_call W (E_vkCreateInstance info)
| cc_create_surface instance window :
    context_call W (E_glfwCreateWindowSurface instance window)
| cc_enumerate instance capacity :
    context_call W (E_vkEnumeratePhysicalDevices instance capacity)
| cc_select_device devices count surface :
    context_call W (E_hlpSelectPhysicalDeviceIndex devices count surface)
| cc_families physical_device capacity :
    context_call W (E_vkGetPhysicalDeviceQueueFamilyProperties physical_device capacity)
| cc_surface_support physical_device index surface :
    context_call W (E_vkGetPhysicalDeviceSurfaceSupportKHR physical_device index surface)
| cc_create_device physical_device i :
    main_selects W physical_device i →
    context_call W (E_vkCreateDevice physical_device (device_create_info i))
| cc_get_queue device physical_device surface i :
    selected W physical_device surface i →
    context_call W (E_vkGetDeviceQueue device i 0)
| cc_capabilities physical_device surface :
    context_call W (E_hlpGetPhysicalDeviceSurfaceCapabilities physical_device surface)
| cc_format physical_device surface :
    context_call W (E_hlpGetSurfaceImageFormat physical_device surface)
| cc_create_swapchain physical_device i :
    main_selects W physical_device i →
    context_call W
      (E_vkCreateSwapchainKHR (the_device W)
         (swapchain_create_info (the_surface W) (w_surface_capabilities W) i
            (format (w_surface_format W)) (colorSpace (w_surface_format W))))
| cc_get_images device swapchain :
    context_call W
      (E_vkGetSwapchainImagesKHR device swapchain
         (minImageCount (w_surface_capabilities W))).

(** The handles the render loop and the cleanup work with, as the world
    hands them out. *)
Definition the_resources (W : world) : frame_resources :=
  {| vk_pipeline := w_vklCreateGraphicsPipeline W;
     vk_uniform_buffer := w_vklCreateHostCoherentBuffer W;
     vk_descriptor_set := (w_vkAllocateDescriptorSets W).2;
     camera := w_vklCreateCamera W |}.

Definition window_extent : VkExtent2D :=
  {| width := window_width; height := window_height |}.

(** The number of images the driver reports for the swapchain. *)
Definition retrieved_image_count (W : world) : Z := (w_vkGetSwapchainImagesKHR W).1.2.

(** The calls made from the hand-over to the framework up to the render
    loop (lines 336-459). *)
Inductive frame_call (W : world) : event → Prop :=
| fc_log msg : frame_call W (E_LOG msg)
| fc_exit f : exit_allowed f → frame_call W (E_EXIT_WITH_ERROR f)
| fc_format physical_device surface :
    frame_call W (E_hlpGetSurfaceImageFormat physical_device surface)
| fc_init_framework instance surface physical_device queue config :
    cfg_imageExtent config = window_extent →
    retrieved_image_count W = minImageCount (w_surface_capabilities W) →
    frame_call W
      (E_vklInitFramework instance surface physical_device (the_device W) queue config)
| fc_create_pipeline : frame_call W (E_vklCreateGraphicsPipeline pipeline_config)
| fc_create_buffer size usage :
    frame_call W (E_vklCreateHostCoherentBufferWithBackingMemory size usage)
| fc_copy :
    frame_call W
      (E_vklCopyDataIntoHostCoherentBuffer (vk_uniform_buffer (the_resources W))
         initial_uniform_buffer_data sizeof_UniformBufferData)
| fc_pool info : frame_call W (E_vkCreateDescriptorPool (the_device W) info)
| fc_layout info : frame_call W (E_vkCreateDescriptorSetLayout (the_device W) info)
| fc_allocate info : frame_call W (E_vkAllocateDescriptorSets (the_device W) info)
| fc_update writes : frame_call W (E_vkUpdateDescriptorSets (the_device W) writes)
| fc_create_camera window : frame_call W (E_vklCreateCamera window)
| fc_teapot : frame_call W E_teapotCreateGeometryAndBuffers.

(** The calls of [task_1_8] and [create_frame_resources] when both
    return. *)
Definition frame_calls (W : world) (instance surface physical_device queue : handle)
    (swapchain : handle) (images : list handle) : list event :=
  replicate (length images) (E_hlpGetSurfaceImageFormat physical_device surface)
  ++ [E_vklInitFramework instance surface physical_device (the_device W) queue
        {| cfg_imageExtent := window_extent;
           swapchainHandle := swapchain;
           swapchainImages := map (framebuffer (format (w_surface_format W))) images |};
      E_LOG "Task 1.8 done.";
      E_vklCreateGraphicsPipeline pipeline_config;
      E_vklCreateHostCoherentBufferWithBackingMemory sizeof_UniformBufferData
        (Z.lor VK_BUFFER_USAGE_TRANSFER_DST_BIT VK_BUFFER_USAGE_UNIFORM_BUFFER_BIT);
      E_vklCopyDataIntoHostCoherentBuffer (vk_uniform_buffer (the_resources W))
        initial_uniform_buffer_data sizeof_UniformBufferData;
      E_vkCreateDescriptorPool (the_device W) descriptor_pool_create_info;
      E_vkCreateDescriptorSetLayout (the_device W) descript_set_create_info;
      E_vkAllocateDescriptorSets (the_device W)
        {| alloc_sType := VK_STRUCTURE_TYPE_DESCRIPTOR_SET_ALLOCATE_INFO;
           descriptorPool := (w_vkCreateDescriptorPool W).2;
           pSetLayouts := [(w_vkCreateDescriptorSetLayout W).2] |};
      E_vkUpdateDescriptorSets (the_device W)
        [write_descriptor_set (vk_descriptor_set (the_resources W))
           (vk_uniform_buffer (the_resources W))];
      E_vklCreateCamera (w_glfwCreateWindow W);
      E_teapotCreateGeometryAndBuffers].

(** The calls of [task_1_1] when it returns. *)
Definition window_calls (W : world) : list event :=
  [E_LOG ":::::: WELCOME TO VULKAN LAUNCHPAD ::::::";
   E_glfwSetErrorCallback;
   E_glfwInit;
   E_glfwWindowHint GLFW_CLIENT_API GLFW_NO_API;
   E_glfwWindowHint GLFW_RESIZABLE GLFW_FALSE;
   E_glfwCreateWindow window_width window_height window_title
     VK_NULL_HANDLE VK_NULL_HANDLE;
   E_LOG "Task 1.1 done.";
   E_glfwSetKeyCallback (w_glfwCreateWindow W)].

(** Calls that have to do with the window: none is made once [task_1_1] is
    over, until the render loop starts. *)
Definition is_window_call (e : event) : bool :=
  match e with
  | E_glfwInit | E_glfwWindowHint _ _ | E_glfwCreateWindow _ _ _ _ _ => true
  | _ => false
  end.

(** *** The whole run *)

(** The calls of [task_1_1] (lines 70-110). *)
Inductive window_call (W : world) : event → Prop :=
| wc_log msg : window_call W (E_LOG msg)
| wc_exit f : exit_allowed f → window_call W (E_EXIT_WITH_ERROR f)
| wc_set_error_callback : window_call W E_glfwSetErrorCallback
| wc_init : window_call W E_glfwInit
| wc_hint_client_api : window_call W (E_glfwWindowHint GLFW_CLIENT_API GLFW_NO_API)
| wc_hint_resizable : window_call W (E_glfwWindowHint GLFW_RESIZABLE GLFW_FALSE)
| wc_create_window :
    window_call W
      (E_glfwCreateWindow window_width window_height window_title
         VK_NULL_HANDLE VK_NULL_HANDLE)
| wc_set_key_callback : window_call W (E_glfwSetKeyCallback (w_glfwCreateWindow W)).

(** The calls of the render loop (lines 464-476). *)
Inductive loop_call (W : world) : event → Prop :=
| lc_should_close : loop_call W (E_glfwWindowShouldClose (w_glfwCreateWindow W))
| lc_poll : loop_call W E_glfwPollEvents
| lc_set_should_close :
    loop_call W (E_glfwSetWindowShouldClose (w_glfwCreateWindow W) true)
| lc_update_camera : loop_call W (E_vklUpdateCamera (camera (the_resources W)))
| lc_matrix :
    loop_call W (E_vklGetCameraViewProjectionMatrix (camera (the_resources W)))
| lc_copy matrix :
    loop_call W
      (E_vklCopyDataIntoHostCoherentBuffer (vk_uniform_buffer (the_resources W))
         {| color := color initial_uniform_buffer_data; transformation := matrix |}
         sizeof_UniformBufferData)
| lc_wait : loop_call W E_vklWaitForNextSwapchainImage
| lc_start : loop_call W E_vklStartRecordingCommands
| lc_draw :
    loop_call W
      (E_teapotDraw (vk_pipeline (the_resources W))
         (vk_descriptor_set (the_resources W)))
| lc_end : loop_call W E_vklEndRecordingCommands
| lc_present : loop_call W E_vklPresentCurrentSwapchainImage.

(** The calls after the render loop (lines 479-491). *)
Definition shutdown_calls (W : world) : list event :=
  [E_vkDeviceWaitIdle (the_device W);
   E_vklDestroyCamera (camera (the_resources W));
   E_vklDestroyHostCoherentBufferAndItsBackingMemory
     (vk_uniform_buffer (the_resources W));
   E_vklDestroyGraphicsPipeline (vk_pipeline (the_resources W));
   E_teapotDestroyBuffers;
   E_vklDestroyFramework;
   E_glfwTerminate].

(** *** Teardown *)

(** The resources [main] releases at the end. *)
Inductive resource :=
| Window | Framework | Pipeline | UniformBuffer | Camera | Geometry.

#[global] Instance resource_eq_dec : EqDecision resource.
Proof. solve_decision. Defined.

Definition created (e : event) : option resource :=
  match e with
  | E_glfwCreateWindow _ _ _ _ _ => Some Window
  | E_vklInitFramework _ _ _ _ _ _ => Some Framework
  | E_vklCreateGraphicsPipeline _ => Some Pipeline
  | E_vklCreateHostCoherentBufferWithBackingMemory _ _ => Some UniformBuffer
  | E_vklCreateCamera _ => Some Camera
  | E_teapotCreateGeometryAndBuffers => Some Geometry
  | _ => None
  end.

Definition destroyed (e : event) : option resource :=
  match e with
  | E_glfwTerminate => Some Window
  | E_vklDestroyFramework => Some Framework
  | E_vklDestroyGraphicsPipeline _ => Some Pipeline
  | E_vklDestroyHostCoherentBufferAndItsBackingMemory _ => Some UniformBuffer
  | E_vklDestroyCamera _ => Some Camera
  | E_teapotDestroyBuffers => Some Geometry
  | _ => None
  end.

Definition creation_order (calls : list event) : list resource :=
  omap created calls.
Definition destruction_order (calls : list event) : list resource :=
  omap destroyed calls.

(** *** Shutdown *)

(** Calls that release a resource the program owns. *)
Definition releases (e : event) : bool :=
  match e with
  | E_vklDestroyCamera _
  | E_vklDestroyHostCoherentBufferAndItsBackingMemory _
  | E_vklDestroyGraphicsPipeline _
  | E_teapotDestroyBuffers
  | E_vklDestroyFramework
  | E_glfwTerminate => true
  | _ => false
  end.

(** Calls that record commands or present an image. *)
Definition records_or_presents (e : event) : bool :=
  match e with
  | E_vklStartRecordingCommands
  | E_teapotDraw _ _
  | E_vklEndRecordingCommands
  | E_vklPresentCurrentSwapchainImage => true
  | _ => false
  end.

Definition is_idle_wait (e : event) : bool :=
  match e with E_vkDeviceWaitIdle _ => true | _ => false end.

(** *** Uniform data and descriptors *)

(** The four steps of the descriptor wiring. *)
Inductive descriptor_step :=
| CreatePool | CreateLayout | AllocateSet | UpdateSet.

Definition descriptor_step_of (e : event) : option descriptor_step :=
  match e with
  | E_vkCreateDescriptorPool _ _ => Some CreatePool
  | E_vkCreateDescriptorSetLayout _ _ => Some CreateLayout
  | E_vkAllocateDescriptorSets _ _ => Some AllocateSet
  | E_vkUpdateDescriptorSets _ _ => Some UpdateSet
  | _ => None
  end.

Definition is_loop_top (e : event) : bool :=
  match e with E_glfwWindowShouldClose _ => true | _ => false end.

(** *** Required extensions *)

(** The calls [getRequiredInstanceExtensions] makes for extensions that are
    supported: the support query, then the log line. *)
Definition extension_checks (exts : list string) : list event :=
  flat_map (λ ext, [E_hlpIsInstanceExtensionSupported ext;
                    E_LOG ("Extension " +:+ dq +:+ ext +:+ dq +:+ " is supported")])
           exts.

Definition unsupported_extension (ext : string) : failure :=
  ErrorMessage ("Required extension " +:+ dq +:+ ext +:+ dq +:+ " is not supported").

(** *** Variants of a world *)

(** A world with other answers to the extension support query, to the count
    of physical devices, to the descriptor set allocation, and another
    initial close flag. *)
Definition variant (W : world) (supported : string → bool)
    (device_count : VkResult * Z) (allocated : VkResult * handle) (closing : bool)
    : world :=
  {| w_check_passes := w_check_passes W;
     w_glfwInit := w_glfwInit W;
     w_glfwCreateWindow := w_glfwCreateWindow W;
     w_glfwGetRequiredInstanceExtensions := w_glfwGetRequiredInstanceExtensions W;
     w_vklGetRequiredInstanceExtensions := w_vklGetRequiredInstanceExtensions W;
     w_hlpIsInstanceExtensionSupported := supported;
     w_hlpIsInstanceLayerSupported := w_hlpIsInstanceLayerSupported W;
     w_vkCreateInstance := w_vkCreateInstance W;
     w_glfwCreateWindowSurface := w_glfwCreateWindowSurface W;
     w_vkEnumeratePhysicalDevices_count := device_count;
     w_vkEnumeratePhysicalDevices := w_vkEnumeratePhysicalDevices W;
     w_hlpSelectPhysicalDeviceIndex := w_hlpSelectPhysicalDeviceIndex W;
     w_queue_families := w_queue_families W;
     w_surface_support := w_surface_support W;
     w_vkCreateDevice := w_vkCreateDevice W;
     w_vkGetDeviceQueue := w_vkGetDeviceQueue W;
     w_surface_capabilities := w_surface_capabilities W;
     w_surface_format := w_surface_format W;
     w_vkCreateSwapchainKHR := w_vkCreateSwapchainKHR W;
     w_vkGetSwapchainImagesKHR := w_vkGetSwapchainImagesKHR W;
     w_vklInitFramework := w_vklInitFramework W;
     w_vklCreateGraphicsPipeline := w_vklCreateGraphicsPipeline W;
     w_vklCreateHostCoherentBuffer := w_vklCreateHostCoherentBuffer W;
     w_vkCreateDescriptorPool := w_vkCreateDescriptorPool W;
     w_vkCreateDescriptorSetLayout := w_vkCreateDescriptorSetLayout W;
     w_vkAllocateDescriptorSets := allocated;
     w_vklCreateCamera := w_vklCreateCamera W;
     w_initially_closing := closing;
     w_poll_events := w_poll_events W;
     w_camera_matrix := w_camera_matrix W |}.

(** A world with other required extensions and another minimum image count
    of the surface. *)
Definition with_requirements (W : world) (glfw_extensions vkl_extensions : list string)
    (min_image_count : Z) : world :=
  {| w_check_passes := w_check_passes W;
     w_glfwInit := w_glfwInit W;
     w_glfwCreateWindow := w_glfwCreateWindow W;
     w_glfwGetRequiredInstanceExtensions := glfw_extensions;
     w_vklGetRequiredInstanceExtensions := vkl_extensions;
     w_hlpIsInstanceExtensionSupported := w_hlpIsInstanceExtensionSupported W;
     w_hlpIsInstanceLayerSupported := w_hlpIsInstanceLayerSupported W;
     w_vkCreateInstance := w_vkCreateInstance W;
     w_glfwCreateWindowSurface := w_glfwCreateWindowSurface W;
     w_vkEnumeratePhysicalDevices_count := w_vkEnumeratePhysicalDevices_count W;
     w_vkEnumeratePhysicalDevices := w_vkEnumeratePhysicalDevices W;
     w_hlpSelectPhysicalDeviceIndex := w_hlpSelectPhysicalDeviceIndex W;
     w_queue_families := w_queue_families W;
     w_surface_support := w_surface_support W;
     w_vkCreateDevice := w_vkCreateDevice W;
     w_vkGetDeviceQueue := w_vkGetDeviceQueue W;
     w_surface_capabilities :=
       {| minImageCount := min_image_count;
          maxImageCount := maxImageCount (w_surface_capabilities W);
          currentExtent := currentExtent (w_surface_capabilities W);
          currentTransform := currentTransform (w_surface_capabilities W) |};
     w_surface_format := w_surface_format W;
     w_vkCreateSwapchainKHR := w_vkCreateSwapchainKHR W;
     w_vkGetSwapchainImagesKHR := w_vkGetSwapchainImagesKHR W;
     w_vklInitFramework := w_vklInitFramework W;
     w_vklCreateGraphicsPipeline := w_vklCreateGraphicsPipeline W;
     w_vklCreateHostCoherentBuffer := w_vklCreateHostCoherentBuffer W;
     w_vkCreateDescriptorPool := w_vkCreateDescriptorPool W;
     w_vkCreateDescriptorSetLayout := w_vkCreateDescriptorSetLayout W;
     w_vkAllocateDescriptorSets := w_vkAllocateDescriptorSets W;
     w_vklCreateCamera := w_vklCreateCamera W;
     w_initially_closing := w_initially_closing W;
     w_poll_events := w_poll_events W;
     w_camera_matrix := w_camera_matrix W |}.

(** The sample world where neither GLFW nor the framework requires an
    extension. *)
Definition no_extension_world : world :=
  with_requirements sample_world [] [] 2.

(** The sample world where the surface minimum is zero images, and the
    driver would report two. *)
Definition no_image_world : world :=
  with_requirements sample_world ["VK_KHR_surface"; "VK_KHR_xcb_surface"]
    ["VK_EXT_debug_utils"] 0.

(** The sample world without the xcb surface extension. *)
Definition no_xcb_world : world :=
  variant sample_world (λ ext, negb (String.eqb ext "VK_KHR_xcb_surface"))
    (VK_SUCCESS, 1) (VK_SUCCESS, 113) false.

(** The sample world where the window is to close from the start. *)
Definition closing_world : world :=
  variant sample_world (λ _, true) (VK_SUCCESS, 1) (VK_SUCCESS, 113) true.

(** The sample world where the descriptor set allocation fails: an error
    code ([VK_ERROR_OUT_OF_POOL_MEMORY]) and no handle. *)
Definition no_descriptor_set_world : world :=
  variant sample_world (λ _, true) (VK_SUCCESS, 1) (-1000069000, VK_NULL_HANDLE) false.

(** The sample world where the driver enumerates no physical device. *)
Definition no_device_world : world :=
  variant sample_world (λ _, true) (VK_SUCCESS, 0) (VK_SUCCESS, 113) false.

(** *** Keys and frames *)

(** What the key map holds for key [k] once a batch of events has been
    delivered, from what it held before: the last press or release of [k]
    in the batch decides, any other event leaves the entry as it is. *)
Definition key_after (k : Z) (evs : list input_event) (before : option bool)
    : option bool :=
  foldl (λ entry ev,
           match ev with
           | KeyEvent key _ action _ =>
               if key =? k then
                 if action =? GLFW_RELEASE then Some false
                 else if action =? GLFW_PRESS then Some true
                 else entry
               else entry
           | CloseRequest => entry
           end)
        before evs.

Definition is_present (e : event) : bool :=
  match e with E_vklPresentCurrentSwapchainImage => true | _ => false end.

(** How many calls of a kind a run made. *)
Definition number_of (kind : event → bool) (calls : list event) : nat :=
  length (List.filter kind calls).

(** Everything polled in [n] polls, from poll [from] on, oldest first. *)
Definition polled (W : world) (from n : nat) : list input_event :=
  flat_map (w_poll_events W) (seq from n).

(** *** Checked handles *)

Definition live (h : handle) : bool := negb (h =? 0).

(** [main] checks seven handles after obtaining them: the window, the
    instance, the surface, the physical device, the device, the queue and
    the swapchain.  A call takes live handles when those of the seven it is
    passed are not null. *)
Definition takes_live_handles (e : event) : bool :=
  match e with
  | E_glfwSetKeyCallback window => live window
  | E_glfwCreateWindowSurface instance window => live instance && live window
  | E_vkEnumeratePhysicalDevices instance _ => live instance
  | E_hlpSelectPhysicalDeviceIndex _ _ surface => live surface
  | E_vkGetPhysicalDeviceQueueFamilyProperties physical_device _ =>
      live physical_device
  | E_vkGetPhysicalDeviceSurfaceSupportKHR physical_device _ surface =>
      live physical_device && live surface
  | E_vkCreateDevice physical_device _ => live physical_device
  | E_vkGetDeviceQueue device _ _ => live device
  | E_hlpGetPhysicalDeviceSurfaceCapabilities physical_device surface =>
      live physical_device && live surface
  | E_hlpGetSurfaceImageFormat physical_device surface =>
      live physical_device && live surface
  | E_vkCreateSwapchainKHR device info => live device && live (sc_surface info)
  | E_vkGetSwapchainImagesKHR device swapchain _ => live device && live swapchain
  | E_vklInitFramework instance surface physical_device device queue config =>
      live instance && live surface && live physical_device && live device
      && live queue && live (swapchainHandle config)
  | E_vkCreateDescriptorPool device _ => live device
  | E_vkCreateDescriptorSetLayout device _ => live device
  | E_vkAllocateDescriptorSets device _ => live device
  | E_vkUpdateDescriptorSets device _ => live device
  | E_vklCreateCamera window => live window
  | E_glfwWindowShouldClose window => live window
  | E_glfwSetWindowShouldClose window _ => live window
  | E_vkDeviceWaitIdle device => live device
  | _ => true
  end.

(** *** When the bring-up goes through *)

(** Everything [main] needs between its start and the render loop, in
    program order, over the answers of the collaborators: every check
    passes, and every vector whose first element is addressed has one (at
    least one extension is required, one physical device is counted, one
    swapchain image is asked for). *)
Definition all_checks_pass (W : world) : Prop :=
  let exts := w_glfwGetRequiredInstanceExtensions W
              ++ w_vklGetRequiredInstanceExtensions W in
  w_glfwInit W = true ∧
  live (w_glfwCreateWindow W) = true ∧
  forallb (w_hlpIsInstanceExtensionSupported W) exts = true ∧
  w_hlpIsInstanceLayerSupported W validation_layer = true ∧
  exts ≠ [] ∧
  w_check_passes W (w_vkCreateInstance W).1 = true ∧
  live (w_vkCreateInstance W).2 = true ∧
  w_check_passes W (w_glfwCreateWindowSurface W).1 = true ∧
  live (the_surface W) = true ∧
  w_check_passes W (w_vkEnumeratePhysicalDevices_count W).1 = true ∧
  0 < (w_vkEnumeratePhysicalDevices_count W).2 ∧
  w_check_passes W (w_vkEnumeratePhysicalDevices W).1 = true ∧
  (∃ vk_physical_device i,
     main_selects W vk_physical_device i ∧
     live vk_physical_device = true) ∧
  w_check_passes W (w_vkCreateDevice W).1 = true ∧
  live (the_device W) = true ∧
  live (w_vkGetDeviceQueue W) = true ∧
  w_check_passes W (w_vkCreateSwapchainKHR W).1 = true ∧
  live (w_vkCreateSwapchainKHR W).2 = true ∧
  0 < minImageCount (w_surface_capabilities W) ∧
  w_check_passes W (w_vkGetSwapchainImagesKHR W).1.1 = true ∧
  retrieved_image_count W = minImageCount (w_surface_capabilities W) ∧
  w_vklInitFramework W = true ∧
  w_check_passes W (w_vkCreateDescriptorPool W).1 = true ∧
  w_check_passes W (w_vkCreateDescriptorSetLayout W).1 = true.

(** A close request arrives at some point: the window is to close from the
    start, or some poll brings a close of the window or a release of
    Escape. *)
Definition close_requested (W : world) : Prop :=
  w_initially_closing W = true ∨
  ∃ k, existsb requests_close (w_poll_events W k) = true.

(** * Proofs *)

(** ** Running the monad *)

Lemma bind_run {A B} (f : A → M B) (m : M A) (s : state) :
  (m ≫= f) s =
  match outcome_of (m s) with
  | Ret a => Run (outcome_of (f a (state_of (m s)))) (state_of (f a (state_of (m s))))
               (calls_of (m s) ++ calls_of (f a (state_of (m s))))
  | Fatal e => Run (Fatal e) (state_of (m s)) (calls_of (m s))
  | Undefined => Run Undefined (state_of (m s)) (calls_of (m s))
  | Unfinished => Run Unfinished (state_of (m s)) (calls_of (m s))
  end.
Proof.
  unfold mbind, M_MBind, M_bind.
  destruct (m s) as [[a|e| |] s' calls]; cbn [outcome_of state_of calls_of]; try done.
  by destruct (f a s').
Qed.

(** Unfold the monad and the primitive computations. *)
Ltac run_monad :=
  cbv [mbind mret M_MBind M_MRet M_bind M_ret call ask get_state modify undefined
       unfinished when VKL_LOG VKL_EXIT_WITH_ERROR fatal element_at] in *;
  cbn [outcome_of state_of calls_of] in *.

(** ** Queue family selection *)

Lemma u32_succ (k : nat) :
  Z.of_nat (S k) < 2 ^ 32 → u32 (Z.of_nat k + 1) = Z.of_nat (S k).
Proof. intros Hk. unfold u32. rewrite Z.mod_small; lia. Qed.

Lemma loop_post_skip (W : world) (physical_device surface : handle)
    (s : state) (k remaining : nat) (pre : list event)
    (r : run (option Z)) :
  suitable W physical_device surface k = false →
  (∀ len, probes W physical_device surface k (S len)
          = pre ++ probes W physical_device surface (S k) len) →
  loop_post W physical_device surface s (S k) remaining r →
  loop_post W physical_device surface s k (S remaining)
    (Run (outcome_of r) (state_of r) (pre ++ calls_of r)).
Proof.
  intros Hk Hpk [Hst Hout]. split; [done|]. cbn [outcome_of calls_of].
  destruct (outcome_of r) as [[i|]| | |]; try done.
  - destruct Hout as (n & -> & Hn & Hsuit & Hlow & Hcalls).
    exists n. split; [done|]. split; [lia|]. split; [done|]. split.
    + intros m Hm. destruct (decide (m = k)) as [->|Hne]; [done|].
      apply Hlow. lia.
    + replace (S n - k)%nat with (S (S n - S k)) by lia.
      by rewrite Hpk, Hcalls.
  - destruct Hout as [Hnone Hcalls]. split.
    + intros m Hm. destruct (decide (m = k)) as [->|Hne]; [done|].
      apply Hnone. lia.
    + by rewrite Hpk, Hcalls.
Qed.

Lemma selectQueueFamilyIndex_loop_spec (W : world) (physical_device surface : handle)
    (s : state) (remaining k : nat) :
  (k + remaining)%nat = length (w_queue_families W physical_device) →
  Z.of_nat (length (w_queue_families W physical_device)) < 2 ^ 32 →
  loop_post W physical_device surface s k remaining
    (selectQueueFamilyIndex_loop W physical_device surface
       (w_queue_families W physical_device) remaining (Z.of_nat k) s).
Proof.
  revert k s. induction remaining as [|remaining IH]; intros k s Hlen Hfit.
  - split; [done|]. cbn. split; [|done].
    intros m Hm. unfold suitable. rewrite lookup_ge_None_2; [done | lia].
  - cbn [selectQueueFamilyIndex_loop]. rewrite Nat2Z.id.
    destruct (w_queue_families W physical_device !! k) as [family|] eqn:Hfam.
    2: { apply lookup_ge_None_1 in Hfam. lia. }
    rewrite u32_succ by lia.
    assert (Hpk : ∀ len, probes W physical_device surface k (S len) =
              (if graphics_capable family
               then [E_vkGetPhysicalDeviceSurfaceSupportKHR physical_device
                       (Z.of_nat k) surface] else [])
              ++ probes W physical_device surface (S k) len).
    { intros len. cbn [probes]. by rewrite Hfam. }
    specialize (IH (S k) s ltac:(lia) Hfit).
    fold (graphics_capable family).
    destruct (graphics_capable family) eqn:Hgc.
    + rewrite bind_run. run_monad.
      destruct (VK_TRUE =? w_surface_support W physical_device (Z.of_nat k) surface)
        eqn:Hpres.
      * split; [done|]. cbn [outcome_of calls_of].
        exists k. split; [done|]. split; [lia|]. split.
        { unfold suitable. by rewrite Hfam, Hgc, Hpres. }
        split; [intros m Hm; lia|].
        replace (S k - k)%nat with 1%nat by lia. by rewrite Hpk.
      * apply loop_post_skip; [|done|done].
        unfold suitable. by rewrite Hfam, Hgc, Hpres.
    + apply (loop_post_skip W physical_device surface s k remaining []) in IH;
        [|unfold suitable; by rewrite Hfam, Hgc|done].
      destruct (selectQueueFamilyIndex_loop W physical_device surface
                  (w_queue_families W physical_device) remaining (Z.of_nat (S k)) s).
      exact IH.
Qed.

(** C1.  [selectQueueFamilyIndex] asks the driver for the families of the
    device, visits them in the reported order, and returns the lowest index
    whose family has the graphics bit and for which the presentation-support
    query against the surface answers true; the query is made for exactly
    the visited graphics families, in index order.  When no family has both
    it terminates with its own error message after visiting every family.
    It never returns an index outside the family list. *)
Theorem selectQueueFamilyIndex_lowest_suitable
    (W : world) (physical_device surface : handle) (s : state) :
  Z.of_nat (length (w_queue_families W physical_device)) < 2 ^ 32 →
  let r := selectQueueFamilyIndex W physical_device surface s in
  let count := length (w_queue_families W physical_device) in
  let enumerate :=
    [E_vkGetPhysicalDeviceQueueFamilyProperties physical_device None;
     E_vkGetPhysicalDeviceQueueFamilyProperties physical_device
       (Some (Z.of_nat count))] in
  state_of r = s ∧
  match outcome_of r with
  | Ret i =>
      ∃ n, i = Z.of_nat n ∧ (n < count)%nat ∧
           suitable W physical_device surface n = true ∧
           (∀ m, (m < n)%nat → suitable W physical_device surface m = false) ∧
           calls_of r = enumerate ++ probes W physical_device surface 0 (S n)
  | Fatal f =>
      f = ErrorMessage no_suitable_family ∧
      (∀ m, suitable W physical_device surface m = false) ∧
      calls_of r = enumerate ++ probes W physical_device surface 0 count
                     ++ [E_EXIT_WITH_ERROR f]
  | Undefined | Unfinished => False
  end.
Proof.
  intros Hfit r count enumerate. subst r.
  unfold selectQueueFamilyIndex. rewrite !bind_run. run_monad.
  rewrite Nat2Z.id.
  pose proof (selectQueueFamilyIndex_loop_spec W physical_device surface s
                (length (w_queue_families W physical_device)) 0
                ltac:(lia) Hfit) as [Hst Hout].
  change (Z.of_nat 0) with 0 in *.
  destruct (selectQueueFamilyIndex_loop W physical_device surface
              (w_queue_families W physical_device)
              (length (w_queue_families W physical_device)) 0 s)
    as [[[i|]|f| |] s' tr]; cbn [outcome_of state_of calls_of] in *; try done.
  - destruct Hout as (n & -> & Hn & Hsuit & Hlow & ->).
    split; [done|]. exists n. split; [done|]. split; [lia|]. split; [done|].
    split; [intros m Hm; apply Hlow; lia|].
    rewrite Nat.sub_0_r, app_nil_r. done.
  - destruct Hout as [Hnone ->]. split; [done|]. split; [done|].
    split; [intros m; apply Hnone; lia|]. done.
Qed.

Lemma selectQueueFamilyIndex_lowest_suitable_witness :
  Z.of_nat (length (w_queue_families sample_world 103)) < 2 ^ 32 ∧
  ∃ n, outcome_of (selectQueueFamilyIndex sample_world 103 102
                     (initial_state sample_world)) = Ret (Z.of_nat n) ∧
       suitable sample_world 103 102 n = true.
Proof.
  assert (Hfit : Z.of_nat (length (w_queue_families sample_world 103)) < 2 ^ 32)
    by (vm_compute; reflexivity).
  split; [exact Hfit|].
  pose proof (selectQueueFamilyIndex_lowest_suitable sample_world 103 102
                (initial_state sample_world) Hfit) as [_ H].
  cbv zeta in H.
  destruct (outcome_of (selectQueueFamilyIndex sample_world 103 102
                          (initial_state sample_world))) as [i|f| |] eqn:Ho.
  - destruct H as (n & -> & _ & Hsuit & _). exists n. split; [reflexivity|exact Hsuit].
  - exfalso. vm_compute in Ho. discriminate Ho.
  - destruct H.
  - destruct H.
Defined.

(** ** Key state *)

Lemma isKeyDown_run (k : Z) (s : state) :
  outcome_of (isKeyDown k s) = Ret (held s k) ∧
  calls_of (isKeyDown k s) = [] ∧
  ∀ k', held (state_of (isKeyDown k s)) k' = held s k'.
Proof.
  unfold isKeyDown, subscript, held.
  destruct (g_isGlfwKeyDown s !! k) as [down|] eqn:Hk; cbn.
  - done.
  - split; [done|]. split; [done|]. intros k'.
    destruct (decide (k = k')) as [<-|Hne].
    + by rewrite lookup_insert_eq, Hk.
    + by rewrite lookup_insert_ne.
Qed.

Lemma handleGlfwKeyCallback_held
    (window key scancode action mods : Z) (s : state) (k : Z) :
  outcome_of (handleGlfwKeyCallback window key scancode action mods s) = Ret tt ∧
  held (state_of (handleGlfwKeyCallback window key scancode action mods s)) k =
    if bool_decide (key = k) then
      if action =? GLFW_RELEASE then false
      else if action =? GLFW_PRESS then true
      else held s k
    else held s k.
Proof.
  unfold handleGlfwKeyCallback, assign_key, glfwSetWindowShouldClose, held.
  run_monad.
  destruct (action =? GLFW_PRESS) eqn:Hp, (action =? GLFW_RELEASE) eqn:Hr,
    (key =? GLFW_KEY_ESCAPE) eqn:He; cbn; (split; [done|]);
    case_bool_decide as Hk; subst;
    rewrite ?lookup_insert_eq, ?lookup_insert_ne by done; try done.
  all: exfalso; unfold GLFW_PRESS, GLFW_RELEASE in *; lia.
Qed.

Lemma key_ops_run_held (window : handle) (ops : list key_op) (s : state) (k : Z) :
  forallb (λ op, negb (delivers k op)) ops = true →
  outcome_of (key_ops_run window ops s) = Ret tt ∧
  held (state_of (key_ops_run window ops s)) k = held s k.
Proof.
  revert s. induction ops as [|op ops IH]; intros s Hops; [done|].
  cbn in Hops. apply andb_true_iff in Hops as [Hop Hops].
  cbn [key_ops_run]. rewrite bind_run.
  destruct op as [key scancode action mods|key]; cbn [key_op_run].
  - destruct (handleGlfwKeyCallback_held window key scancode action mods s k)
      as [Ho Hh].
    rewrite Ho. cbn [outcome_of state_of].
    destruct (IH (state_of (handleGlfwKeyCallback window key scancode action mods s))
                Hops) as [Ho' Hh'].
    split; [done|]. rewrite Hh', Hh.
    cbn in Hop. case_bool_decide; [lia|done].
  - rewrite bind_run.
    destruct (isKeyDown_run key s) as (Ho & _ & Hh). rewrite Ho.
    cbn [outcome_of state_of M_ret mret M_MRet].
    destruct (IH (state_of (isKeyDown key s)) Hops) as [Ho' Hh'].
    split; [done|]. by rewrite Hh', Hh.
Qed.

(** C9.  A key code for which no key event was ever delivered reads as not
    pressed, whether or not it was queried before; once a press event for it
    has been delivered it reads as pressed, and once a release event has
    followed it reads as not pressed again.  Queries and events for other
    keys in between change nothing, and no query fails. *)
Theorem isKeyDown_default_press_release
    (window k scancode1 mods1 scancode2 mods2 : Z)
    (before between after : list key_op) (s0 : state) :
  g_isGlfwKeyDown s0 = ∅ →
  forallb (λ op, negb (delivers k op)) before = true →
  forallb (λ op, negb (delivers k op)) between = true →
  forallb (λ op, negb (delivers k op)) after = true →
  let s1 := state_of (key_ops_run window before s0) in
  let pressed :=
    state_of (handleGlfwKeyCallback window k scancode1 GLFW_PRESS mods1 s1) in
  let s2 := state_of (key_ops_run window between pressed) in
  let released :=
    state_of (handleGlfwKeyCallback window k scancode2 GLFW_RELEASE mods2 s2) in
  let s3 := state_of (key_ops_run window after released) in
  outcome_of (isKeyDown k s0) = Ret false ∧
  outcome_of (isKeyDown k s1) = Ret false ∧
  outcome_of (isKeyDown k s2) = Ret true ∧
  outcome_of (isKeyDown k s3) = Ret false.
Proof.
  intros Hempty Hbefore Hbetween Hafter s1 pressed s2 released s3.
  assert (H0 : held s0 k = false) by (unfold held; by rewrite Hempty, lookup_empty).
  assert (H1 : held s1 k = false).
  { unfold s1. by rewrite (proj2 (key_ops_run_held window before s0 k Hbefore)). }
  assert (H2 : held s2 k = true).
  { unfold s2, pressed.
    rewrite (proj2 (key_ops_run_held window between _ k Hbetween)).
    rewrite (proj2 (handleGlfwKeyCallback_held window k scancode1 GLFW_PRESS
                      mods1 s1 k)).
    by rewrite bool_decide_eq_true_2. }
  assert (H3 : held s3 k = false).
  { unfold s3, released.
    rewrite (proj2 (key_ops_run_held window after _ k Hafter)).
    rewrite (proj2 (handleGlfwKeyCallback_held window k scancode2 GLFW_RELEASE
                      mods2 s2 k)).
    by rewrite bool_decide_eq_true_2. }
  rewrite !(proj1 (isKeyDown_run k _)), H0, H1, H2, H3. done.
Qed.

Lemma isKeyDown_default_press_release_witness :
  let s0 := {| g_isGlfwKeyDown := ∅; should_close := false; polls := 0 |} in
  let s1 := state_of (key_ops_run 100 [Queried 65; Delivered 83 39 GLFW_PRESS 0] s0) in
  let s2 := state_of (key_ops_run 100 [Queried 87; Delivered 83 39 GLFW_RELEASE 0]
              (state_of (handleGlfwKeyCallback 100 87 25 GLFW_PRESS 0 s1))) in
  let s3 := state_of (key_ops_run 100 [Delivered 65 38 GLFW_PRESS 0]
              (state_of (handleGlfwKeyCallback 100 87 25 GLFW_RELEASE 0 s2))) in
  outcome_of (isKeyDown 87 s0) = Ret false ∧
  outcome_of (isKeyDown 87 s1) = Ret false ∧
  outcome_of (isKeyDown 87 s2) = Ret true ∧
  outcome_of (isKeyDown 87 s3) = Ret false.
Proof.
  apply (isKeyDown_default_press_release 100 87 25 0 25 0
           [Queried 65; Delivered 83 39 GLFW_PRESS 0]
           [Queried 87; Delivered 83 39 GLFW_RELEASE 0]
           [Delivered 65 38 GLFW_PRESS 0]
           {| g_isGlfwKeyDown := ∅; should_close := false; polls := 0 |});
    reflexivity.
Defined.

(** ** The render loop *)

Lemma deliver_run (window : handle) (evs : list input_event) (s : state) :
  outcome_of (deliver window evs s) = Ret tt ∧
  calls_of (deliver window evs s) = callback_calls window evs ∧
  polls (state_of (deliver window evs s)) = polls s ∧
  should_close (state_of (deliver window evs s)) =
    should_close s || existsb requests_close evs.
Proof.
  revert s. induction evs as [|ev evs IH]; intros s.
  - cbn. by rewrite orb_false_r.
  - destruct ev as [key scancode action mods|]; cbn [deliver].
    + rewrite bind_run.
      unfold handleGlfwKeyCallback, assign_key, glfwSetWindowShouldClose.
      cbn [callback_calls flat_map existsb requests_close escape_release].
      run_monad.
      destruct (action =? GLFW_PRESS), (action =? GLFW_RELEASE),
        (key =? GLFW_KEY_ESCAPE); cbn [andb outcome_of state_of calls_of app];
        match goal with |- context [deliver window evs ?s'] =>
          destruct (IH s') as (Ho & Hc & Hp & Hs) end;
        rewrite Ho, Hc, Hp, Hs; cbn;
        rewrite ?orb_true_r, ?orb_false_r; done.
    + rewrite bind_run. run_monad.
      destruct (IH (set_should_close true s)) as (Ho & Hc & Hp & Hs).
      rewrite Ho, Hc, Hp, Hs. cbn. by rewrite orb_true_r.
Qed.

Lemma render_frame_run (W : world) (r : frame_resources)
    (u : UniformBufferData) (s : state) :
  let f := render_frame W r u s in
  let u' := {| color := color u;
               transformation := w_camera_matrix W (S (polls s)) |} in
  outcome_of f = Ret u' ∧
  calls_of f =
    [E_glfwPollEvents]
    ++ callback_calls (w_glfwCreateWindow W) (w_poll_events W (polls s))
    ++ [E_vklUpdateCamera (camera r);
        E_vklGetCameraViewProjectionMatrix (camera r);
        E_vklCopyDataIntoHostCoherentBuffer (vk_uniform_buffer r) u'
          sizeof_UniformBufferData;
        E_vklWaitForNextSwapchainImage;
        E_vklStartRecordingCommands;
        E_teapotDraw (vk_pipeline r) (vk_descriptor_set r);
        E_vklEndRecordingCommands;
        E_vklPresentCurrentSwapchainImage] ∧
  polls (state_of f) = S (polls s) ∧
  should_close (state_of f) =
    should_close s || existsb requests_close (w_poll_events W (polls s)).
Proof.
  unfold render_frame, glfwPollEvents, vklGetCameraViewProjectionMatrix.
  run_monad.
  destruct (deliver_run (w_glfwCreateWindow W) (w_poll_events W (polls s))
              (count_poll s)) as (Ho & Hc & Hp & Hs).
  destruct (deliver (w_glfwCreateWindow W) (w_poll_events W (polls s)) (count_poll s))
    as [o s' calls].
  cbn [outcome_of state_of calls_of] in *. subst o calls.
  cbn [outcome_of state_of calls_of app]. rewrite Hp, Hs. cbn. done.
Qed.

Lemma render_loop_closing (W : world) (budget : nat) (window : handle)
    (r : frame_resources) (u : UniformBufferData) (s : state) :
  should_close s = true →
  render_loop W budget window r u s = Run (Ret u) s [E_glfwWindowShouldClose window].
Proof.
  intros Hs. destruct budget; cbn [render_loop]; unfold glfwWindowShouldClose;
    run_monad; rewrite Hs; done.
Qed.

Lemma render_loop_running (W : world) (budget : nat) (window : handle)
    (r : frame_resources) (u : UniformBufferData) (s : state) :
  should_close s = false →
  render_loop W (S budget) window r u s =
    let f := render_frame W r u s in
    let rest := render_loop W budget window r
                  {| color := color u;
                     transformation := w_camera_matrix W (S (polls s)) |}
                  (state_of f) in
    Run (outcome_of rest) (state_of rest)
      (E_glfwWindowShouldClose window :: calls_of f ++ calls_of rest).
Proof.
  intros Hs. cbn [render_loop]. unfold glfwWindowShouldClose.
  run_monad. rewrite Hs.
  destruct (render_frame_run W r u s) as (Ho & _). cbv zeta in Ho.
  destruct (render_frame W r u s) as [o s' calls].
  cbn [outcome_of] in Ho. subst o. cbn [outcome_of state_of calls_of].
  by destruct (render_loop W budget window r _ s').
Qed.

(** The loop does return: when a close request arrives with the events of
    some poll, a budget that reaches that poll is enough. *)
Lemma render_loop_returns (W : world) (budget k : nat) (window : handle)
    (r : frame_resources) (u : UniformBufferData) (s : state) :
  (k < budget)%nat →
  existsb requests_close (w_poll_events W (polls s + k)) = true →
  ∃ u' s' calls,
    render_loop W budget window r u s = Run (Ret u') s' calls ∧
    should_close s' = true.
Proof.
  revert budget u s. induction k as [|k IH]; intros budget u s Hk Hclose.
  - destruct (should_close s) eqn:Hs.
    { rewrite render_loop_closing by done. by eexists _, _, _. }
    destruct budget as [|budget]; [lia|].
    rewrite render_loop_running by done. cbv zeta.
    destruct (render_frame_run W r u s) as (_ & _ & _ & Hflag). cbv zeta in Hflag.
    rewrite Nat.add_0_r in Hclose. rewrite Hclose, orb_true_r in Hflag.
    rewrite (render_loop_closing W budget window r _ _ Hflag).
    by eexists _, _, _.
  - destruct (should_close s) eqn:Hs.
    { rewrite render_loop_closing by done. by eexists _, _, _. }
    destruct budget as [|budget]; [lia|].
    rewrite render_loop_running by done. cbv zeta.
    destruct (render_frame_run W r u s) as (_ & _ & Hpolls & _). cbv zeta in Hpolls.
    destruct (IH budget
                {| color := color u;
                   transformation := w_camera_matrix W (S (polls s)) |}
                (state_of (render_frame W r u s)) ltac:(lia))
      as (u' & s' & calls & -> & Hs').
    { rewrite Hpolls. by replace (S (polls s) + k)%nat with (polls s + S k)%nat by lia. }
    by eexists _, _, _.
Qed.

(** C2.  At the top of the loop the program asks GLFW whether the window
    should close.  If so it leaves the loop without starting an iteration.
    If not, the iteration makes exactly these calls in this order: poll the
    events (during which the key callback may ask GLFW to close the window),
    update the camera, fetch its view-projection matrix, copy the whole
    uniform struct, whose transformation is now that matrix, into the
    buffer, wait for the next swapchain image, start recording, draw the
    teapot with the pipeline and the descriptor set, end recording, present;
    then it is back at the top.  When the polled events contain an Escape
    release, the flag is set after the iteration and the next check at the
    top leaves the loop. *)
Theorem render_loop_iteration
    (W : world) (budget : nat) (window : handle) (r : frame_resources)
    (u : UniformBufferData) (s : state) :
  let evs := w_poll_events W (polls s) in
  let u' := {| color := color u;
               transformation := w_camera_matrix W (S (polls s)) |} in
  let check := E_glfwWindowShouldClose window in
  let frame :=
    [E_glfwPollEvents]
    ++ callback_calls (w_glfwCreateWindow W) evs
    ++ [E_vklUpdateCamera (camera r);
        E_vklGetCameraViewProjectionMatrix (camera r);
        E_vklCopyDataIntoHostCoherentBuffer (vk_uniform_buffer r) u'
          sizeof_UniformBufferData;
        E_vklWaitForNextSwapchainImage;
        E_vklStartRecordingCommands;
        E_teapotDraw (vk_pipeline r) (vk_descriptor_set r);
        E_vklEndRecordingCommands;
        E_vklPresentCurrentSwapchainImage] in
  let s' := state_of (render_frame W r u s) in
  (should_close s = true →
     render_loop W budget window r u s = Run (Ret u) s [check]) ∧
  (should_close s = false →
     let rest := render_loop W budget window r u' s' in
     render_loop W (S budget) window r u s =
       Run (outcome_of rest) (state_of rest) (check :: frame ++ calls_of rest)) ∧
  (should_close s = false →
     (∃ scancode mods,
        KeyEvent GLFW_KEY_ESCAPE scancode GLFW_RELEASE mods ∈ evs) →
     should_close s' = true ∧
     render_loop W (S budget) window r u s =
       Run (Ret u') s' (check :: frame ++ [check])).
Proof.
  intros evs u' check frame s'.
  destruct (render_frame_run W r u s) as (Ho & Hc & Hp & Hs). cbv zeta in *.
  split; [apply render_loop_closing|].
  split.
  - intros Hrun. rewrite render_loop_running by done. cbv zeta.
    fold s'. rewrite Hc. done.
  - intros Hrun (scancode & mods & Hin).
    assert (Hclose : should_close s' = true).
    { unfold s'. rewrite Hs, Hrun. cbn. apply existsb_exists.
      exists (KeyEvent GLFW_KEY_ESCAPE scancode GLFW_RELEASE mods).
      split; [by apply list_elem_of_In|done]. }
    split; [done|].
    rewrite render_loop_running by done. cbv zeta. fold s'.
    rewrite (render_loop_closing W budget window r _ s' Hclose).
    cbn [outcome_of state_of calls_of]. rewrite Hc. done.
Qed.

Lemma render_loop_iteration_witness :
  let r := the_resources sample_world in
  let s := {| g_isGlfwKeyDown := ∅; should_close := false; polls := 1 |} in
  should_close s = false ∧
  (∃ scancode mods,
     KeyEvent GLFW_KEY_ESCAPE scancode GLFW_RELEASE mods
       ∈ w_poll_events sample_world (polls s)) ∧
  calls_of (render_loop sample_world 1 100 r initial_uniform_buffer_data s) =
    [E_glfwWindowShouldClose 100; E_glfwPollEvents;
     E_glfwSetWindowShouldClose 100 true;
     E_vklUpdateCamera 114; E_vklGetCameraViewProjectionMatrix 114;
     E_vklCopyDataIntoHostCoherentBuffer 110
       {| color := (f_1, f_0_25, f_0, f_1);
          transformation := ((2, 0, 0, 0), (0, 2, 0, 0), (0, 0, 2, 0), (0, 0, 0, 2)) |}
       80;
     E_vklWaitForNextSwapchainImage; E_vklStartRecordingCommands;
     E_teapotDraw 109 113; E_vklEndRecordingCommands;
     E_vklPresentCurrentSwapchainImage; E_glfwWindowShouldClose 100].
Proof.
  intros r s.
  assert (Hrun : should_close s = false) by reflexivity.
  assert (Hesc : ∃ scancode mods,
            KeyEvent GLFW_KEY_ESCAPE scancode GLFW_RELEASE mods
              ∈ w_poll_events sample_world (polls s)).
  { exists 9, 0. apply (list_elem_of_lookup_2 _ 1). reflexivity. }
  split; [exact Hrun|]. split; [exact Hesc|].
  pose proof (proj2 (proj2 (proj2 (render_loop_iteration sample_world 0 100 r
                initial_uniform_buffer_data s)) Hrun Hesc)) as Heq.
  rewrite Heq. reflexivity.
Defined.

(** ** Bring-up *)

(** Discharge [exit_allowed] for a message other than [invalid_index]. *)
Ltac other_exit :=
  let H := fresh in
  unfold exit_allowed, invalid_index, no_suitable_family; intros H; cbn in H;
  discriminate H.

Ltac outcome_ok := first [done | other_exit].

Ltac context_calls :=
  repeat first
    [ apply Forall_nil_2
    | apply Forall_cons_2
    | apply Forall_app_2
    | assumption
    | apply cc_exit; other_exit
    | apply fc_exit; other_exit
    | by constructor
    | by econstructor ].

Lemma check_extensions_run (W : world) (exts : list string) (s : state) :
  ∃ o calls, check_extensions W exts s = Run o s calls ∧
             Forall (context_call W) calls ∧
             match o with Ret _ => True | Fatal f => exit_allowed f | _ => False end.
Proof.
  induction exts as [|ext exts IH]; cbn [check_extensions]; run_monad.
  - eexists _, _. split; [done|]. split; [constructor|done].
  - destruct (w_hlpIsInstanceExtensionSupported W ext); cbn.
    + destruct IH as (o & calls & -> & Hq & Ho).
      eexists _, _. split; [done|]. split; [|outcome_ok]. context_calls.
    + eexists _, _. split; [done|]. split; [|outcome_ok]. context_calls.
Qed.

Lemma selectQueueFamilyIndex_loop_run (W : world) (physical_device surface : handle)
    (families : list VkQueueFamilyProperties) (remaining : nat) (index : Z)
    (s0 s : state) :
  0 ≤ index →
  ∃ o calls,
    selectQueueFamilyIndex_loop W physical_device surface families remaining index s
      = Run o s calls ∧
    selectQueueFamilyIndex_loop W physical_device surface families remaining index s0
      = Run o s0 calls ∧
    Forall (context_call W) calls ∧
    match o with
    | Ret (Some i) => 0 ≤ i
    | Ret None | Undefined => True
    | _ => False
    end.
Proof.
  revert index. induction remaining as [|remaining IH]; intros index Hindex;
    cbn [selectQueueFamilyIndex_loop]; run_monad.
  - eexists _, _. split; [done|]. split; [done|]. split; [constructor|done].
  - assert (Hnext : 0 ≤ u32 (index + 1)).
    { unfold u32. apply Z.mod_pos_bound. done. }
    destruct (IH _ Hnext) as (o & calls & Hs & Hs0 & Hq & Ho).
    destruct (families !! Z.to_nat index) as [family|].
    2: { eexists _, _. split; [done|]. split; [done|]. split; [constructor|done]. }
    destruct (negb (Z.land (queueFlags family) VK_QUEUE_GRAPHICS_BIT =? 0)).
    + destruct (VK_TRUE =? w_surface_support W physical_device index surface).
      * eexists _, _. split; [done|]. split; [done|].
        split; [context_calls|done].
      * rewrite Hs, Hs0. eexists _, _. split; [done|]. split; [done|].
        split; [context_calls|done].
    + rewrite Hs, Hs0. eexists _, _. done.
Qed.

Lemma selectQueueFamilyIndex_run (W : world) (physical_device surface : handle)
    (s0 s : state) :
  ∃ o calls,
    selectQueueFamilyIndex W physical_device surface s = Run o s calls ∧
    selectQueueFamilyIndex W physical_device surface s0 = Run o s0 calls ∧
    Forall (context_call W) calls ∧
    match o with
    | Ret i => 0 ≤ i
    | Fatal f => f = ErrorMessage no_suitable_family
    | Undefined => True
    | Unfinished => False
    end.
Proof.
  unfold selectQueueFamilyIndex. run_monad.
  destruct (selectQueueFamilyIndex_loop_run W physical_device surface
              (w_queue_families W physical_device)
              (Z.to_nat (Z.of_nat (length (w_queue_families W physical_device))))
              0 s0 s ltac:(done)) as (o & calls & -> & -> & Hq & Ho).
  destruct o as [[i|]|f| |]; try done; eexists _, _;
    (split; [done|]); (split; [done|]); (split; [|outcome_ok]); context_calls.
Qed.

(** With a family count that fits, the selector returns an index inside the
    family list or does not return. *)
Lemma selectQueueFamilyIndex_loop_in_range (W : world)
    (physical_device surface : handle) (families : list VkQueueFamilyProperties)
    (remaining : nat) (index : Z) (s : state) (i : Z) :
  0 ≤ index →
  outcome_of (selectQueueFamilyIndex_loop W physical_device surface families
                remaining index s) = Ret (Some i) →
  0 ≤ i < Z.of_nat (length families).
Proof.
  revert index. induction remaining as [|remaining IH]; intros index Hindex;
    cbn [selectQueueFamilyIndex_loop]; run_monad; [done|].
  assert (Hnext : 0 ≤ u32 (index + 1)).
  { unfold u32. apply Z.mod_pos_bound. done. }
  specialize (IH _ Hnext).
  destruct (families !! Z.to_nat index) as [family|] eqn:Hfamily; [|done].
  apply lookup_lt_Some in Hfamily.
  destruct (negb (Z.land (queueFlags family) VK_QUEUE_GRAPHICS_BIT =? 0)); [|done].
  destruct (VK_TRUE =? w_surface_support W physical_device index surface).
  - cbn. intros [= <-]. lia.
  - destruct (selectQueueFamilyIndex_loop W physical_device surface families
                remaining (u32 (index + 1)) s). done.
Qed.

(** The selector never returns an index outside the family list. *)
Lemma selectQueueFamilyIndex_in_range (W : world) (physical_device surface : handle)
    (s : state) (i : Z) :
  outcome_of (selectQueueFamilyIndex W physical_device surface s) = Ret i →
  0 ≤ i < Z.of_nat (length (w_queue_families W physical_device)).
Proof.
  unfold selectQueueFamilyIndex. run_monad.
  pose proof (selectQueueFamilyIndex_loop_in_range W physical_device surface
                (w_queue_families W physical_device)
                (Z.to_nat (Z.of_nat (length (w_queue_families W physical_device))))
                0 s) as Hloop.
  destruct (selectQueueFamilyIndex_loop W physical_device surface
              (w_queue_families W physical_device) _ 0 s)
    as [[[j|]|f| |] s' calls]; cbn in *; try done.
  intros [= <-]. by apply Hloop.
Qed.

Lemma swapchain_framebuffers_run (W : world) (physical_device surface : handle)
    (images : list handle) (acc : list VklSwapchainFramebufferComposition)
    (s : state) :
  swapchain_framebuffers W physical_device surface images acc s =
    Run (Ret (acc ++ map (framebuffer (format (w_surface_format W))) images)) s
      (replicate (length images) (E_hlpGetSurfaceImageFormat physical_device surface)).
Proof.
  revert acc. induction images as [|image images IH]; intros acc;
    cbn [swapchain_framebuffers]; unfold hlpGetSurfaceImageFormat; run_monad.
  - by rewrite app_nil_r.
  - rewrite IH. cbn. by rewrite <- app_assoc.
Qed.

Lemma task_1_1_run (W : world) (s : state) :
  task_1_1 W s =
    if w_glfwInit W then
      if w_glfwCreateWindow W =? 0 then
        Run (Fatal (ErrorMessage "No GLFW window created.")) s
          (firstn 6 (window_calls W)
           ++ [E_LOG "If your program reaches this point, that means two things:";
               E_LOG "1) Project setup was successful. Everything is working fine.";
               E_LOG "2) You haven't implemented the first task, which is creating a window with GLFW.";
               E_EXIT_WITH_ERROR (ErrorMessage "No GLFW window created.")])
      else Run (Ret (w_glfwCreateWindow W)) s (window_calls W)
    else
      Run (Fatal (ErrorMessage "Failed to init GLFW")) s
        (firstn 3 (window_calls W)
         ++ [E_EXIT_WITH_ERROR (ErrorMessage "Failed to init GLFW")]).
Proof.
  unfold task_1_1. run_monad.
  destruct (w_glfwInit W); [|outcome_ok]. cbn.
  destruct (w_glfwCreateWindow W =? 0); done.
Qed.

Lemma task_1_2_run (W : world) (s : state) :
  ∃ o calls, task_1_2 W s = Run o s calls ∧ Forall (context_call W) calls ∧
             match o with
             | Ret _ | Undefined => True
             | Fatal f => exit_allowed f
             | Unfinished => False
             end.
Proof.
  unfold task_1_2, getRequiredInstanceExtensions, VKL_CHECK_VULKAN_RESULT. run_monad.
  destruct (check_extensions_run W
    (w_glfwGetRequiredInstanceExtensions W ++ w_vklGetRequiredInstanceExtensions W) s)
    as (o & calls & -> & Hcalls & Ho).
  destruct o as [[]|f| |]; try done.
  2: { eexists _, _. split; [done|]. split; [|outcome_ok]. context_calls. }
  cbn. destruct (w_hlpIsInstanceLayerSupported W validation_layer); cbn.
  2: { eexists _, _. split; [done|]. split; [|outcome_ok]. context_calls. }
  destruct ((w_glfwGetRequiredInstanceExtensions W
             ++ w_vklGetRequiredInstanceExtensions W) !! 0%nat); cbn.
  2: { eexists _, _. split; [done|]. split; [|outcome_ok]. context_calls. }
  destruct (w_vkCreateInstance W) as [result vk_instance].
  destruct (w_check_passes W result); cbn.
  2: { eexists _, _. split; [done|]. split; [|outcome_ok]. context_calls. }
  destruct (vk_instance =? 0); cbn;
    eexists _, _; (split; [done|]); (split; [|outcome_ok]); context_calls.
Qed.

Lemma task_1_3_run (W : world) (window vk_instance : handle) (s : state) :
  ∃ o calls, task_1_3 W window vk_instance s = Run o s calls ∧
             Forall (context_call W) calls ∧
             match o with
             | Ret vk_surface => vk_surface = the_surface W
             | Fatal f => exit_allowed f
             | _ => False
             end.
Proof.
  unfold task_1_3, VKL_CHECK_VULKAN_RESULT, the_surface. run_monad.
  destruct (w_glfwCreateWindowSurface W) as [result vk_surface].
  destruct (w_check_passes W result); cbn.
  2: { eexists _, _. split; [done|]. split; [|outcome_ok]. context_calls. }
  destruct (vk_surface =? 0); cbn;
    eexists _, _; (split; [done|]); (split; [|outcome_ok]); context_calls.
Qed.

Lemma task_1_4_run (W : world) (vk_instance vk_surface : handle) (s : state) :
  ∃ o calls, task_1_4 W vk_instance vk_surface s = Run o s calls ∧
             Forall (context_call W) calls ∧
             match o with
             | Ret vk_physical_device =>
                 phys_devices W
                   !! Z.to_nat (w_hlpSelectPhysicalDeviceIndex W (phys_devices W)
                                  vk_surface)
                   = Some vk_physical_device
             | Undefined => True
             | Fatal f => exit_allowed f
             | Unfinished => False
             end.
Proof.
  unfold task_1_4, VKL_CHECK_VULKAN_RESULT, phys_devices. run_monad.
  destruct (w_vkEnumeratePhysicalDevices_count W) as [result num_physical_devices].
  destruct (w_check_passes W result); cbn.
  2: { eexists _, _. split; [done|]. split; [|outcome_ok]. context_calls. }
  destruct (replicate (Z.to_nat num_physical_devices) VK_NULL_HANDLE !! 0%nat); cbn.
  2: { eexists _, _. split; [done|]. split; [|outcome_ok]. context_calls. }
  destruct (w_vkEnumeratePhysicalDevices W) as [result' written].
  destruct (w_check_passes W result'); cbn.
  2: { eexists _, _. split; [done|]. split; [|outcome_ok]. context_calls. }
  match goal with |- context [?l !! ?i] =>
    destruct (l !! i) as [vk_physical_device|] eqn:Hdevice end;
    cbn.
  2: { eexists _, _. split; [done|]. split; [|outcome_ok]. context_calls. }
  destruct (vk_physical_device =? 0); cbn;
    eexists _, _; (split; [done|]); (split; [|outcome_ok]); context_calls.
Qed.

Lemma task_1_5_run (W : world) (vk_physical_device vk_surface : handle) (s : state) :
  ∃ o calls, task_1_5 W vk_physical_device vk_surface s = Run o s calls ∧
             Forall (context_call W) calls ∧
             match o with
             | Ret i => selected W vk_physical_device vk_surface i
             | Fatal f => exit_allowed f
             | Undefined => True
             | Unfinished => False
             end.
Proof.
  unfold task_1_5, sanity_check. run_monad.
  destruct (selectQueueFamilyIndex_run W vk_physical_device vk_surface
              (initial_state W) s) as (o & calls & -> & Hs0 & Hcalls & Ho).
  destruct o as [i|f| |]; try done.
  2, 3: eexists _, _; (split; [done|]); (split; [|try subst f; outcome_ok]);
    context_calls.
  cbn.
  pose proof (selectQueueFamilyIndex_in_range W vk_physical_device vk_surface
                (initial_state W) i) as Hrange.
  rewrite Hs0 in Hrange. specialize (Hrange eq_refl).
  destruct (i >=? Z.of_nat (length (w_queue_families W vk_physical_device))) eqn:Hge;
    [lia|].
  cbn. eexists _, _. split; [done|].
  split; [context_calls|]. split; [by rewrite Hs0|done].
Qed.

Lemma task_1_6_run (W : world) (vk_physical_device : handle) (i : Z) (s : state) :
  main_selects W vk_physical_device i →
  ∃ o calls, task_1_6 W vk_physical_device i s = Run o s calls ∧
             Forall (context_call W) calls ∧
             match o with
             | Ret (vk_device, _) => vk_device = the_device W
             | Fatal f => exit_allowed f
             | _ => False
             end.
Proof.
  intros Hmain. pose proof (proj2 Hmain) as Hsel.
  unfold task_1_6, VKL_CHECK_VULKAN_RESULT, the_device. run_monad.
  destruct (w_vkCreateDevice W) as [result vk_device].
  destruct (w_check_passes W result); cbn.
  2: { eexists _, _. split; [done|]. split; [|outcome_ok]. context_calls. }
  destruct (vk_device =? 0); cbn.
  { eexists _, _. split; [done|]. split; [|outcome_ok]. context_calls. }
  destruct (w_vkGetDeviceQueue W =? 0); cbn;
    eexists _, _; (split; [done|]); (split; [|outcome_ok]); context_calls.
Qed.

Lemma task_1_7_run (W : world) (vk_physical_device : handle) (i : Z) (s : state) :
  main_selects W vk_physical_device i →
  ∃ o calls,
    task_1_7 W vk_physical_device (the_surface W) (the_device W) i s
      = Run o s calls ∧
    Forall (context_call W) calls ∧
    match o with
    | Ret (info, _, _) =>
        imageExtent info = window_extent ∧
        retrieved_image_count W = minImageCount (w_surface_capabilities W)
    | Fatal f => exit_allowed f
    | Undefined => True
    | Unfinished => False
    end.
Proof.
  intros Hmain.
  unfold task_1_7, hlpGetSurfaceImageFormat, VKL_CHECK_VULKAN_RESULT,
    retrieved_image_count.
  run_monad.
  destruct (w_vkCreateSwapchainKHR W) as [result vk_swapchain].
  destruct (w_check_passes W result); cbn.
  2: { eexists _, _. split; [done|]. split; [|outcome_ok]. context_calls. }
  destruct (vk_swapchain =? 0); cbn.
  { eexists _, _. split; [done|]. split; [|outcome_ok]. context_calls. }
  destruct (replicate (Z.to_nat (minImageCount (w_surface_capabilities W)))
              VK_NULL_HANDLE !! 0%nat); cbn.
  2: { eexists _, _. split; [done|]. split; [|outcome_ok]. context_calls. }
  destruct (w_vkGetSwapchainImagesKHR W) as [[result' image_count] written].
  destruct (w_check_passes W result'); cbn.
  2: { eexists _, _. split; [done|]. split; [|outcome_ok]. context_calls. }
  match goal with |- context [is_empty ?l] => destruct (is_empty l) end; cbn.
  { eexists _, _. split; [done|]. split; [|outcome_ok]. context_calls. }
  destruct (image_count =? minImageCount (w_surface_capabilities W)) eqn:Hcount; cbn.
  2: { eexists _, _. split; [done|]. split; [|outcome_ok]. context_calls. }
  eexists _, _. split; [done|]. split; [context_calls|].
  split; [done|]. lia.
Qed.

Ltac frame_calls :=
  repeat first
    [ apply Forall_nil_2
    | apply Forall_cons_2
    | apply Forall_app_2
    | assumption
    | apply fc_exit; other_exit
    | by constructor
    | by econstructor ].

Lemma frame_calls_replicate (W : world) (n : nat) (physical_device surface : handle) :
  Forall (frame_call W)
    (replicate n (E_hlpGetSurfaceImageFormat physical_device surface)).
Proof. induction n; cbn; constructor; [constructor|done]. Qed.

(** [task_1_8] followed by [create_frame_resources], as [bring_up] runs
    them. *)
Lemma frame_part_run (W : world)
    (vk_instance vk_surface vk_physical_device vk_queue : handle)
    (info : VkSwapchainCreateInfoKHR) (vk_swapchain : handle)
    (swap_chain_images : list handle) (s : state) :
  imageExtent info = window_extent →
  retrieved_image_count W = minImageCount (w_surface_capabilities W) →
  ∃ o calls,
    (task_1_8 W vk_instance vk_surface vk_physical_device (the_device W) vk_queue
       info vk_swapchain swap_chain_images;;
     create_frame_resources W (w_glfwCreateWindow W) (the_device W)
       initial_uniform_buffer_data) s = Run o s calls ∧
    Forall (frame_call W) calls ∧
    match o with
    | Ret r =>
        r = the_resources W ∧
        calls = frame_calls W vk_instance vk_surface vk_physical_device vk_queue
                  vk_swapchain swap_chain_images
    | Fatal f => exit_allowed f
    | _ => False
    end.
Proof.
  intros Hextent Hcount.
  unfold task_1_8, create_frame_resources, VKL_CHECK_VULKAN_RESULT, the_resources,
    frame_calls.
  run_monad. rewrite swapchain_framebuffers_run. cbn. rewrite Hextent.
  pose proof (frame_calls_replicate W (length swap_chain_images)
                vk_physical_device vk_surface) as Hrep.
  destruct (w_vklInitFramework W); cbn.
  2: { eexists _, _. split; [done|]. split; [|outcome_ok]. frame_calls. }
  destruct (w_vkCreateDescriptorPool W) as [result vk_descriptor_pool].
  destruct (w_check_passes W result); cbn.
  2: { eexists _, _. split; [done|]. split; [|outcome_ok]. frame_calls. }
  destruct (w_vkCreateDescriptorSetLayout W) as [result' vk_descriptor_set_layout].
  destruct (w_check_passes W result'); cbn.
  2: { eexists _, _. split; [done|]. split; [|outcome_ok]. frame_calls. }
  destruct (w_vkAllocateDescriptorSets W) as [result'' descriptor_set]. cbn.
  eexists _, _. split; [done|]. split; [frame_calls|].
  split; [done|]. by rewrite <- app_assoc.
Qed.

(** What a run of [bring_up] looks like: the calls of [task_1_1], then
    calls that build the context, then calls that set up the frame
    resources; when it returns, every stage has run to its end. *)
Lemma bring_up_run (W : world) (s : state) :
  ∃ o context frame,
    bring_up W s = Run o s (calls_of (task_1_1 W s) ++ context ++ frame) ∧
    Forall (context_call W) context ∧
    Forall (frame_call W) frame ∧
    match o with
    | Ret (window, vk_device, r) =>
        window = w_glfwCreateWindow W ∧ vk_device = the_device W ∧
        r = the_resources W ∧
        calls_of (task_1_1 W s) = window_calls W ∧
        ∃ vk_instance vk_surface vk_physical_device vk_queue vk_swapchain images,
          frame = frame_calls W vk_instance vk_surface vk_physical_device vk_queue
                    vk_swapchain images
    | Fatal f => exit_allowed f
    | Undefined => True
    | Unfinished => False
    end.
Proof.
  unfold bring_up. cbv [mbind mret M_MBind M_MRet M_bind M_ret].
  rewrite task_1_1_run.
  destruct (w_glfwInit W).
  2: { eexists _, [], []. rewrite !app_nil_r. done. }
  destruct (w_glfwCreateWindow W =? 0).
  { eexists _, [], []. rewrite !app_nil_r. done. }
  cbv [calls_of].
  destruct (task_1_2_run W s) as (o2 & c2 & -> & H2 & Ho2).
  destruct o2 as [vk_instance|f| |]; try done.
  2, 3: eexists _, c2, []; rewrite !app_nil_r; done.
  destruct (task_1_3_run W (w_glfwCreateWindow W) vk_instance s)
    as (o3 & c3 & -> & H3 & Ho3).
  destruct o3 as [vk_surface|f| |]; try done.
  2: { eexists _, (c2 ++ c3), []. rewrite !app_nil_r.
       split; [done|]. split; [by apply Forall_app_2|done]. }
  subst vk_surface.
  destruct (task_1_4_run W vk_instance (the_surface W) s) as (o4 & c4 & -> & H4 & Ho4).
  destruct o4 as [vk_physical_device|f| |]; try done.
  2, 3: eexists _, (c2 ++ c3 ++ c4), []; rewrite !app_nil_r;
    (split; [done|]); (split; [by repeat apply Forall_app_2|done]).
  destruct (task_1_5_run W vk_physical_device (the_surface W) s)
    as (o5 & c5 & -> & H5 & Ho5).
  destruct o5 as [i|f| |]; try done.
  2, 3: eexists _, (c2 ++ c3 ++ c4 ++ c5), []; rewrite !app_nil_r;
    (split; [done|]); (split; [by repeat apply Forall_app_2|done]).
  assert (Hmain : main_selects W vk_physical_device i) by done.
  destruct (task_1_6_run W vk_physical_device i s Hmain)
    as (o6 & c6 & -> & H6 & Ho6).
  destruct o6 as [[vk_device vk_queue]|f| |]; try done.
  2: { eexists _, (c2 ++ c3 ++ c4 ++ c5 ++ c6), []. rewrite !app_nil_r.
       split; [done|]. split; [by repeat apply Forall_app_2|done]. }
  subst vk_device.
  destruct (task_1_7_run W vk_physical_device i s Hmain)
    as (o7 & c7 & -> & H7 & Ho7).
  destruct o7 as [[[info vk_swapchain] swap_chain_images]|f| |]; try done.
  2, 3: eexists _, (c2 ++ c3 ++ c4 ++ c5 ++ c6 ++ c7), []; rewrite !app_nil_r;
    (split; [done|]); (split; [by repeat apply Forall_app_2|done]).
  destruct Ho7 as [Hextent Hcount].
  destruct (frame_part_run W vk_instance (the_surface W) vk_physical_device vk_queue
              info vk_swapchain swap_chain_images s Hextent Hcount)
    as (o8 & c8 & Hrun8 & H8 & Ho8).
  cbv [mbind M_MBind M_bind] in Hrun8.
  destruct (task_1_8 W vk_instance (the_surface W) vk_physical_device (the_device W)
              vk_queue info vk_swapchain swap_chain_images s)
    as [[[]|f| |] s8 c8a].
  - destruct (create_frame_resources W (w_glfwCreateWindow W) (the_device W)
                initial_uniform_buffer_data s8) as [o9 s9 c9].
    injection Hrun8 as <- -> <-.
    destruct o9 as [r|f| |]; try done.
    + destruct Ho8 as [-> Hframe].
      eexists _, (c2 ++ c3 ++ c4 ++ c5 ++ c6 ++ c7), (c8a ++ c9).
      rewrite app_nil_r, <- !app_assoc.
      split; [done|]. split; [by repeat apply Forall_app_2|]. split; [done|].
      repeat (split; [done|]). by eexists _, _, _, _, _, _.
    + eexists _, (c2 ++ c3 ++ c4 ++ c5 ++ c6 ++ c7), (c8a ++ c9).
      rewrite <- !app_assoc.
      split; [done|]. split; [by repeat apply Forall_app_2|done].
  - injection Hrun8 as <- -> <-.
    eexists _, (c2 ++ c3 ++ c4 ++ c5 ++ c6 ++ c7), c8a.
    rewrite <- !app_assoc.
    split; [done|]. split; [by repeat apply Forall_app_2|done].
  - injection Hrun8 as <- -> <-. done.
  - injection Hrun8 as <- -> <-. done.
Qed.

(** ** The whole run *)

Lemma task_1_1_calls (W : world) (s : state) :
  Forall (window_call W) (calls_of (task_1_1 W s)).
Proof.
  rewrite task_1_1_run.
  destruct (w_glfwInit W); [destruct (w_glfwCreateWindow W =? 0)|]; cbn;
    repeat first [ apply Forall_nil_2 | apply Forall_cons_2
                 | apply wc_exit; other_exit | by constructor ].
Qed.

Lemma callback_calls_loop (W : world) (evs : list input_event) :
  Forall (loop_call W) (callback_calls (w_glfwCreateWindow W) evs).
Proof.
  induction evs as [|ev evs IH]; [constructor|].
  cbn. destruct (escape_release ev); cbn; [constructor; [constructor|done]|done].
Qed.

Lemma render_loop_run (W : world) (budget : nat) (u : UniformBufferData) (s : state) :
  color u = color initial_uniform_buffer_data →
  ∃ o s' calls,
    render_loop W budget (w_glfwCreateWindow W) (the_resources W) u s
      = Run o s' calls ∧
    Forall (loop_call W) calls ∧
    match o with
    | Ret u' => color u' = color initial_uniform_buffer_data ∧ should_close s' = true
    | Unfinished => True
    | _ => False
    end.
Proof.
  revert u s. induction budget as [|budget IH]; intros u s Hcolor.
  - cbn [render_loop]. unfold glfwWindowShouldClose. run_monad.
    destruct (should_close s) eqn:Hs; cbn; eexists _, _, _;
      (split; [done|]); (split; [|outcome_ok]); repeat constructor.
  - destruct (should_close s) eqn:Hs.
    + rewrite render_loop_closing by done. eexists _, _, _.
      split; [done|]. split; [|outcome_ok]. repeat constructor.
    + rewrite render_loop_running by done. cbv zeta.
      destruct (render_frame_run W (the_resources W) u s) as (_ & Hcalls & _).
      cbv zeta in Hcalls. rewrite Hcalls.
      destruct (IH {| color := color u;
                      transformation := w_camera_matrix W (S (polls s)) |}
                  (state_of (render_frame W (the_resources W) u s)) Hcolor)
        as (o & s' & calls & -> & Hloop & Ho).
      eexists _, _, _. split; [done|]. split; [|outcome_ok].
      cbn [calls_of]. rewrite Hcolor.
      apply Forall_cons_2; [constructor|].
      apply Forall_app_2; [|outcome_ok].
      apply Forall_cons_2; [constructor|].
      apply Forall_app_2; [apply callback_calls_loop|].
      repeat (apply Forall_cons_2; [constructor|]). constructor.
Qed.

(** What a run of [main] looks like. *)
Lemma main_run (W : world) (budget : nat) :
  ∃ o s' context frame loop shutdown,
    run_main W budget =
      Run o s' (calls_of (task_1_1 W (initial_state W))
                ++ context ++ frame ++ loop ++ shutdown) ∧
    Forall (context_call W) context ∧
    Forall (frame_call W) frame ∧
    Forall (loop_call W) loop ∧
    match o with
    | Ret code =>
        code = EXIT_SUCCESS ∧ should_close s' = true ∧
        calls_of (task_1_1 W (initial_state W)) = window_calls W ∧
        (∃ vk_instance vk_surface vk_physical_device vk_queue vk_swapchain images,
           frame = frame_calls W vk_instance vk_surface vk_physical_device vk_queue
                     vk_swapchain images) ∧
        shutdown = shutdown_calls W
    | Unfinished =>
        calls_of (task_1_1 W (initial_state W)) = window_calls W ∧
        (∃ vk_instance vk_surface vk_physical_device vk_queue vk_swapchain images,
           frame = frame_calls W vk_instance vk_surface vk_physical_device vk_queue
                     vk_swapchain images) ∧
        shutdown = []
    | Fatal f => loop = [] ∧ shutdown = [] ∧ exit_allowed f
    | Undefined => loop = [] ∧ shutdown = []
    end.
Proof.
  unfold run_main, main. cbv [mbind mret M_MBind M_MRet M_bind M_ret].
  destruct (bring_up_run W (initial_state W))
    as (o & context & frame & -> & Hcontext & Hframe & Ho).
  destruct o as [[[window vk_device] r]|f| |]; try done.
  2, 3: eexists _, _, context, frame, [], []; rewrite !app_nil_r; done.
  destruct Ho as (-> & -> & -> & Hwindow & Hcalls).
  destruct (render_loop_run W budget initial_uniform_buffer_data (initial_state W)
              eq_refl) as (o & s' & loop & -> & Hloop & Ho).
  destruct o as [u|f| |]; try done.
  - destruct Ho as [_ Hclose]. unfold task_1_10. run_monad.
    eexists _, _, context, frame, loop, (shutdown_calls W).
    rewrite <- !app_assoc. done.
  - eexists _, _, context, frame, loop, []. rewrite !app_nil_r, <- !app_assoc. done.
Qed.

(** An event of one kind is not in a list of events of other kinds. *)
Ltac not_among H :=
  unfold shutdown_calls, window_calls in H;
  repeat (apply elem_of_cons in H as [H|H]; [discriminate H|]);
  apply elem_of_nil in H.

(** Every call of a run belongs to one of the five stages. *)
Lemma main_call_cases (W : world) (budget : nat) (e : event) :
  e ∈ calls_of (run_main W budget) →
  window_call W e ∨ context_call W e ∨ frame_call W e ∨ loop_call W e
  ∨ e ∈ shutdown_calls W.
Proof.
  destruct (main_run W budget)
    as (o & s' & context & frame & loop & shutdown & -> & Hc & Hf & Hl & Ho).
  cbn [calls_of]. rewrite !elem_of_app.
  pose proof (task_1_1_calls W (initial_state W)) as Hw.
  rewrite Forall_forall in Hw, Hc, Hf, Hl.
  intros [He|[He|[He|[He|He]]]]; [by left; apply Hw| by right; left; apply Hc
    | by right; right; left; apply Hf | by right; right; right; left; apply Hl |].
  right; right; right; right.
  destruct o as [code|f| |].
  - destruct Ho as (_ & _ & _ & _ & <-). done.
  - destruct Ho as (_ & -> & _). by apply elem_of_nil in He.
  - destruct Ho as [_ ->]. by apply elem_of_nil in He.
  - destruct Ho as (_ & _ & ->). by apply elem_of_nil in He.
Qed.

(** ** Swapchain images *)

(** C3.  When [task_1_7] returns, the image count the driver reported equals
    the minimum image count that was requested, which is also the number of
    image handles kept.  The images are retrieved only into a vector with
    at least one slot: when no image is requested, taking the address of
    the first slot is undefined behaviour, and nothing is retrieved.  A
    reported count that differs never goes through: the task ends fatally,
    with the message of the count check whenever the earlier checks of the
    task pass, or it has ended at the empty vector before anything was
    retrieved; and [main] does not return or reach the render loop. *)
Theorem swapchain_image_count_checked
    (W : world) (vk_physical_device vk_surface vk_device : handle) (i : Z)
    (s : state) (budget : nat) :
  let r := task_1_7 W vk_physical_device vk_surface vk_device i s in
  let requested := minImageCount (w_surface_capabilities W) in
  (∀ info vk_swapchain images,
     outcome_of r = Ret (info, vk_swapchain, images) →
     sc_minImageCount info = requested ∧
     retrieved_image_count W = requested ∧
     Z.of_nat (length images) = requested) ∧
  (∀ device swapchain capacity,
     E_vkGetSwapchainImagesKHR device swapchain capacity ∈ calls_of r →
     capacity = requested ∧ 0 < requested) ∧
  (retrieved_image_count W ≠ requested →
     ((∃ f, outcome_of r = Fatal f ∧
            last (calls_of r) = Some (E_EXIT_WITH_ERROR f)) ∨
      (outcome_of r = Undefined ∧ requested ≤ 0 ∧
       ∀ device swapchain capacity,
         E_vkGetSwapchainImagesKHR device swapchain capacity ∉ calls_of r)) ∧
     match outcome_of (run_main W budget) with
     | Fatal _ | Undefined => True
     | Ret _ | Unfinished => False
     end) ∧
  (retrieved_image_count W ≠ requested →
     w_check_passes W (w_vkCreateSwapchainKHR W).1 = true →
     (w_vkCreateSwapchainKHR W).2 ≠ VK_NULL_HANDLE →
     w_check_passes W (w_vkGetSwapchainImagesKHR W).1.1 = true →
     0 < requested →
     outcome_of r = Fatal (ErrorMessage "image count mismatch")).
Proof.
  intros r requested. subst r requested.
  assert (Hslot : ∀ n : Z,
            replicate (Z.to_nat n) VK_NULL_HANDLE !! 0%nat
            = if 0 <? n then Some VK_NULL_HANDLE else None).
  { intros n. destruct (0 <? n) eqn:Hn.
    - apply Z.ltb_lt in Hn. destruct (Z.to_nat n) eqn:Hk; [lia|done].
    - apply Z.ltb_ge in Hn. by replace (Z.to_nat n) with 0%nat by lia. }
  unfold task_1_7, hlpGetSurfaceImageFormat, VKL_CHECK_VULKAN_RESULT,
    retrieved_image_count.
  run_monad. rewrite Hslot. unfold VK_NULL_HANDLE.
  split; [|split; [|split]].
  - intros info vk_swapchain images.
    destruct (w_vkCreateSwapchainKHR W) as [result sc].
    destruct (w_check_passes W result); cbn; [|done].
    destruct (sc =? 0); cbn; [done|].
    destruct (0 <? minImageCount (w_surface_capabilities W)); cbn; [|done].
    destruct (w_vkGetSwapchainImagesKHR W) as [[result' image_count] written].
    destruct (w_check_passes W result'); cbn; [|done].
    match goal with |- context [is_empty ?l] => destruct l as [|image rest] eqn:Hl end;
      cbn; [done|].
    destruct (image_count =? minImageCount (w_surface_capabilities W)) eqn:Hcount;
      cbn; [|done].
    intros [= <- <- <-]. cbn. split; [done|]. split; [lia|].
    apply (f_equal length) in Hl. rewrite length_resize in Hl. cbn in Hl. lia.
  - intros device swapchain capacity.
    destruct (w_vkCreateSwapchainKHR W) as [result sc].
    destruct (w_vkGetSwapchainImagesKHR W) as [[result' image_count] written].
    destruct (w_check_passes W result); cbn;
      [destruct (sc =? 0); cbn;
       [|destruct (0 <? minImageCount (w_surface_capabilities W)) eqn:Hpos; cbn;
         [apply Z.ltb_lt in Hpos;
          destruct (w_check_passes W result'); cbn;
          [match goal with |- context [is_empty ?l] => destruct (is_empty l) end; cbn;
           [|destruct (image_count =? minImageCount (w_surface_capabilities W)); cbn]
          |]
         |]]
      |].
    all: intros Hin;
      repeat (apply elem_of_cons in Hin as [Hin|Hin];
              [first [discriminate Hin | by injection Hin as _ _ ->]|]);
      by apply elem_of_nil in Hin.
  - intros Hne. split.
    + destruct (w_vkCreateSwapchainKHR W) as [result sc].
      destruct (w_check_passes W result); cbn; [|left; by eexists].
      destruct (sc =? 0); cbn; [left; by eexists|].
      destruct (0 <? minImageCount (w_surface_capabilities W)) eqn:Hpos; cbn.
      2: { right. apply Z.ltb_ge in Hpos. split; [done|]. split; [done|].
           intros device swapchain capacity Hin.
           repeat (apply elem_of_cons in Hin as [Hin|Hin]; [discriminate Hin|]).
           by apply elem_of_nil in Hin. }
      left.
      destruct (w_vkGetSwapchainImagesKHR W) as [[result' image_count] written].
      destruct (w_check_passes W result'); cbn; [|by eexists].
      match goal with |- context [is_empty ?l] => destruct (is_empty l) end;
        cbn; [by eexists|].
      destruct (image_count =? minImageCount (w_surface_capabilities W)) eqn:Hcount;
        cbn; [|by eexists].
      cbn in Hne. lia.
    + destruct (main_run W budget)
        as (o & s' & context & frame & loop & shutdown & -> & _ & Hf & _ & Ho).
      cbn [outcome_of].
      assert (Hinit : ∀ a b c d q g, E_vklInitFramework a b c d q g ∈ frame → False).
      { intros a b c d q g Hin. rewrite Forall_forall in Hf.
        specialize (Hf _ Hin). inversion Hf. unfold retrieved_image_count in *. done. }
      destruct o as [code|f| |]; try done.
      * destruct Ho as (_ & _ & _ & (a & b & c & q & g & images & ->) & _).
        eapply Hinit. unfold frame_calls. apply elem_of_app. right. by left.
      * destruct Ho as (_ & (a & b & c & q & g & images & ->) & _).
        eapply Hinit. unfold frame_calls. apply elem_of_app. right. by left.
  - intros Hne Hpass Hsc Hpass' Hpos.
    destruct (w_vkCreateSwapchainKHR W) as [result sc]. cbn in Hpass, Hsc.
    rewrite Hpass. cbn.
    destruct (sc =? 0) eqn:Hz; [lia|]. cbn.
    apply Z.ltb_lt in Hpos as Hpos'. rewrite Hpos'. cbn.
    destruct (w_vkGetSwapchainImagesKHR W) as [[result' image_count] written].
    cbn in Hpass', Hne. rewrite Hpass'. cbn.
    match goal with |- context [is_empty ?l] => destruct l as [|image rest] eqn:Hl end.
    { apply (f_equal length) in Hl. rewrite length_resize in Hl. cbn in Hl. lia. }
    cbn.
    destruct (image_count =? minImageCount (w_surface_capabilities W)) eqn:Hcount;
      [lia|done].
Qed.

Lemma swapchain_image_count_checked_witness :
  retrieved_image_count mismatch_world
    ≠ minImageCount (w_surface_capabilities mismatch_world) ∧
  outcome_of (task_1_7 mismatch_world 103 102 104 2 (initial_state mismatch_world))
    = Fatal (ErrorMessage "image count mismatch") ∧
  match outcome_of (run_main mismatch_world 2) with
  | Fatal _ | Undefined => True
  | Ret _ | Unfinished => False
  end ∧
  retrieved_image_count no_image_world
    ≠ minImageCount (w_surface_capabilities no_image_world) ∧
  outcome_of (task_1_7 no_image_world 103 102 104 2 (initial_state no_image_world))
    = Undefined ∧
  outcome_of (run_main no_image_world 2) = Undefined.
Proof.
  assert (Hne : retrieved_image_count mismatch_world
                ≠ minImageCount (w_surface_capabilities mismatch_world))
    by (vm_compute; discriminate).
  destruct (swapchain_image_count_checked mismatch_world 103 102 104 2
              (initial_state mismatch_world) 2) as (_ & _ & Hfatal & Hmessage).
  split; [exact Hne|]. split; [|split].
  - apply Hmessage; [exact Hne|reflexivity|vm_compute; discriminate
                    |reflexivity|reflexivity].
  - exact (proj2 (Hfatal Hne)).
  - split; [vm_compute; discriminate|]. split; vm_compute; reflexivity.
Defined.

(** ** Teardown *)

Lemma omap_none {A B} (f : A → option B) (P : A → Prop) (l : list A) :
  Forall P l → (∀ x, P x → f x = None) → omap f l = [].
Proof.
  intros Hl Hf. induction Hl as [|x l Hx Hl IH]; [done|].
  cbn. by rewrite (Hf x Hx), IH.
Qed.

Lemma context_call_created (W : world) (e : event) :
  context_call W e → created e = None ∧ destroyed e = None.
Proof. by destruct 1. Qed.

Lemma loop_call_created (W : world) (e : event) :
  loop_call W e → created e = None ∧ destroyed e = None.
Proof. by destruct 1. Qed.

Lemma frame_calls_created (W : world) (a b c q g : handle) (images : list handle) :
  creation_order (frame_calls W a b c q g images)
    = [Framework; Pipeline; UniformBuffer; Camera; Geometry] ∧
  destruction_order (frame_calls W a b c q g images) = [].
Proof.
  unfold creation_order, destruction_order, frame_calls. rewrite !omap_app.
  rewrite (omap_none created (λ e, created e = None ∧ destroyed e = None)),
    (omap_none destroyed (λ e, created e = None ∧ destroyed e = None));
    [done| |by intros ? []| |by intros ? []];
    by apply Forall_replicate.
Qed.

(** C4, as the code has it.  When [main] returns, the six resources were
    created in the order window, framework, pipeline, uniform buffer, camera,
    geometry buffers, and are destroyed in the order camera, uniform buffer,
    pipeline, geometry buffers, framework, window.  That is the reverse of
    the creation order but for the geometry buffers: created last, they are
    destroyed fourth. *)
Theorem teardown_order (W : world) (budget : nat) (code : Z) :
  outcome_of (run_main W budget) = Ret code →
  creation_order (calls_of (run_main W budget))
    = [Window; Framework; Pipeline; UniformBuffer; Camera; Geometry] ∧
  destruction_order (calls_of (run_main W budget))
    = [Camera; UniformBuffer; Pipeline; Geometry; Framework; Window] ∧
  filter (λ x, x ≠ Geometry) (destruction_order (calls_of (run_main W budget)))
    = rev (filter (λ x, x ≠ Geometry)
             (creation_order (calls_of (run_main W budget)))).
Proof.
  destruct (main_run W budget)
    as (o & s' & context & frame & loop & shutdown & -> & Hc & Hf & Hl & Ho).
  cbn [outcome_of calls_of]. intros ->.
  destruct Ho as (_ & _ & -> & (a & b & c & q & g & images & ->) & ->).
  assert (Hcreated : creation_order
            (window_calls W ++ context ++ frame_calls W a b c q g images ++ loop
             ++ shutdown_calls W)
          = [Window; Framework; Pipeline; UniformBuffer; Camera; Geometry]).
  { unfold creation_order. rewrite !omap_app.
    rewrite (omap_none created _ context Hc) by (intros; by eapply context_call_created).
    rewrite (omap_none created _ loop Hl) by (intros; by eapply loop_call_created).
    fold (creation_order (frame_calls W a b c q g images)).
    by rewrite (proj1 (frame_calls_created W a b c q g images)). }
  assert (Hdestroyed : destruction_order
            (window_calls W ++ context ++ frame_calls W a b c q g images ++ loop
             ++ shutdown_calls W)
          = [Camera; UniformBuffer; Pipeline; Geometry; Framework; Window]).
  { unfold destruction_order. rewrite !omap_app.
    rewrite (omap_none destroyed _ context Hc) by (intros; by eapply context_call_created).
    rewrite (omap_none destroyed _ loop Hl) by (intros; by eapply loop_call_created).
    fold (destruction_order (frame_calls W a b c q g images)).
    by rewrite (proj2 (frame_calls_created W a b c q g images)). }
  rewrite Hcreated, Hdestroyed. done.
Qed.

Lemma teardown_order_witness :
  outcome_of (run_main sample_world 2) = Ret 0 ∧
  destruction_order (calls_of (run_main sample_world 2))
    = [Camera; UniformBuffer; Pipeline; Geometry; Framework; Window].
Proof.
  assert (H : outcome_of (run_main sample_world 2) = Ret 0) by (vm_compute; reflexivity).
  split; [exact H|].
  exact (proj1 (proj2 (teardown_order sample_world 2 0 H))).
Defined.

(** C4, as the spec has it, fails: on the sample world [main] returns, and
    the order of destruction is not the reverse of the order of creation. *)
Lemma teardown_not_reverse_of_creation :
  outcome_of (run_main sample_world 2) = Ret EXIT_SUCCESS ∧
  rev (creation_order (calls_of (run_main sample_world 2)))
    = [Geometry; Camera; UniformBuffer; Pipeline; Framework; Window] ∧
  destruction_order (calls_of (run_main sample_world 2))
    = [Camera; UniformBuffer; Pipeline; Geometry; Framework; Window] ∧
  destruction_order (calls_of (run_main sample_world 2))
    ≠ rev (creation_order (calls_of (run_main sample_world 2))).
Proof.
  assert (Hc : rev (creation_order (calls_of (run_main sample_world 2)))
               = [Geometry; Camera; UniformBuffer; Pipeline; Framework; Window])
    by (vm_compute; reflexivity).
  assert (Hd : destruction_order (calls_of (run_main sample_world 2))
               = [Camera; UniformBuffer; Pipeline; Geometry; Framework; Window])
    by (vm_compute; reflexivity).
  split; [vm_compute; reflexivity|]. split; [exact Hc|]. split; [exact Hd|].
  rewrite Hc, Hd. discriminate.
Qed.

(** ** Shutdown *)

(** Before the shutdown stage nothing is released and nobody waits for the
    device. *)
Lemma before_shutdown (W : world) (e : event) :
  window_call W e ∨ context_call W e ∨ frame_call W e ∨ loop_call W e →
  releases e = false ∧ is_idle_wait e = false.
Proof. intros [H|[H|[H|H]]]; by destruct H. Qed.

(** C5.  In every run, a call that releases a resource comes after the wait
    for the device to be idle, and a call that records or presents comes
    before any such wait.  When [main] returns, its last calls are the idle
    wait followed by the six releases, and nothing was released before. *)
Theorem idle_wait_before_release (W : world) (budget : nat) :
  let calls := calls_of (run_main W budget) in
  (∀ i e, calls !! i = Some e → releases e = true →
          ∃ j, (j < i)%nat ∧
               calls !! j = Some (E_vkDeviceWaitIdle (the_device W))) ∧
  (∀ i j e d, calls !! i = Some e → records_or_presents e = true →
              calls !! j = Some (E_vkDeviceWaitIdle d) → (i < j)%nat) ∧
  (∀ code, outcome_of (run_main W budget) = Ret code →
           ∃ before,
             calls = before ++ shutdown_calls W ∧
             Forall (λ e, releases e = false ∧ is_idle_wait e = false) before).
Proof.
  intros calls. subst calls.
  destruct (main_run W budget)
    as (o & s' & context & frame & loop & shutdown & -> & Hc & Hf & Hl & Ho).
  cbn [outcome_of calls_of].
  pose proof (task_1_1_calls W (initial_state W)) as Hw.
  set (window := calls_of (task_1_1 W (initial_state W))) in *.
  assert (Hbefore : Forall (λ e, releases e = false ∧ is_idle_wait e = false)
                      (window ++ context ++ frame ++ loop)).
  { repeat apply Forall_app_2;
      (eapply Forall_impl; [eassumption|]); intros e He;
      apply (before_shutdown W); auto. }
  assert (Hshutdown : shutdown = [] ∨ shutdown = shutdown_calls W).
  { destruct o as [code|f| |]; [right|left|left|left]; tauto. }
  replace (window ++ context ++ frame ++ loop ++ shutdown)
    with ((window ++ context ++ frame ++ loop) ++ shutdown)
    by (by rewrite <- !app_assoc).
  set (before := window ++ context ++ frame ++ loop) in *.
  rewrite Forall_lookup in Hbefore.
  split; [|split].
  - intros i e Hi He.
    apply lookup_app_Some in Hi as [Hi|[Hlen Hi]].
    { destruct (Hbefore i e Hi) as [Hr _]. congruence. }
    destruct Hshutdown as [->| ->]; [done|].
    exists (length before). split.
    + destruct (decide (i = length before)) as [->|]; [|lia].
      rewrite Nat.sub_diag in Hi. injection Hi as <-. done.
    + rewrite lookup_app_r, Nat.sub_diag by lia. done.
  - intros i j e d Hi He Hj.
    apply lookup_app_Some in Hj as [Hj|[Hlenj Hj]].
    { destruct (Hbefore j _ Hj) as [_ Hidle]. done. }
    apply lookup_app_Some in Hi as [Hi|[Hleni Hi]].
    { apply lookup_lt_Some in Hi. lia. }
    destruct Hshutdown as [->| ->]; [done|].
    exfalso. unfold shutdown_calls in Hi.
    generalize dependent (i - length before)%nat. intros k Hk.
    do 7 (destruct k as [|k]; [injection Hk as <-; discriminate He|cbn in Hk]).
    done.
  - intros code ->. destruct Ho as (_ & _ & _ & _ & ->).
    exists before. split; [done|]. by apply Forall_lookup.
Qed.

Lemma idle_wait_before_release_witness :
  calls_of (run_main sample_world 2) !! 77%nat = Some (E_vklDestroyCamera 114) ∧
  ∃ j, (j < 77)%nat ∧
       calls_of (run_main sample_world 2) !! j
         = Some (E_vkDeviceWaitIdle (the_device sample_world)).
Proof.
  assert (Hi : calls_of (run_main sample_world 2) !! 77%nat
               = Some (E_vklDestroyCamera 114)) by (vm_compute; reflexivity).
  split; [exact Hi|].
  exact (proj1 (idle_wait_before_release sample_world 2) 77%nat _ Hi eq_refl).
Defined.

(** ** Swapchain configuration and the selected queue family *)

Lemma main_selects_unique (W : world) (d d' : handle) (i i' : Z) :
  main_selects W d i → main_selects W d' i' → d' = d ∧ i' = i.
Proof.
  intros [Hd [Hi _]] [Hd' [Hi' _]].
  rewrite Hd in Hd'. injection Hd' as <-.
  rewrite Hi in Hi'. by injection Hi' as <-.
Qed.

(** C6.  Whenever [main] creates the swapchain, it creates it on the device
    it created, for the surface it created, and the configuration it passes
    asks for exclusive sharing with exactly one queue family index: the one
    [selectQueueFamilyIndex] returned for that surface and the physical
    device [main] picked, and no other; for the FIFO present mode; and for
    as many images as the surface minimum the driver reported. *)
Theorem swapchain_configuration
    (W : world) (budget : nat) (vk_device : handle) (info : VkSwapchainCreateInfoKHR) :
  E_vkCreateSwapchainKHR vk_device info ∈ calls_of (run_main W budget) →
  vk_device = the_device W ∧
  sc_surface info = the_surface W ∧
  imageSharingMode info = VK_SHARING_MODE_EXCLUSIVE ∧
  queueFamilyIndexCount info = 1 ∧
  (∃ vk_physical_device i,
     phys_devices W
       !! Z.to_nat (w_hlpSelectPhysicalDeviceIndex W (phys_devices W) (the_surface W))
       = Some vk_physical_device ∧
     outcome_of (selectQueueFamilyIndex W vk_physical_device (sc_surface info)
                   (initial_state W)) = Ret i ∧
     pQueueFamilyIndices info = [i] ∧
     ∀ d' i', main_selects W d' i' → d' = vk_physical_device ∧ i' = i) ∧
  presentMode info = VK_PRESENT_MODE_FIFO_KHR ∧
  sc_minImageCount info = minImageCount (w_surface_capabilities W).
Proof.
  intros Hin. apply main_call_cases in Hin as [H|[H|[H|[H|H]]]].
  - inversion H.
  - inversion H as [| | | | | | | | | | | | | | | |pd i Hmain|]. subst.
    cbn. repeat (split; [done|]). split; [|done].
    exists pd, i. split; [apply Hmain|]. split; [apply Hmain|]. split; [done|].
    intros d' i'. by apply main_selects_unique.
  - inversion H.
  - inversion H.
  - by not_among H.
Qed.


Lemma swapchain_configuration_witness :
  E_vkCreateSwapchainKHR 104
    (swapchain_create_info 102 (w_surface_capabilities sample_world) 2 44 0)
    ∈ calls_of (run_main sample_world 2) ∧
  pQueueFamilyIndices
    (swapchain_create_info 102 (w_surface_capabilities sample_world) 2 44 0) = [2] ∧
  outcome_of (selectQueueFamilyIndex sample_world 103 102 (initial_state sample_world))
    = Ret 2 ∧
  the_device sample_world = 104.
Proof.
  assert (Hin : E_vkCreateSwapchainKHR 104
                  (swapchain_create_info 102 (w_surface_capabilities sample_world) 2 44 0)
                ∈ calls_of (run_main sample_world 2)).
  { apply (list_elem_of_lookup_2 _ 38). vm_compute. reflexivity. }
  split; [exact Hin|]. split; [reflexivity|]. split; [vm_compute; reflexivity|].
  symmetry. exact (proj1 (swapchain_configuration sample_world 2 104 _ Hin)).
Defined.


(** ** Uniform data and descriptors *)

Lemma frame_calls_descriptors (W : world) (a b c q g : handle) (images : list handle) :
  omap descriptor_step_of (frame_calls W a b c q g images)
    = [CreatePool; CreateLayout; AllocateSet; UpdateSet].
Proof.
  unfold frame_calls. rewrite omap_app.
  rewrite (omap_none descriptor_step_of (λ e, descriptor_step_of e = None));
    [done| |done].
  by apply Forall_replicate.
Qed.

(** C8.  One iteration of the loop changes the transformation of the
    uniform data and nothing else of it.  Every copy into the uniform buffer
    that a run makes is a copy of the whole struct with the colour it was
    initialised with.  The descriptor pool, layout and set are created and
    the set is written before the first check at the top of the loop, never
    after; in a run that gets to the loop each of the four happens exactly
    once. *)
Theorem uniform_data_and_descriptors (W : world) (budget : nat) :
  let calls := calls_of (run_main W budget) in
  (∀ r u s,
     outcome_of (render_frame W r u s)
       = Ret {| color := color u;
                transformation := w_camera_matrix W (S (polls s)) |}) ∧
  (∀ buffer data size,
     E_vklCopyDataIntoHostCoherentBuffer buffer data size ∈ calls →
     color data = (f_1, f_0_25, f_0, f_1) ∧ size = sizeof_UniformBufferData) ∧
  (∀ i j e e',
     calls !! i = Some e → is_Some (descriptor_step_of e) →
     calls !! j = Some e' → is_loop_top e' = true → (i < j)%nat) ∧
  (∀ e, e ∈ calls → is_loop_top e = true →
     omap descriptor_step_of calls
       = [CreatePool; CreateLayout; AllocateSet; UpdateSet]).
Proof.
  intros calls. subst calls. split; [|split; [|split]].
  - intros r u s. by destruct (render_frame_run W r u s) as [Ho _].
  - intros buffer data size Hin.
    apply main_call_cases in Hin as [H|[H|[H|[H|H]]]];
      [inversion H|inversion H|by inversion H|by inversion H|by not_among H].
  - destruct (main_run W budget)
      as (o & s' & context & frame & loop & shutdown & -> & Hc & Hf & Hl & Ho).
    cbn [outcome_of calls_of].
    pose proof (task_1_1_calls W (initial_state W)) as Hw.
    set (window := calls_of (task_1_1 W (initial_state W))) in *.
    assert (Hsetup : Forall (λ e, is_loop_top e = false) (window ++ context ++ frame)).
    { repeat apply Forall_app_2; (eapply Forall_impl; [eassumption|]);
        intros e He; by destruct He. }
    assert (Hrest : Forall (λ e, descriptor_step_of e = None) (loop ++ shutdown)).
    { apply Forall_app_2.
      - eapply Forall_impl; [eassumption|]. intros e He. by destruct He.
      - destruct o as [code|f| |].
        + destruct Ho as (_ & _ & _ & _ & ->). by repeat constructor.
        + destruct Ho as (_ & -> & _). constructor.
        + destruct Ho as (_ & ->). constructor.
        + destruct Ho as (_ & _ & ->). constructor. }
    replace (window ++ context ++ frame ++ loop ++ shutdown)
      with ((window ++ context ++ frame) ++ (loop ++ shutdown))
      by (by rewrite <- !app_assoc).
    rewrite Forall_lookup in Hsetup, Hrest.
    intros i j e e' Hi [step He] Hj He'.
    apply lookup_app_Some in Hi as [Hi|[_ Hi]].
    2: { rewrite (Hrest _ _ Hi) in He. done. }
    apply lookup_app_Some in Hj as [Hj|[Hlen _]].
    { rewrite (Hsetup _ _ Hj) in He'. done. }
    apply lookup_lt_Some in Hi. lia.
  - destruct (main_run W budget)
      as (o & s' & context & frame & loop & shutdown & -> & Hc & Hf & Hl & Ho).
    cbn [outcome_of calls_of].
    pose proof (task_1_1_calls W (initial_state W)) as Hw.
    intros e Hin He.
    assert (Hreached :
      (∃ a b c q g images, frame = frame_calls W a b c q g images) ∧
      omap descriptor_step_of shutdown = []).
    { destruct o as [code|f| |].
      - destruct Ho as (_ & _ & _ & Hframe & ->). done.
      - exfalso. destruct Ho as (-> & -> & _).
        rewrite !app_nil_r, !elem_of_app in Hin. rewrite Forall_forall in Hw, Hc, Hf.
        destruct Hin as [Hin|[Hin|Hin]];
          [apply Hw in Hin|apply Hc in Hin|apply Hf in Hin]; by destruct Hin.
      - exfalso. destruct Ho as (-> & ->).
        rewrite !app_nil_r, !elem_of_app in Hin. rewrite Forall_forall in Hw, Hc, Hf.
        destruct Hin as [Hin|[Hin|Hin]];
          [apply Hw in Hin|apply Hc in Hin|apply Hf in Hin]; by destruct Hin.
      - destruct Ho as (_ & Hframe & ->). done. }
    destruct Hreached as [(a & b & c & q & g & images & ->) Hshutdown].
    rewrite !omap_app, Hshutdown, frame_calls_descriptors.
    rewrite (omap_none descriptor_step_of _ _ Hw) by (intros ? []; done).
    rewrite (omap_none descriptor_step_of _ _ Hc) by (intros ? []; done).
    rewrite (omap_none descriptor_step_of _ _ Hl) by (intros ? []; done).
    done.
Qed.

Lemma uniform_data_and_descriptors_witness :
  E_glfwWindowShouldClose 100 ∈ calls_of (run_main sample_world 2) ∧
  omap descriptor_step_of (calls_of (run_main sample_world 2))
    = [CreatePool; CreateLayout; AllocateSet; UpdateSet].
Proof.
  assert (Hin : E_glfwWindowShouldClose 100 ∈ calls_of (run_main sample_world 2)).
  { apply (list_elem_of_lookup_2 _ 54). vm_compute. reflexivity. }
  split; [exact Hin|].
  exact (proj2 (proj2 (proj2 (uniform_data_and_descriptors sample_world 2)))
           _ Hin eq_refl).
Defined.

(** ** Window and swapchain extent *)

(** C10.  Whenever [main] creates the swapchain, the extent it asks for is
    800 by 800, whatever current extent the driver reports for the surface;
    these are the dimensions the window is created with.  The only value
    the resizable hint is ever given is false, and it is given before the
    window is created. *)
Theorem swapchain_extent_is_window_size (W : world) (budget : nat) :
  let calls := calls_of (run_main W budget) in
  (∀ vk_device info,
     E_vkCreateSwapchainKHR vk_device info ∈ calls →
     imageExtent info = {| width := 800; height := 800 |}) ∧
  (∀ w h title monitor share,
     E_glfwCreateWindow w h title monitor share ∈ calls → w = 800 ∧ h = 800) ∧
  (∀ value,
     E_glfwWindowHint GLFW_RESIZABLE value ∈ calls → value = GLFW_FALSE) ∧
  (∀ i w h title monitor share,
     calls !! i = Some (E_glfwCreateWindow w h title monitor share) →
     ∃ j, (j < i)%nat ∧
          calls !! j = Some (E_glfwWindowHint GLFW_RESIZABLE GLFW_FALSE)).
Proof.
  intros calls. subst calls. split; [|split; [|split]].
  - intros dev info Hin.
    apply main_call_cases in Hin as [H|[H|[H|[H|H]]]];
      [inversion H|by inversion H|inversion H|inversion H|by not_among H].
  - intros w h title monitor share Hin.
    apply main_call_cases in Hin as [H|[H|[H|[H|H]]]];
      [by inversion H|inversion H|inversion H|inversion H|by not_among H].
  - intros value Hin.
    apply main_call_cases in Hin as [H|[H|[H|[H|H]]]];
      [by inversion H|inversion H|inversion H|inversion H|by not_among H].
  - destruct (main_run W budget)
      as (o & s' & context & frame & loop & shutdown & -> & Hc & Hf & Hl & Ho).
    cbn [calls_of].
    assert (Hrest : Forall (λ e, is_window_call e = false)
                      (context ++ frame ++ loop ++ shutdown)).
    { repeat apply Forall_app_2;
        try ((eapply Forall_impl; [eassumption|]); intros e He; by destruct He).
      destruct o as [code|f| |].
      - destruct Ho as (_ & _ & _ & _ & ->). by repeat constructor.
      - destruct Ho as (_ & -> & _). constructor.
      - destruct Ho as (_ & ->). constructor.
      - destruct Ho as (_ & _ & ->). constructor. }
    rewrite Forall_lookup in Hrest.
    intros i w h title monitor share Hi.
    apply lookup_app_Some in Hi as [Hi|[_ Hi]].
    2: { by apply Hrest in Hi. }
    exists 4%nat. rewrite task_1_1_run in *.
    destruct (w_glfwInit W); [destruct (w_glfwCreateWindow W =? 0)|];
      cbn [calls_of] in *.
    + destruct i as [|[|[|[|[|[|[|[|[|[|i]]]]]]]]]]; cbn in Hi;
        try discriminate Hi. split; [lia|done].
    + destruct i as [|[|[|[|[|[|[|[|i]]]]]]]]; cbn in Hi;
        try discriminate Hi. split; [lia|done].
    + destruct i as [|[|[|[|i]]]]; cbn in Hi; discriminate Hi.
Qed.

Lemma swapchain_extent_is_window_size_witness :
  currentExtent (w_surface_capabilities sample_world)
    = {| width := 1600; height := 1600 |} ∧
  E_vkCreateSwapchainKHR 104
    (swapchain_create_info 102 (w_surface_capabilities sample_world) 2 44 0)
    ∈ calls_of (run_main sample_world 2) ∧
  imageExtent
    (swapchain_create_info 102 (w_surface_capabilities sample_world) 2 44 0)
    = {| width := 800; height := 800 |}.
Proof.
  assert (Hin : E_vkCreateSwapchainKHR 104
                  (swapchain_create_info 102 (w_surface_capabilities sample_world) 2 44 0)
                ∈ calls_of (run_main sample_world 2)).
  { apply (list_elem_of_lookup_2 _ 38). vm_compute. reflexivity. }
  split; [reflexivity|]. split; [exact Hin|].
  exact (proj1 (swapchain_extent_is_window_size sample_world 2) 104 _ Hin).
Defined.

(** * Further properties of the code *)

(** ** Required instance extensions *)

Lemma check_extensions_supported (W : world) (exts : list string) (s : state) :
  forallb (w_hlpIsInstanceExtensionSupported W) exts = true →
  check_extensions W exts s = Run (Ret tt) s (extension_checks exts).
Proof.
  induction exts as [|ext exts IH]; intros Hall; [done|].
  cbn in Hall. apply andb_true_iff in Hall as [Hext Hall].
  cbn [check_extensions]. run_monad. rewrite Hext. cbn.
  rewrite (IH Hall). done.
Qed.

Lemma check_extensions_unsupported (W : world) (pre post : list string)
    (ext : string) (s : state) :
  forallb (w_hlpIsInstanceExtensionSupported W) pre = true →
  w_hlpIsInstanceExtensionSupported W ext = false →
  check_extensions W (pre ++ ext :: post) s =
    Run (Fatal (unsupported_extension ext)) s
      (extension_checks pre
       ++ [E_hlpIsInstanceExtensionSupported ext;
           E_EXIT_WITH_ERROR (unsupported_extension ext)]).
Proof.
  intros Hpre Hext. induction pre as [|e pre IH].
  - cbn [check_extensions app]. run_monad. rewrite Hext. done.
  - cbn in Hpre. apply andb_true_iff in Hpre as [He Hpre].
    cbn [check_extensions app]. run_monad. rewrite He. cbn.
    rewrite (IH Hpre). done.
Qed.

(** X1.  When every extension GLFW and the framework require is supported,
    [getRequiredInstanceExtensions] returns GLFW's extensions followed by
    the framework's, in their order and with any duplicates, after asking
    for each of them once, in that order, and logging it. *)
Theorem getRequiredInstanceExtensions_merges (W : world) (s : state) :
  let exts := w_glfwGetRequiredInstanceExtensions W
              ++ w_vklGetRequiredInstanceExtensions W in
  forallb (w_hlpIsInstanceExtensionSupported W) exts = true →
  getRequiredInstanceExtensions W s =
    Run (Ret exts) s
      ([E_glfwGetRequiredInstanceExtensions; E_vklGetRequiredInstanceExtensions]
       ++ extension_checks exts).
Proof.
  intros exts Hall. unfold getRequiredInstanceExtensions. run_monad.
  fold exts. rewrite (check_extensions_supported W exts s Hall).
  cbn. by rewrite app_nil_r.
Qed.

Lemma getRequiredInstanceExtensions_merges_witness :
  forallb (w_hlpIsInstanceExtensionSupported sample_world)
    (w_glfwGetRequiredInstanceExtensions sample_world
     ++ w_vklGetRequiredInstanceExtensions sample_world) = true ∧
  outcome_of (getRequiredInstanceExtensions sample_world (initial_state sample_world))
    = Ret ["VK_KHR_surface"; "VK_KHR_xcb_surface"; "VK_EXT_debug_utils"].
Proof.
  split; [reflexivity|].
  rewrite (getRequiredInstanceExtensions_merges sample_world
             (initial_state sample_world) eq_refl).
  reflexivity.
Defined.

(** X2.  When some required extension is not supported,
    [getRequiredInstanceExtensions] ends the process with a message that
    names the first such extension in the merged order; the extensions
    before it were asked for and logged, the ones after it are never asked
    for. *)
Theorem getRequiredInstanceExtensions_first_unsupported
    (W : world) (s : state) (pre post : list string) (ext : string) :
  w_glfwGetRequiredInstanceExtensions W ++ w_vklGetRequiredInstanceExtensions W
    = pre ++ ext :: post →
  forallb (w_hlpIsInstanceExtensionSupported W) pre = true →
  w_hlpIsInstanceExtensionSupported W ext = false →
  getRequiredInstanceExtensions W s =
    Run (Fatal (unsupported_extension ext)) s
      ([E_glfwGetRequiredInstanceExtensions; E_vklGetRequiredInstanceExtensions]
       ++ extension_checks pre
       ++ [E_hlpIsInstanceExtensionSupported ext;
           E_EXIT_WITH_ERROR (unsupported_extension ext)]).
Proof.
  intros Hexts Hpre Hext. unfold getRequiredInstanceExtensions. run_monad.
  rewrite Hexts, (check_extensions_unsupported W pre post ext s Hpre Hext). done.
Qed.

Lemma getRequiredInstanceExtensions_first_unsupported_witness :
  w_glfwGetRequiredInstanceExtensions no_xcb_world
    ++ w_vklGetRequiredInstanceExtensions no_xcb_world
    = ["VK_KHR_surface"] ++ "VK_KHR_xcb_surface" :: ["VK_EXT_debug_utils"] ∧
  calls_of (getRequiredInstanceExtensions no_xcb_world (initial_state no_xcb_world))
    = [E_glfwGetRequiredInstanceExtensions; E_vklGetRequiredInstanceExtensions;
       E_hlpIsInstanceExtensionSupported "VK_KHR_surface";
       E_LOG ("Extension " +:+ dq +:+ "VK_KHR_surface" +:+ dq +:+ " is supported");
       E_hlpIsInstanceExtensionSupported "VK_KHR_xcb_surface";
       E_EXIT_WITH_ERROR (unsupported_extension "VK_KHR_xcb_surface")].
Proof.
  split; [reflexivity|].
  rewrite (getRequiredInstanceExtensions_first_unsupported no_xcb_world
             (initial_state no_xcb_world) ["VK_KHR_surface"] ["VK_EXT_debug_utils"]
             "VK_KHR_xcb_surface" eq_refl eq_refl eq_refl).
  reflexivity.
Defined.

(** ** The key map *)

Lemma handleGlfwKeyCallback_run (window key scancode action mods : Z) (s : state) :
  let r := handleGlfwKeyCallback window key scancode action mods s in
  let closes := (action =? GLFW_RELEASE) && (key =? GLFW_KEY_ESCAPE) in
  outcome_of r = Ret tt ∧
  calls_of r = (if closes then [E_glfwSetWindowShouldClose window true] else []) ∧
  should_close (state_of r) = should_close s || closes ∧
  polls (state_of r) = polls s ∧
  (∀ k, k ≠ key → g_isGlfwKeyDown (state_of r) !! k = g_isGlfwKeyDown s !! k) ∧
  g_isGlfwKeyDown (state_of r) !! key =
    if action =? GLFW_RELEASE then Some false
    else if action =? GLFW_PRESS then Some true
    else g_isGlfwKeyDown s !! key.
Proof.
  unfold handleGlfwKeyCallback, assign_key, glfwSetWindowShouldClose. run_monad.
  destruct (action =? GLFW_PRESS) eqn:Hp, (action =? GLFW_RELEASE) eqn:Hr,
    (key =? GLFW_KEY_ESCAPE) eqn:He; cbn;
    rewrite ?orb_true_r, ?orb_false_r;
    repeat (split; [done|]);
    try (split; [intros k Hk; by rewrite ?lookup_insert_ne by done|]);
    rewrite ?lookup_insert_eq; try done.
  all: exfalso; unfold GLFW_PRESS, GLFW_RELEASE in *; lia.
Qed.

(** X3.  The key callback always returns.  It touches the entry of the key
    of the event and no other: a release stores false, a press stores true,
    any other action (a repeat) stores nothing.  It asks GLFW to close the
    window exactly when the event is a release of Escape, at most once, and
    it never takes a close request back. *)
Theorem handleGlfwKeyCallback_effect
    (window key scancode action mods : Z) (s : state) :
  let r := handleGlfwKeyCallback window key scancode action mods s in
  let closes := (action =? GLFW_RELEASE) && (key =? GLFW_KEY_ESCAPE) in
  outcome_of r = Ret tt ∧
  calls_of r = (if closes then [E_glfwSetWindowShouldClose window true] else []) ∧
  should_close (state_of r) = should_close s || closes ∧
  polls (state_of r) = polls s ∧
  (∀ k, k ≠ key → g_isGlfwKeyDown (state_of r) !! k = g_isGlfwKeyDown s !! k) ∧
  g_isGlfwKeyDown (state_of r) !! key =
    if action =? GLFW_RELEASE then Some false
    else if action =? GLFW_PRESS then Some true
    else g_isGlfwKeyDown s !! key.
Proof. exact (handleGlfwKeyCallback_run window key scancode action mods s). Qed.

(** X4.  [isKeyDown] is not a pure read: asking for a key that has no entry
    creates the entry, with false.  In every case the map afterwards is the
    map before with the answer stored for the key, nothing else changes, no
    call is made, and asking again gives the same answer and changes
    nothing. *)
Theorem isKeyDown_stores_answer (k : Z) (s : state) :
  let r := isKeyDown k s in
  let answer := default false (g_isGlfwKeyDown s !! k) in
  outcome_of r = Ret answer ∧
  calls_of r = [] ∧
  g_isGlfwKeyDown (state_of r) = <[k := answer]> (g_isGlfwKeyDown s) ∧
  dom (g_isGlfwKeyDown (state_of r)) = {[k]} ∪ dom (g_isGlfwKeyDown s) ∧
  should_close (state_of r) = should_close s ∧
  polls (state_of r) = polls s ∧
  isKeyDown k (state_of r) = Run (Ret answer) (state_of r) [].
Proof.
  unfold isKeyDown, subscript.
  destruct (g_isGlfwKeyDown s !! k) as [down|] eqn:Hk; cbn.
  - rewrite Hk. cbn. rewrite insert_id by done.
    repeat (split; [done|]). split; [|by destruct s].
    symmetry. apply subseteq_union_1_L, singleton_subseteq_l.
    by apply elem_of_dom_2 in Hk.
  - rewrite lookup_insert_eq. cbn. rewrite dom_insert_L.
    repeat (split; [done|]). done.
Qed.

Lemma deliver_key (window : handle) (evs : list input_event) (s : state) (k : Z) :
  g_isGlfwKeyDown (state_of (deliver window evs s)) !! k
    = key_after k evs (g_isGlfwKeyDown s !! k).
Proof.
  revert s. induction evs as [|ev evs IH]; intros s; [done|].
  destruct ev as [key scancode action mods|]; cbn [deliver key_after foldl].
  - destruct (handleGlfwKeyCallback_run window key scancode action mods s)
      as (Ho & _ & _ & _ & Hother & Hkey). cbv zeta in *.
    cbv [mbind M_MBind M_bind].
    destruct (handleGlfwKeyCallback window key scancode action mods s)
      as [o s1 calls]. cbn [outcome_of state_of] in *. subst o.
    specialize (IH s1). destruct (deliver window evs s1) as [o2 s2 calls2].
    cbn [state_of] in *. rewrite IH. unfold key_after. f_equal.
    destruct (key =? k) eqn:Hk.
    + apply Z.eqb_eq in Hk. subst k. done.
    + apply Z.eqb_neq in Hk. by apply Hother.
  - cbv [mbind M_MBind M_bind modify].
    specialize (IH (set_should_close true s)).
    destruct (deliver window evs (set_should_close true s)) as [o2 s2 calls2].
    cbn [state_of] in *. by rewrite IH.
Qed.

(** X5.  Polling the events always returns and counts as one poll.  A close
    request that was pending stays pending, and one is pending afterwards
    exactly if it was before or the batch held a close of the window or a
    release of Escape.  For every key, the entry of the map afterwards is
    decided by the last press or release of that key in the batch; a key
    without an event in the batch keeps its entry. *)
Theorem glfwPollEvents_effect (W : world) (s : state) :
  let evs := w_poll_events W (polls s) in
  let r := glfwPollEvents W s in
  outcome_of r = Ret tt ∧
  calls_of r = E_glfwPollEvents :: callback_calls (w_glfwCreateWindow W) evs ∧
  polls (state_of r) = S (polls s) ∧
  should_close (state_of r) = should_close s || existsb requests_close evs ∧
  (∀ k, g_isGlfwKeyDown (state_of r) !! k = key_after k evs (g_isGlfwKeyDown s !! k)) ∧
  (∀ k, (∀ scancode action mods, KeyEvent k scancode action mods ∉ evs) →
        g_isGlfwKeyDown (state_of r) !! k = g_isGlfwKeyDown s !! k).
Proof.
  intros evs r.
  assert (Hkeys : ∀ k, g_isGlfwKeyDown (state_of r) !! k
                       = key_after k evs (g_isGlfwKeyDown s !! k)).
  { intros k. subst r. unfold glfwPollEvents. run_monad.
    pose proof (deliver_key (w_glfwCreateWindow W) evs (count_poll s) k) as Hk.
    fold evs. destruct (deliver (w_glfwCreateWindow W) evs (count_poll s)). done. }
  subst r. unfold glfwPollEvents. run_monad. fold evs.
  destruct (deliver_run (w_glfwCreateWindow W) evs (count_poll s))
    as (Ho & Hc & Hp & Hs).
  unfold glfwPollEvents in Hkeys. run_monad. fold evs in Hkeys.
  destruct (deliver (w_glfwCreateWindow W) evs (count_poll s)) as [o s' calls].
  cbn [outcome_of state_of calls_of] in *. subst o calls.
  do 4 (split; [done|]). split; [exact Hkeys|].
  intros k Hnone. rewrite Hkeys. clear -Hnone.
  generalize (g_isGlfwKeyDown s !! k) as entry.
  induction evs as [|ev evs IH]; intros entry; [done|].
  cbn. destruct ev as [key scancode action mods|].
  - destruct (key =? k) eqn:Hk.
    + apply Z.eqb_eq in Hk. subst key. exfalso.
      apply (Hnone scancode action mods). by left.
    + apply IH. intros sc a m Hin. apply (Hnone sc a m). by right.
  - apply IH. intros sc a m Hin. apply (Hnone sc a m). by right.
Qed.

(** ** How long the loop runs *)

Lemma number_of_app (kind : event → bool) (l1 l2 : list event) :
  number_of kind (l1 ++ l2) = (number_of kind l1 + number_of kind l2)%nat.
Proof. unfold number_of. by rewrite List.filter_app, length_app. Qed.

Lemma render_frame_presents (W : world) (r : frame_resources)
    (u : UniformBufferData) (s : state) :
  number_of is_present (calls_of (render_frame W r u s)) = 1%nat.
Proof.
  destruct (render_frame_run W r u s) as (_ & -> & _). cbv zeta.
  rewrite !number_of_app.
  assert (Hcb : number_of is_present
                  (callback_calls (w_glfwCreateWindow W) (w_poll_events W (polls s)))
                = 0%nat).
  { induction (w_poll_events W (polls s)) as [|ev evs IH]; [done|].
    cbn. destruct (escape_release ev); [|done].
    change (number_of is_present
              ([E_glfwSetWindowShouldClose (w_glfwCreateWindow W) true]
               ++ callback_calls (w_glfwCreateWindow W) evs) = 0%nat).
    by rewrite number_of_app, IH. }
  rewrite Hcb. done.
Qed.

Lemma render_loop_count
    (W : world) (budget k : nat) (window : handle) (r : frame_resources)
    (u : UniformBufferData) (s : state) :
  should_close s = false →
  (∀ j, (j < k)%nat →
        existsb requests_close (w_poll_events W (polls s + j)) = false) →
  existsb requests_close (w_poll_events W (polls s + k)) = true →
  let run := render_loop W budget window r u s in
  ((k < budget)%nat →
     outcome_of run
       = Ret {| color := color u;
                transformation := w_camera_matrix W (polls s + k + 1) |} ∧
     polls (state_of run) = (polls s + k + 1)%nat ∧
     should_close (state_of run) = true ∧
     number_of is_present (calls_of run) = (k + 1)%nat) ∧
  ((budget ≤ k)%nat →
     outcome_of run = Unfinished ∧
     number_of is_present (calls_of run) = budget).
Proof.
  revert budget u s. induction k as [|k IH]; intros budget u s Hs Hnone Hclose run;
    subst run.
  - rewrite Nat.add_0_r in *. split.
    + intros Hk. destruct budget as [|budget]; [lia|].
      rewrite render_loop_running by done. cbv zeta.
      destruct (render_frame_run W r u s) as (_ & _ & Hpolls & Hflag).
      cbv zeta in *. rewrite Hclose, orb_true_r in Hflag.
      rewrite (render_loop_closing W budget window r _ _ Hflag).
      cbn [outcome_of state_of calls_of].
      replace (polls s + 1)%nat with (S (polls s)) by lia.
      split; [done|]. split; [done|]. split; [done|].
      change (E_glfwWindowShouldClose window
                :: calls_of (render_frame W r u s) ++ [E_glfwWindowShouldClose window])
        with ([E_glfwWindowShouldClose window]
                ++ calls_of (render_frame W r u s) ++ [E_glfwWindowShouldClose window]).
      by rewrite !number_of_app, render_frame_presents.
    + intros Hk. assert (budget = 0%nat) as -> by lia.
      cbn [render_loop]. unfold glfwWindowShouldClose. run_monad. by rewrite Hs.
  - destruct budget as [|budget].
    { split; [lia|]. intros _.
      cbn [render_loop]. unfold glfwWindowShouldClose. run_monad. by rewrite Hs. }
    rewrite render_loop_running by done. cbv zeta.
    destruct (render_frame_run W r u s) as (_ & _ & Hpolls & Hflag).
    cbv zeta in *.
    pose proof (Hnone 0%nat ltac:(lia)) as Hfirst. rewrite Nat.add_0_r in Hfirst.
    rewrite Hfirst, Hs in Hflag. cbn [orb] in Hflag.
    specialize (IH budget
                  {| color := color u;
                     transformation := w_camera_matrix W (S (polls s)) |}
                  (state_of (render_frame W r u s))).
    rewrite Hpolls in IH.
    assert (Hnone' : ∀ j, (j < k)%nat →
              existsb requests_close (w_poll_events W (S (polls s) + j)) = false).
    { intros j Hj. replace (S (polls s) + j)%nat with (polls s + S j)%nat by lia.
      apply Hnone. lia. }
    assert (Hclose' : existsb requests_close (w_poll_events W (S (polls s) + k)) = true).
    { by replace (S (polls s) + k)%nat with (polls s + S k)%nat by lia. }
    specialize (IH Hflag Hnone' Hclose'). cbv zeta in IH. cbn [color] in IH.
    cbn [outcome_of state_of calls_of].
    change (E_glfwWindowShouldClose window :: ?l ++ ?l')
      with ([E_glfwWindowShouldClose window] ++ l ++ l').
    rewrite !number_of_app, render_frame_presents.
    destruct IH as [IHret IHrun]. split.
    + intros Hk. destruct (IHret ltac:(lia)) as (-> & -> & -> & ->).
      replace (S (polls s) + k + 1)%nat with (polls s + S k + 1)%nat by lia.
      repeat (split; [done|]). cbn. lia.
    + intros Hk. destruct (IHrun ltac:(lia)) as (-> & ->). done.
Qed.

(** X6.  The loop runs as many frames as it takes for a close request to
    arrive.  With no request pending, none in the next [k] polls and one in
    the poll after, a loop that is followed for more than [k] iterations
    returns after exactly [k + 1] polls and [k + 1] presented frames, with
    the uniform data holding the camera matrix of the last frame; followed
    for [budget] iterations, [budget] not above [k], it is still running
    after [budget] frames. *)
Theorem render_loop_frames
    (W : world) (budget k : nat) (window : handle) (r : frame_resources)
    (u : UniformBufferData) (s : state) :
  should_close s = false →
  (∀ j, (j < k)%nat →
        existsb requests_close (w_poll_events W (polls s + j)) = false) →
  existsb requests_close (w_poll_events W (polls s + k)) = true →
  let run := render_loop W budget window r u s in
  ((k < budget)%nat →
     outcome_of run
       = Ret {| color := color u;
                transformation := w_camera_matrix W (polls s + k + 1) |} ∧
     polls (state_of run) = (polls s + k + 1)%nat ∧
     should_close (state_of run) = true ∧
     number_of is_present (calls_of run) = (k + 1)%nat) ∧
  ((budget ≤ k)%nat →
     outcome_of run = Unfinished ∧
     number_of is_present (calls_of run) = budget).
Proof. exact (render_loop_count W budget k window r u s). Qed.

Lemma render_loop_frames_witness :
  let s := {| g_isGlfwKeyDown := ∅; should_close := false; polls := 0 |} in
  existsb requests_close (w_poll_events sample_world (polls s + 1)) = true ∧
  number_of is_present
    (calls_of (render_loop sample_world 5 100 (the_resources sample_world)
                 initial_uniform_buffer_data s)) = 2%nat ∧
  outcome_of (render_loop sample_world 1 100 (the_resources sample_world)
                initial_uniform_buffer_data s) = Unfinished.
Proof.
  intros s.
  assert (Hnone : ∀ j, (j < 1)%nat →
            existsb requests_close (w_poll_events sample_world (polls s + j)) = false).
  { intros j Hj. assert (j = 0%nat) as -> by lia. reflexivity. }
  split; [reflexivity|]. split.
  - exact (proj2 (proj2 (proj2 (proj1
             (render_loop_frames sample_world 5 1 100 (the_resources sample_world)
                initial_uniform_buffer_data s eq_refl Hnone eq_refl)
             ltac:(lia))))).
  - exact (proj1 (proj2
             (render_loop_frames sample_world 1 1 100 (the_resources sample_world)
                initial_uniform_buffer_data s eq_refl Hnone eq_refl)
             ltac:(lia))).
Defined.

(** ** The whole run, from the bring-up on *)

(** [main] is the bring-up, then the loop on the handles the bring-up
    returned, then the idle wait and the cleanup; a bring-up that ends
    early ends [main], in the state the process started in. *)
Lemma main_unfold (W : world) (budget : nat) :
  ∃ o setup,
    bring_up W (initial_state W) = Run o (initial_state W) setup ∧
    Forall (λ e, window_call W e ∨ context_call W e ∨ frame_call W e) setup ∧
    match o with
    | Ret _ =>
        let l := render_loop W budget (w_glfwCreateWindow W) (the_resources W)
                   initial_uniform_buffer_data (initial_state W) in
        run_main W budget =
          match outcome_of l with
          | Ret _ => Run (Ret EXIT_SUCCESS) (state_of l)
                       (setup ++ calls_of l ++ shutdown_calls W)
          | Fatal f => Run (Fatal f) (state_of l) (setup ++ calls_of l)
          | Undefined => Run Undefined (state_of l) (setup ++ calls_of l)
          | Unfinished => Run Unfinished (state_of l) (setup ++ calls_of l)
          end
    | Fatal f => run_main W budget = Run (Fatal f) (initial_state W) setup
    | Undefined => run_main W budget = Run Undefined (initial_state W) setup
    | Unfinished => False
    end.
Proof.
  unfold run_main, main. cbv [mbind mret M_MBind M_MRet M_bind M_ret].
  destruct (bring_up_run W (initial_state W))
    as (o & context & frame & -> & Hcontext & Hframe & Ho).
  pose proof (task_1_1_calls W (initial_state W)) as Hwindow.
  eexists o, _. split; [done|]. split.
  { repeat apply Forall_app_2; (eapply Forall_impl; [eassumption|]); cbn; auto. }
  destruct o as [[[window vk_device] r]|f| |]; try done.
  destruct Ho as (-> & -> & -> & _). cbv zeta.
  destruct (render_loop W budget (w_glfwCreateWindow W) (the_resources W)
              initial_uniform_buffer_data (initial_state W)) as [o s' loop].
  cbn [outcome_of state_of calls_of].
  by destruct o as [u|f| |].
Qed.

Lemma setup_presents (W : world) (setup : list event) :
  Forall (λ e, window_call W e ∨ context_call W e ∨ frame_call W e) setup →
  number_of is_present setup = 0%nat.
Proof.
  intros H. unfold number_of. induction H as [|e l He Hl IH]; [done|].
  cbn. assert (is_present e = false) as -> by (destruct He as [He|[He|He]]; by destruct He).
  done.
Qed.

(** X7.  How many frames [main] draws.  When the bring-up returns, the
    window is not to close from the start, the first [k] polls bring no
    close request and the next one does, [main] followed for more than [k]
    iterations returns EXIT_SUCCESS after exactly [k + 1] polls and [k + 1]
    presented frames; followed for fewer, it has presented one frame per
    iteration and is still in the loop. *)
Theorem main_frames_until_close (W : world) (budget k : nat)
    (x : handle * handle * frame_resources) :
  outcome_of (bring_up W (initial_state W)) = Ret x →
  w_initially_closing W = false →
  (∀ j, (j < k)%nat → existsb requests_close (w_poll_events W j) = false) →
  existsb requests_close (w_poll_events W k) = true →
  let r := run_main W budget in
  ((k < budget)%nat →
     outcome_of r = Ret EXIT_SUCCESS ∧
     polls (state_of r) = S k ∧
     number_of is_present (calls_of r) = S k) ∧
  ((budget ≤ k)%nat →
     outcome_of r = Unfinished ∧
     number_of is_present (calls_of r) = budget).
Proof.
  intros Hup Hopen Hnone Hclose r. subst r.
  destruct (main_unfold W budget) as (o & setup & Hbring & Hsetup & Hmain).
  rewrite Hbring in Hup. cbn [outcome_of] in Hup. subst o. cbv zeta in Hmain.
  destruct (render_loop_count W budget k (w_glfwCreateWindow W) (the_resources W)
              initial_uniform_buffer_data (initial_state W) Hopen Hnone Hclose)
    as [Hret Hrun].
  apply setup_presents in Hsetup.
  split; intros Hk.
  - destruct (Hret Hk) as (Ho & Hp & _ & Hn). rewrite Hmain, Ho.
    cbn [outcome_of state_of calls_of]. rewrite !number_of_app, Hsetup, Hn, Hp.
    cbn. split; [done|]. split; lia.
  - destruct (Hrun Hk) as (Ho & Hn). rewrite Hmain, Ho.
    cbn [outcome_of state_of calls_of]. by rewrite !number_of_app, Hsetup, Hn.
Qed.

Lemma main_frames_until_close_witness :
  outcome_of (run_main sample_world 5) = Ret EXIT_SUCCESS ∧
  polls (state_of (run_main sample_world 5)) = 2%nat ∧
  number_of is_present (calls_of (run_main sample_world 5)) = 2%nat.
Proof.
  assert (Hup : outcome_of (bring_up sample_world (initial_state sample_world))
                = Ret (100, 104, the_resources sample_world))
    by (vm_compute; reflexivity).
  assert (Hnone : ∀ j, (j < 1)%nat →
            existsb requests_close (w_poll_events sample_world j) = false).
  { intros j Hj. assert (j = 0%nat) as -> by lia. reflexivity. }
  exact (proj1 (main_frames_until_close sample_world 5 1 _ Hup eq_refl Hnone eq_refl)
           ltac:(lia)).
Defined.

(** X8.  The loop tests before it runs.  When the bring-up returns and the
    window is to close from the start, [main] returns EXIT_SUCCESS however
    long it is followed: after the bring-up it asks once whether the window
    should close, then waits for the device and cleans up; it polls no
    event and presents no frame. *)
Theorem main_closing_at_start (W : world) (budget : nat)
    (x : handle * handle * frame_resources) :
  outcome_of (bring_up W (initial_state W)) = Ret x →
  w_initially_closing W = true →
  run_main W budget =
    Run (Ret EXIT_SUCCESS) (initial_state W)
      (calls_of (bring_up W (initial_state W))
       ++ [E_glfwWindowShouldClose (w_glfwCreateWindow W)]
       ++ shutdown_calls W) ∧
  number_of is_present (calls_of (run_main W budget)) = 0%nat ∧
  E_glfwPollEvents ∉ calls_of (run_main W budget).
Proof.
  intros Hup Hclosing.
  destruct (main_unfold W budget) as (o & setup & Hbring & Hsetup & Hmain).
  rewrite Hbring in Hup |- *. cbn [outcome_of calls_of] in Hup |- *. subst o.
  cbv zeta in Hmain.
  rewrite (render_loop_closing W budget _ _ _ (initial_state W) Hclosing) in Hmain.
  cbn [outcome_of state_of calls_of] in Hmain. rewrite Hmain.
  split; [done|]. cbn [calls_of]. split.
  - rewrite !number_of_app, (setup_presents W setup Hsetup). done.
  - rewrite !elem_of_app. intros [Hin|[Hin|Hin]].
    + rewrite Forall_forall in Hsetup.
      destruct (Hsetup _ Hin) as [He|[He|He]]; inversion He.
    + apply elem_of_cons in Hin as [Hin|Hin]; [discriminate Hin|].
      by apply elem_of_nil in Hin.
    + by not_among Hin.
Qed.

Lemma main_closing_at_start_witness :
  w_initially_closing closing_world = true ∧
  outcome_of (run_main closing_world 0) = Ret EXIT_SUCCESS ∧
  number_of is_present (calls_of (run_main closing_world 0)) = 0%nat.
Proof.
  assert (Hup : outcome_of (bring_up closing_world (initial_state closing_world))
                = Ret (100, 104, the_resources closing_world))
    by (vm_compute; reflexivity).
  destruct (main_closing_at_start closing_world 0 _ Hup eq_refl) as (Hrun & Hn & _).
  split; [reflexivity|]. split; [by rewrite Hrun|exact Hn].
Defined.

(** X9.  An error exit skips the cleanup.  A run of [main] that ends with an
    error or in undefined behaviour at a vector subscript ended during the
    bring-up: no
    event was polled, the loop was never asked whether to go on, nothing was
    recorded or presented, the device was not waited for, and nothing that
    had been created was released, the window and GLFW included. *)
Theorem failed_run_skips_cleanup (W : world) (budget : nat) :
  (∀ code, outcome_of (run_main W budget) ≠ Ret code) →
  outcome_of (run_main W budget) ≠ Unfinished →
  run_main W budget
    = Run (outcome_of (run_main W budget)) (initial_state W)
        (calls_of (bring_up W (initial_state W))) ∧
  Forall (λ e, releases e = false ∧ is_idle_wait e = false ∧
               records_or_presents e = false ∧ is_loop_top e = false ∧
               e ≠ E_glfwPollEvents)
    (calls_of (run_main W budget)).
Proof.
  intros Hret Hrun.
  destruct (main_unfold W budget) as (o & setup & Hbring & Hsetup & Hmain).
  assert (Hcalls : Forall (λ e, releases e = false ∧ is_idle_wait e = false ∧
                                records_or_presents e = false ∧
                                is_loop_top e = false ∧ e ≠ E_glfwPollEvents) setup).
  { eapply Forall_impl; [exact Hsetup|]. intros e [He|[He|He]]; by destruct He. }
  rewrite Hbring. cbn [calls_of].
  destruct o as [y|f| |]; [|by rewrite Hmain..|done].
  exfalso. cbv zeta in Hmain.
  destruct (render_loop_run W budget initial_uniform_buffer_data (initial_state W)
              eq_refl) as (o & s' & loop & Hloop & _ & Ho).
  rewrite Hloop in Hmain. cbn [outcome_of state_of calls_of] in Hmain.
  destruct o as [u|f| |]; try done.
  - apply (Hret EXIT_SUCCESS). by rewrite Hmain.
  - apply Hrun. by rewrite Hmain.
Qed.

Lemma failed_run_skips_cleanup_witness :
  outcome_of (run_main mismatch_world 2) = Fatal (ErrorMessage "image count mismatch") ∧
  Forall (λ e, releases e = false ∧ is_idle_wait e = false ∧
               records_or_presents e = false ∧ is_loop_top e = false ∧
               e ≠ E_glfwPollEvents)
    (calls_of (run_main mismatch_world 2)).
Proof.
  assert (Ho : outcome_of (run_main mismatch_world 2)
               = Fatal (ErrorMessage "image count mismatch"))
    by (vm_compute; reflexivity).
  split; [exact Ho|].
  refine (proj2 (failed_run_skips_cleanup mismatch_world 2 _ _));
    rewrite Ho; [intros code|]; discriminate.
Defined.

(** ** Descriptor set allocation *)

(** X10.  The result of the descriptor set allocation is stored and never
    looked at.  Once the pool and the layout checks pass,
    [create_frame_resources] returns whatever the allocation answered: no
    error exit is taken, the descriptor update is made with the handle the
    allocation left, null or not, and that handle is the descriptor set the
    loop will draw with. *)
Theorem descriptor_set_allocation_unchecked
    (W : world) (window vk_device : handle) (u : UniformBufferData) (s : state) :
  w_check_passes W (w_vkCreateDescriptorPool W).1 = true →
  w_check_passes W (w_vkCreateDescriptorSetLayout W).1 = true →
  let r := create_frame_resources W window vk_device u s in
  let descriptor_set := (w_vkAllocateDescriptorSets W).2 in
  outcome_of r
    = Ret {| vk_pipeline := w_vklCreateGraphicsPipeline W;
             vk_uniform_buffer := w_vklCreateHostCoherentBuffer W;
             vk_descriptor_set := descriptor_set;
             camera := w_vklCreateCamera W |} ∧
  E_vkUpdateDescriptorSets vk_device
    [write_descriptor_set descriptor_set (w_vklCreateHostCoherentBuffer W)]
    ∈ calls_of r ∧
  (∀ f, E_EXIT_WITH_ERROR f ∉ calls_of r).
Proof.
  intros Hpool Hlayout r descriptor_set. subst r descriptor_set.
  unfold create_frame_resources, VKL_CHECK_VULKAN_RESULT. run_monad.
  destruct (w_vkCreateDescriptorPool W) as [result pool].
  destruct (w_vkCreateDescriptorSetLayout W) as [result' layout].
  destruct (w_vkAllocateDescriptorSets W) as [result'' set].
  cbn in Hpool, Hlayout. rewrite Hpool. cbn. rewrite Hlayout. cbn.
  split; [done|]. split.
  - do 6 apply list_elem_of_further. apply list_elem_of_here.
  - intros f Hin.
    repeat (apply elem_of_cons in Hin as [Hin|Hin]; [discriminate Hin|]).
    by apply elem_of_nil in Hin.
Qed.

Lemma descriptor_set_allocation_unchecked_witness :
  w_check_passes no_descriptor_set_world
    (w_vkAllocateDescriptorSets no_descriptor_set_world).1 = false ∧
  outcome_of (create_frame_resources no_descriptor_set_world 100 104
                initial_uniform_buffer_data (initial_state no_descriptor_set_world))
    = Ret {| vk_pipeline := 109; vk_uniform_buffer := 110;
             vk_descriptor_set := VK_NULL_HANDLE; camera := 114 |} ∧
  outcome_of (run_main no_descriptor_set_world 2) = Ret EXIT_SUCCESS.
Proof.
  split; [reflexivity|]. split; [|vm_compute; reflexivity].
  exact (proj1 (descriptor_set_allocation_unchecked no_descriptor_set_world 100 104
                  initial_uniform_buffer_data (initial_state no_descriptor_set_world)
                  eq_refl eq_refl)).
Defined.

(** ** The physical device *)

(** X11.  Which physical device [task_1_4] ends up with, when both
    enumerations pass their check and the helper answers with an index that
    is not negative.  The vector holds as many slots as the first
    enumeration counted, null where the second wrote nothing.  An index
    beyond the count is an access outside the vector.  An index within the
    count that the driver did not write finds a null handle and ends the
    process.  The task returns exactly when the index is within the count
    and the driver wrote a non-null handle there, and it returns that
    handle. *)
Theorem task_1_4_selection (W : world) (vk_instance vk_surface : handle) (s : state) :
  let count := (w_vkEnumeratePhysicalDevices_count W).2 in
  let written := (w_vkEnumeratePhysicalDevices W).2 in
  let phys_devices := resize (Z.to_nat count) VK_NULL_HANDLE written in
  let idx := w_hlpSelectPhysicalDeviceIndex W phys_devices vk_surface in
  let o := outcome_of (task_1_4 W vk_instance vk_surface s) in
  w_check_passes W (w_vkEnumeratePhysicalDevices_count W).1 = true →
  w_check_passes W (w_vkEnumeratePhysicalDevices W).1 = true →
  0 ≤ idx →
  (count ≤ idx → o = Undefined) ∧
  (idx < count → Z.of_nat (length written) ≤ idx →
     o = Fatal (ErrorMessage "No VkPhysicalDevice selected or handle not assigned.")) ∧
  (∀ d, o = Ret d ↔
        idx < count ∧ written !! Z.to_nat idx = Some d ∧ d ≠ VK_NULL_HANDLE).
Proof.
  intros count written phys_devices idx o Hpass Hpass' Hidx.
  assert (Ho : o = match phys_devices !! Z.to_nat idx with
                   | None => Undefined
                   | Some d =>
                       if d =? 0
                       then Fatal (ErrorMessage
                              "No VkPhysicalDevice selected or handle not assigned.")
                       else Ret d
                   end).
  { subst o idx phys_devices count written.
    unfold task_1_4, VKL_CHECK_VULKAN_RESULT. run_monad.
    destruct (w_vkEnumeratePhysicalDevices_count W) as [result num].
    destruct (w_vkEnumeratePhysicalDevices W) as [result' written].
    cbn in Hpass, Hpass' |- *. rewrite Hpass. cbn.
    destruct (Z.to_nat num) as [|k]; cbn; [by rewrite resize_0|].
    rewrite Hpass'. cbn.
    match goal with |- context [?l !! ?i] => destruct (l !! i) as [d|] end; [|done].
    cbn. by destruct (d =? 0). }
  rewrite Ho. clear Ho o. clearbody idx. subst phys_devices. clearbody count written.
  unfold handle in *.
  unfold VK_NULL_HANDLE in *.
  split; [|split].
  - intros Hout. rewrite lookup_resize_old; [done|lia].
  - intros Hin Hnew. rewrite lookup_resize_new; [done|lia|lia].
  - intros d. split.
    + destruct (resize (Z.to_nat count) 0 written !! Z.to_nat idx) as [d'|] eqn:Hd;
        [|done].
      destruct (d' =? 0) eqn:Hz; [done|]. intros [= ->].
      apply Z.eqb_neq in Hz.
      assert (Hlt : (Z.to_nat idx < Z.to_nat count)%nat).
      { apply lookup_lt_Some in Hd. by rewrite length_resize in Hd. }
      split; [lia|]. split; [|done].
      destruct (decide (Z.to_nat idx < length written)%nat) as [Hw|Hw].
      * by rewrite lookup_resize in Hd.
      * rewrite lookup_resize_new in Hd by lia. injection Hd as <-. done.
    + intros (Hlt & Hd & Hnz).
      assert (Hw : (Z.to_nat idx < length written)%nat) by (by eapply lookup_lt_Some).
      rewrite lookup_resize by lia. rewrite Hd.
      apply Z.eqb_neq in Hnz. by rewrite Hnz.
Qed.

Lemma task_1_4_selection_witness :
  outcome_of (task_1_4 no_device_world 101 102 (initial_state no_device_world))
    = Undefined ∧
  outcome_of (task_1_4 sample_world 101 102 (initial_state sample_world)) = Ret 103.
Proof.
  split.
  - apply (task_1_4_selection no_device_world 101 102 (initial_state no_device_world)
             eq_refl eq_refl); vm_compute; discriminate.
  - apply (task_1_4_selection sample_world 101 102 (initial_state sample_world)
             eq_refl eq_refl ltac:(vm_compute; discriminate)).
    split; [reflexivity|]. split; [reflexivity|discriminate].
Defined.

(** ** The instance *)

Lemma first_unsupported (supported : string → bool) (exts : list string) :
  forallb supported exts = false →
  ∃ pre ext post, exts = pre ++ ext :: post ∧
                  forallb supported pre = true ∧ supported ext = false.
Proof.
  induction exts as [|e exts IH]; [done|]. cbn.
  destruct (supported e) eqn:He; cbn.
  - intros Hrest. destruct (IH Hrest) as (pre & ext & post & -> & Hpre & Hext).
    exists (e :: pre), ext, post. cbn. by rewrite He, Hpre.
  - intros _. by exists [], e, exts.
Qed.

Lemma extension_checks_no_instance (exts : list string) (info : VkInstanceCreateInfo) :
  E_vkCreateInstance info ∉ extension_checks exts.
Proof.
  unfold extension_checks. intros Hin. apply list_elem_of_In, in_flat_map in Hin.
  destruct Hin as (ext & _ & Hin). cbn in Hin.
  destruct Hin as [Hin|[Hin|[]]]; discriminate Hin.
Qed.

Ltac find_instance Hin :=
  repeat first
    [ by apply elem_of_nil in Hin
    | apply elem_of_cons in Hin as [Hin|Hin];
      [first [discriminate Hin | injection Hin as ->]|]
    | apply elem_of_app in Hin as [Hin|Hin];
      [rewrite ?app_nil_r in Hin; by apply extension_checks_no_instance in Hin|] ].

(** X12.  When the instance is created.  [task_1_2] calls [vkCreateInstance]
    only when every required extension and the validation layer are
    supported and at least one extension is required, and then with the
    merged extension list, the one validation layer and the application
    info of the program.  When no extension is required the task takes the
    address of the first element of an empty vector, which is undefined
    behaviour, and the instance is not created.  The task returns exactly
    when, besides, the result passes the check and the handle is not null,
    and it returns that handle. *)
Theorem task_1_2_instance (W : world) (s : state) :
  let exts := w_glfwGetRequiredInstanceExtensions W
              ++ w_vklGetRequiredInstanceExtensions W in
  let r := task_1_2 W s in
  let prepared :=
    forallb (w_hlpIsInstanceExtensionSupported W) exts = true ∧
    w_hlpIsInstanceLayerSupported W validation_layer = true ∧
    exts ≠ [] in
  (∀ info, E_vkCreateInstance info ∈ calls_of r →
     prepared ∧
     info = {| inst_sType := VK_STRUCTURE_TYPE_INSTANCE_CREATE_INFO;
               pApplicationInfo := application_info;
               ppEnabledLayerNames := [validation_layer];
               inst_ppEnabledExtensionNames := exts |}) ∧
  (prepared → ∃ info, E_vkCreateInstance info ∈ calls_of r) ∧
  (exts = [] → w_hlpIsInstanceLayerSupported W validation_layer = true →
     outcome_of r = Undefined) ∧
  (∀ h, outcome_of r = Ret h ↔
        prepared ∧ w_check_passes W (w_vkCreateInstance W).1 = true ∧
        h = (w_vkCreateInstance W).2 ∧ h ≠ VK_NULL_HANDLE).
Proof.
  intros exts r prepared. subst r prepared.
  unfold task_1_2, getRequiredInstanceExtensions, VKL_CHECK_VULKAN_RESULT. run_monad.
  fold exts. clearbody exts.
  destruct (forallb (w_hlpIsInstanceExtensionSupported W) exts) eqn:Hall.
  2: { destruct (first_unsupported _ _ Hall) as (pre & ext & post & Hexts & Hpre & Hext).
       subst exts.
       rewrite (check_extensions_unsupported W pre post ext s Hpre Hext).
       cbn. split; [|split; [|split]].
       - intros info Hin. exfalso. find_instance Hin.
       - by intros [? _].
       - intros He. by destruct pre.
       - intros h. split; [done|]. by intros [[? _] _]. }
  rewrite (check_extensions_supported W exts s Hall). cbn.
  destruct (w_hlpIsInstanceLayerSupported W validation_layer) eqn:Hlayer; cbn.
  2: { split; [|split; [|split]].
       - intros info Hin. exfalso. find_instance Hin.
       - by intros (_ & ? & _).
       - done.
       - intros h. split; [done|]. by intros [(_ & ? & _) _]. }
  destruct (exts !! 0%nat) as [first|] eqn:Hfirst; cbn.
  2: { assert (exts = []) as -> by (by destruct exts).
       split; [|split; [|split]].
       - intros info Hin. exfalso.
         repeat (apply elem_of_cons in Hin as [Hin|Hin]; [discriminate Hin|]).
         by apply elem_of_nil in Hin.
       - by intros (_ & _ & ?).
       - done.
       - intros h. split; [done|]. by intros [(_ & _ & ?) _]. }
  assert (Hsome : exts ≠ []) by (by intros ->).
  destruct (w_vkCreateInstance W) as [result vk_instance]. cbn [fst snd].
  destruct (w_check_passes W result) eqn:Hpass; cbn;
    [destruct (vk_instance =? 0) eqn:Hz; cbn|].
  all: split; [intros info Hin; split; [done|]; by find_instance Hin|].
  all: split; [intros _; eexists; rewrite !elem_of_cons, elem_of_app, !elem_of_cons;
               right; right; right; right; right; by left|].
  all: split; [by intros ->|].
  - intros h. split; [done|]. intros (_ & _ & -> & Hnz).
    apply Z.eqb_eq in Hz. done.
  - intros h. split.
    + intros [= <-]. apply Z.eqb_neq in Hz. done.
    + by intros (_ & _ & -> & _).
  - intros h. split; [done|]. by intros (_ & ? & _).
Qed.

Lemma task_1_2_instance_witness :
  outcome_of (task_1_2 no_extension_world (initial_state no_extension_world))
    = Undefined ∧
  outcome_of (run_main no_extension_world 2) = Undefined ∧
  outcome_of (task_1_2 sample_world (initial_state sample_world)) = Ret 101.
Proof.
  split; [|split; [vm_compute; reflexivity|]].
  - exact (proj1 (proj2 (proj2
             (task_1_2_instance no_extension_world (initial_state no_extension_world))))
             eq_refl eq_refl).
  - apply (proj2 (proj2 (proj2
             (task_1_2_instance sample_world (initial_state sample_world))))).
    split; [|split; [reflexivity|split; [reflexivity|discriminate]]].
    split; [reflexivity|]. split; [reflexivity|discriminate].
Defined.

(** ** Checked handles *)

Lemma live_true (h : handle) : (h =? 0) = false → live h = true.
Proof. unfold live. by intros ->. Qed.

Lemma live_false (h : handle) : live h = true → (h =? 0) = false.
Proof. unfold live. by destruct (h =? 0). Qed.

Ltac live_calls :=
  repeat first
    [ apply Forall_nil_2
    | apply Forall_cons_2
    | apply Forall_app_2
    | apply Forall_replicate
    | assumption
    | by (cbn [takes_live_handles sc_surface swapchain_create_info swapchainHandle];
          unfold live;
          repeat match goal with H : (_ =? 0) = false |- _ => rewrite H end) ].

Ltac live_end :=
  eexists _, _; (split; [done|]);
  (split; [live_calls|first [done | by repeat split; try apply live_true]]).

Lemma check_extensions_live (W : world) (exts : list string) (s : state) :
  ∃ o calls, check_extensions W exts s = Run o s calls ∧
             Forall (λ e, takes_live_handles e = true) calls.
Proof.
  induction exts as [|ext exts IH]; cbn [check_extensions]; run_monad.
  - by eexists _, _.
  - destruct (w_hlpIsInstanceExtensionSupported W ext); cbn.
    + destruct IH as (o & calls & -> & Hq).
      eexists _, _. split; [done|]. live_calls.
    + eexists _, _. split; [done|]. live_calls.
Qed.

Lemma task_1_1_live (W : world) (s : state) :
  ∃ o calls, task_1_1 W s = Run o s calls ∧
             Forall (λ e, takes_live_handles e = true) calls ∧
             match o with
             | Ret window => window = w_glfwCreateWindow W ∧ live window = true
             | _ => True
             end.
Proof.
  rewrite task_1_1_run.
  destruct (w_glfwInit W); [|live_end].
  destruct (w_glfwCreateWindow W =? 0) eqn:Hz; [live_end|].
  unfold window_calls. live_end.
Qed.

Lemma task_1_2_live (W : world) (s : state) :
  ∃ o calls, task_1_2 W s = Run o s calls ∧
             Forall (λ e, takes_live_handles e = true) calls ∧
             match o with Ret vk_instance => live vk_instance = true | _ => True end.
Proof.
  unfold task_1_2, getRequiredInstanceExtensions, VKL_CHECK_VULKAN_RESULT. run_monad.
  destruct (check_extensions_live W
    (w_glfwGetRequiredInstanceExtensions W ++ w_vklGetRequiredInstanceExtensions W) s)
    as (o & calls & -> & Hcalls).
  destruct o as [[]|f| |]; [|live_end..].
  cbn. destruct (w_hlpIsInstanceLayerSupported W validation_layer); cbn; [|live_end].
  destruct ((w_glfwGetRequiredInstanceExtensions W
             ++ w_vklGetRequiredInstanceExtensions W) !! 0%nat); cbn; [|live_end].
  destruct (w_vkCreateInstance W) as [result vk_instance].
  destruct (w_check_passes W result); cbn; [|live_end].
  destruct (vk_instance =? 0) eqn:Hz; cbn; live_end.
Qed.

Lemma task_1_3_live (W : world) (window vk_instance : handle) (s : state) :
  live window = true → live vk_instance = true →
  ∃ o calls, task_1_3 W window vk_instance s = Run o s calls ∧
             Forall (λ e, takes_live_handles e = true) calls ∧
             match o with Ret vk_surface => live vk_surface = true | _ => True end.
Proof.
  intros Hw%live_false Hi%live_false.
  unfold task_1_3, VKL_CHECK_VULKAN_RESULT. run_monad.
  destruct (w_glfwCreateWindowSurface W) as [result vk_surface].
  destruct (w_check_passes W result); cbn; [|live_end].
  destruct (vk_surface =? 0) eqn:Hz; cbn; live_end.
Qed.

Lemma task_1_4_live (W : world) (vk_instance vk_surface : handle) (s : state) :
  live vk_instance = true → live vk_surface = true →
  ∃ o calls, task_1_4 W vk_instance vk_surface s = Run o s calls ∧
             Forall (λ e, takes_live_handles e = true) calls ∧
             match o with
             | Ret vk_physical_device => live vk_physical_device = true
             | _ => True
             end.
Proof.
  intros Hi%live_false Hs%live_false.
  unfold task_1_4, VKL_CHECK_VULKAN_RESULT. run_monad.
  destruct (w_vkEnumeratePhysicalDevices_count W) as [result num_physical_devices].
  destruct (w_check_passes W result); cbn; [|live_end].
  destruct (replicate (Z.to_nat num_physical_devices) VK_NULL_HANDLE !! 0%nat); cbn;
    [|live_end].
  destruct (w_vkEnumeratePhysicalDevices W) as [result' written].
  destruct (w_check_passes W result'); cbn; [|live_end].
  match goal with |- context [?l !! ?i] => destruct (l !! i) as [vk_physical_device|] end;
    cbn; [|live_end].
  destruct (vk_physical_device =? 0) eqn:Hz; cbn; live_end.
Qed.

Lemma selectQueueFamilyIndex_loop_live (W : world) (physical_device surface : handle)
    (families : list VkQueueFamilyProperties) (remaining : nat) (index : Z)
    (s : state) :
  live physical_device = true → live surface = true →
  ∃ o calls,
    selectQueueFamilyIndex_loop W physical_device surface families remaining index s
      = Run o s calls ∧
    Forall (λ e, takes_live_handles e = true) calls.
Proof.
  intros Hp%live_false Hs%live_false.
  revert index. induction remaining as [|remaining IH]; intros index;
    cbn [selectQueueFamilyIndex_loop]; run_monad.
  - by eexists _, _.
  - destruct (IH (u32 (index + 1))) as (o & calls & Heq & Hq).
    destruct (families !! Z.to_nat index) as [family|]; [|by eexists _, _].
    destruct (negb (Z.land (queueFlags family) VK_QUEUE_GRAPHICS_BIT =? 0)).
    + destruct (VK_TRUE =? w_surface_support W physical_device index surface).
      * eexists _, _. split; [done|]. live_calls.
      * rewrite Heq. eexists _, _. split; [done|]. live_calls.
    + rewrite Heq. by eexists _, _.
Qed.

Lemma task_1_5_live (W : world) (vk_physical_device vk_surface : handle) (s : state) :
  live vk_physical_device = true → live vk_surface = true →
  ∃ o calls, task_1_5 W vk_physical_device vk_surface s = Run o s calls ∧
             Forall (λ e, takes_live_handles e = true) calls.
Proof.
  intros Hp Hs. unfold task_1_5, sanity_check, selectQueueFamilyIndex. run_monad.
  destruct (selectQueueFamilyIndex_loop_live W vk_physical_device vk_surface
              (w_queue_families W vk_physical_device)
              (Z.to_nat (Z.of_nat (length (w_queue_families W vk_physical_device))))
              0 s Hp Hs) as (o & calls & -> & Hq).
  apply live_false in Hp, Hs.
  destruct o as [[i|]|f| |]; cbn;
    try (eexists _, _; split; [done|]; live_calls).
  destruct (i >=? Z.of_nat (length (w_queue_families W vk_physical_device)));
    cbn; eexists _, _; (split; [done|]); live_calls.
Qed.

Lemma task_1_6_live (W : world) (vk_physical_device : handle) (i : Z) (s : state) :
  live vk_physical_device = true →
  ∃ o calls, task_1_6 W vk_physical_device i s = Run o s calls ∧
             Forall (λ e, takes_live_handles e = true) calls ∧
             match o with
             | Ret (vk_device, vk_queue) =>
                 vk_device = the_device W ∧ live vk_device = true ∧
                 live vk_queue = true
             | _ => True
             end.
Proof.
  intros Hp%live_false. unfold task_1_6, VKL_CHECK_VULKAN_RESULT, the_device. run_monad.
  destruct (w_vkCreateDevice W) as [result vk_device].
  destruct (w_check_passes W result); cbn; [|live_end].
  destruct (vk_device =? 0) eqn:Hd; cbn; [live_end|].
  destruct (w_vkGetDeviceQueue W =? 0) eqn:Hq; cbn; live_end.
Qed.

Lemma task_1_7_live (W : world) (vk_physical_device vk_surface vk_device : handle)
    (i : Z) (s : state) :
  live vk_physical_device = true → live vk_surface = true → live vk_device = true →
  ∃ o calls,
    task_1_7 W vk_physical_device vk_surface vk_device i s = Run o s calls ∧
    Forall (λ e, takes_live_handles e = true) calls ∧
    match o with
    | Ret (_, vk_swapchain, _) => live vk_swapchain = true
    | _ => True
    end.
Proof.
  intros Hp%live_false Hs%live_false Hd%live_false.
  unfold task_1_7, hlpGetSurfaceImageFormat, VKL_CHECK_VULKAN_RESULT. run_monad.
  destruct (w_vkCreateSwapchainKHR W) as [result vk_swapchain].
  destruct (w_check_passes W result); cbn; [|live_end].
  destruct (vk_swapchain =? 0) eqn:Hz; cbn; [live_end|].
  destruct (replicate (Z.to_nat (minImageCount (w_surface_capabilities W)))
              VK_NULL_HANDLE !! 0%nat); cbn; [|live_end].
  destruct (w_vkGetSwapchainImagesKHR W) as [[result' image_count] written].
  destruct (w_check_passes W result'); cbn; [|live_end].
  match goal with |- context [is_empty ?l] => destruct (is_empty l) end; cbn;
    [live_end|].
  destruct (image_count =? minImageCount (w_surface_capabilities W)); cbn; live_end.
Qed.

Lemma task_1_8_live (W : world)
    (vk_instance vk_surface vk_physical_device vk_device vk_queue : handle)
    (info : VkSwapchainCreateInfoKHR) (vk_swapchain : handle)
    (swap_chain_images : list handle) (s : state) :
  live vk_instance = true → live vk_surface = true →
  live vk_physical_device = true → live vk_device = true →
  live vk_queue = true → live vk_swapchain = true →
  ∃ o calls,
    task_1_8 W vk_instance vk_surface vk_physical_device vk_device vk_queue
      info vk_swapchain swap_chain_images s = Run o s calls ∧
    Forall (λ e, takes_live_handles e = true) calls.
Proof.
  intros Hi%live_false Hs%live_false Hp%live_false Hd%live_false Hq%live_false
    Hc%live_false.
  unfold task_1_8. run_monad. rewrite swapchain_framebuffers_run. cbn.
  destruct (w_vklInitFramework W); cbn; eexists _, _; (split; [done|]); live_calls.
Qed.

Lemma create_frame_resources_live (W : world) (window vk_device : handle)
    (u : UniformBufferData) (s : state) :
  live window = true → live vk_device = true →
  ∃ o calls,
    create_frame_resources W window vk_device u s = Run o s calls ∧
    Forall (λ e, takes_live_handles e = true) calls.
Proof.
  intros Hw%live_false Hd%live_false.
  unfold create_frame_resources, VKL_CHECK_VULKAN_RESULT. run_monad.
  destruct (w_vkCreateDescriptorPool W) as [result vk_descriptor_pool].
  destruct (w_check_passes W result); cbn;
    [|eexists _, _; (split; [done|]); live_calls].
  destruct (w_vkCreateDescriptorSetLayout W) as [result' vk_descriptor_set_layout].
  destruct (w_check_passes W result'); cbn;
    [|eexists _, _; (split; [done|]); live_calls].
  destruct (w_vkAllocateDescriptorSets W) as [result'' descriptor_set]. cbn.
  eexists _, _. split; [done|]. live_calls.
Qed.

Lemma bring_up_live (W : world) (s : state) :
  ∃ o calls,
    bring_up W s = Run o s calls ∧
    Forall (λ e, takes_live_handles e = true) calls ∧
    match o with
    | Ret (window, vk_device, _) =>
        window = w_glfwCreateWindow W ∧ live window = true ∧
        vk_device = the_device W ∧ live vk_device = true
    | _ => True
    end.
Proof.
  unfold bring_up. cbv [mbind mret M_MBind M_MRet M_bind M_ret].
  destruct (task_1_1_live W s) as (o1 & c1 & -> & H1 & Ho1).
  destruct o1 as [window|f| |]; [|by eexists _, _..].
  destruct Ho1 as [-> Hw].
  destruct (task_1_2_live W s) as (o2 & c2 & -> & H2 & Ho2).
  destruct o2 as [vk_instance|f| |]; [|live_end..].
  destruct (task_1_3_live W (w_glfwCreateWindow W) vk_instance s Hw Ho2)
    as (o3 & c3 & -> & H3 & Ho3).
  destruct o3 as [vk_surface|f| |]; [|live_end..].
  destruct (task_1_4_live W vk_instance vk_surface s Ho2 Ho3)
    as (o4 & c4 & -> & H4 & Ho4).
  destruct o4 as [vk_physical_device|f| |]; [|live_end..].
  destruct (task_1_5_live W vk_physical_device vk_surface s Ho4 Ho3)
    as (o5 & c5 & -> & H5).
  destruct o5 as [i|f| |]; [|live_end..].
  destruct (task_1_6_live W vk_physical_device i s Ho4)
    as (o6 & c6 & -> & H6 & Ho6).
  destruct o6 as [[vk_device vk_queue]|f| |]; [|live_end..].
  destruct Ho6 as (-> & Hd & Hq).
  destruct (task_1_7_live W vk_physical_device vk_surface (the_device W) i s
              Ho4 Ho3 Hd) as (o7 & c7 & -> & H7 & Ho7).
  destruct o7 as [[[info vk_swapchain] swap_chain_images]|f| |]; [|live_end..].
  destruct (task_1_8_live W vk_instance vk_surface vk_physical_device (the_device W)
              vk_queue info vk_swapchain swap_chain_images s Ho2 Ho3 Ho4 Hd Hq Ho7)
    as (o8 & c8 & -> & H8).
  destruct o8 as [[]|f| |]; [|live_end..].
  destruct (create_frame_resources_live W (w_glfwCreateWindow W) (the_device W)
              initial_uniform_buffer_data s Hw Hd) as (o9 & c9 & -> & H9).
  destruct o9 as [r|f| |]; live_end.
Qed.

(** X13.  Every null check guards all later uses.  In no run does [main]
    pass on a null handle for the window, the instance, the surface, the
    physical device, the device, the queue or the swapchain: not to the
    calls of the bring-up, not to the loop, not to the idle wait. *)
Theorem checked_handles_are_live (W : world) (budget : nat) :
  Forall (λ e, takes_live_handles e = true) (calls_of (run_main W budget)).
Proof.
  destruct (main_unfold W budget) as (o & setup & Hbring & _ & Hmain).
  destruct (bring_up_live W (initial_state W)) as (o' & setup' & Hbring' & Hlive & Ho).
  rewrite Hbring in Hbring'. injection Hbring' as <- <-.
  destruct o as [[[window vk_device] r]|f| |]; [|by rewrite Hmain..|done].
  destruct Ho as (_ & Hw & _ & Hd). cbv zeta in Hmain.
  destruct (bring_up_run W (initial_state W)) as (o & context & frame & Hrun & _ & _ & Ho).
  rewrite Hbring in Hrun. injection Hrun as <- _.
  destruct Ho as (-> & -> & _).
  destruct (render_loop_run W budget initial_uniform_buffer_data (initial_state W)
              eq_refl) as (o & s' & loop & Hloop & Hl & _).
  rewrite Hloop in Hmain. cbn [outcome_of state_of calls_of] in Hmain.
  assert (Hloop_live : Forall (λ e, takes_live_handles e = true) loop).
  { eapply Forall_impl; [exact Hl|]. intros e He. destruct He; cbn; done. }
  apply live_false in Hw as Hw', Hd as Hd'.
  destruct o as [u|f| |]; rewrite Hmain; cbn [calls_of]; unfold shutdown_calls;
    live_calls.
Qed.

(** ** The key map over a run *)

Lemma key_after_app (k : Z) (evs1 evs2 : list input_event) (entry : option bool) :
  key_after k (evs1 ++ evs2) entry = key_after k evs2 (key_after k evs1 entry).
Proof. unfold key_after. by rewrite foldl_app. Qed.

Lemma render_frame_keys (W : world) (r : frame_resources) (u : UniformBufferData)
    (s : state) (k : Z) :
  g_isGlfwKeyDown (state_of (render_frame W r u s)) !! k
    = key_after k (w_poll_events W (polls s)) (g_isGlfwKeyDown s !! k).
Proof.
  unfold render_frame, glfwPollEvents, vklGetCameraViewProjectionMatrix. run_monad.
  pose proof (deliver_key (w_glfwCreateWindow W) (w_poll_events W (polls s))
                (count_poll s) k) as Hk.
  destruct (deliver_run (w_glfwCreateWindow W) (w_poll_events W (polls s))
              (count_poll s)) as (Ho & _).
  destruct (deliver (w_glfwCreateWindow W) (w_poll_events W (polls s)) (count_poll s))
    as [o s' calls].
  cbn [outcome_of state_of] in *. subst o. done.
Qed.

Lemma render_loop_keys (W : world) (budget : nat) (window : handle)
    (r : frame_resources) (u : UniformBufferData) (s : state) :
  ∃ n, (n ≤ budget)%nat ∧
       polls (state_of (render_loop W budget window r u s)) = (polls s + n)%nat ∧
       ∀ k, g_isGlfwKeyDown (state_of (render_loop W budget window r u s)) !! k
            = key_after k (polled W (polls s) n) (g_isGlfwKeyDown s !! k).
Proof.
  revert u s. induction budget as [|budget IH]; intros u s.
  - exists 0%nat. cbn [render_loop]. unfold glfwWindowShouldClose. run_monad.
    destruct (should_close s); cbn; (split; [done|]); (split; [lia|done]).
  - destruct (should_close s) eqn:Hs.
    + exists 0%nat. rewrite render_loop_closing by done. cbn.
      split; [lia|]. split; [lia|done].
    + rewrite render_loop_running by done. cbv zeta. cbn [state_of].
      destruct (IH {| color := color u;
                      transformation := w_camera_matrix W (S (polls s)) |}
                  (state_of (render_frame W r u s))) as (n & Hn & Hp & Hk).
      destruct (render_frame_run W r u s) as (_ & _ & Hpolls & _). cbv zeta in Hpolls.
      exists (S n). split; [lia|]. split; [lia|].
      intros k. rewrite Hk, Hpolls, render_frame_keys.
      unfold polled. cbn [seq flat_map]. by rewrite key_after_app.
Qed.

(** X14.  The key map over a whole run.  However [main] ends, the entry of
    a key in [g_isGlfwKeyDown] is decided by the last press or release of
    that key among everything polled during the run, oldest first; a key
    that was never pressed or released has no entry.  [main] itself never
    asks for a key, so nothing else writes the map. *)
Theorem key_map_after_run (W : world) (budget : nat) (k : Z) :
  let r := run_main W budget in
  g_isGlfwKeyDown (state_of r) !! k
    = key_after k (polled W 0 (polls (state_of r))) None.
Proof.
  cbv zeta.
  destruct (main_unfold W budget) as (o & setup & _ & _ & Hmain).
  destruct o as [y|f| |]; [|by rewrite Hmain..|done].
  cbv zeta in Hmain.
  destruct (render_loop_keys W budget (w_glfwCreateWindow W) (the_resources W)
              initial_uniform_buffer_data (initial_state W)) as (n & _ & Hp & Hk).
  assert (Hstate : state_of (run_main W budget)
                   = state_of (render_loop W budget (w_glfwCreateWindow W)
                                 (the_resources W) initial_uniform_buffer_data
                                 (initial_state W))).
  { rewrite Hmain. by destruct (outcome_of _). }
  rewrite Hstate, Hk, Hp. done.
Qed.

(** ** Framebuffers *)

(** X15.  What [task_1_8] hands to the framework.  The loop over the
    swapchain images asks for the surface format once per image and builds
    one composition per image, in the order of the images: the image as
    colour attachment with that format, the colour attachment usage and the
    clear colour, and no depth attachment.  The configuration passed to
    [vklInitFramework] carries these, the swapchain handle and the extent of
    the swapchain create info; the task returns exactly when the framework
    reports success. *)
Theorem task_1_8_framebuffers (W : world)
    (vk_instance vk_surface vk_physical_device vk_device vk_queue : handle)
    (info : VkSwapchainCreateInfoKHR) (vk_swapchain : handle)
    (swap_chain_images : list handle) (s : state) :
  ∃ config,
    task_1_8 W vk_instance vk_surface vk_physical_device vk_device vk_queue
      info vk_swapchain swap_chain_images s
    = Run (if w_vklInitFramework W then Ret tt
           else Fatal (ErrorMessage "Failed to init Vulkan Launchpad"))
        s
        (replicate (length swap_chain_images)
           (E_hlpGetSurfaceImageFormat vk_physical_device vk_surface)
         ++ [E_vklInitFramework vk_instance vk_surface vk_physical_device vk_device
               vk_queue config]
         ++ (if w_vklInitFramework W then [E_LOG "Task 1.8 done."]
             else [E_EXIT_WITH_ERROR
                     (ErrorMessage "Failed to init Vulkan Launchpad")])) ∧
    swapchainHandle config = vk_swapchain ∧
    cfg_imageExtent config = imageExtent info ∧
    length (swapchainImages config) = length swap_chain_images ∧
    ∀ i image, swap_chain_images !! i = Some image →
      swapchainImages config !! i
        = Some {| colorAttachmentImageDetails :=
                    {| det_imageFormat := format (w_surface_format W);
                       det_imageUsage := VK_IMAGE_USAGE_COLOR_ATTACHMENT_BIT;
                       imageHandle := image;
                       clearValue := (f_0_39, f_0_58, f_0_93, f_1) |};
                  depthAttachmentImageHandle := VK_NULL_HANDLE |}.
Proof.
  exists {| swapchainHandle := vk_swapchain;
            cfg_imageExtent := imageExtent info;
            swapchainImages :=
              map (framebuffer (format (w_surface_format W))) swap_chain_images |}.
  split.
  - unfold task_1_8. run_monad. rewrite swapchain_framebuffers_run. cbn.
    by destruct (w_vklInitFramework W).
  - cbn. split; [done|]. split; [done|]. split; [by rewrite length_map|].
    intros i image Hi. by rewrite list_lookup_fmap, Hi.
Qed.

(** ** When [main] returns *)

Ltac returns_iff :=
  cbn; split;
  [ let H := fresh in
    intros H; first [discriminate H | injection H; intros; subst; done]
  | let H := fresh in intros H; decompose [and] H; subst; done ].

Lemma task_1_1_returns (W : world) (s : state) (window : handle) :
  outcome_of (task_1_1 W s) = Ret window ↔
  w_glfwInit W = true ∧ live (w_glfwCreateWindow W) = true ∧
  window = w_glfwCreateWindow W.
Proof.
  rewrite task_1_1_run. unfold live.
  destruct (w_glfwInit W); [|cbn; returns_iff].
  destruct (w_glfwCreateWindow W =? 0); cbn; returns_iff.
Qed.

Lemma task_1_2_returns (W : world) (s : state) (vk_instance : handle) :
  outcome_of (task_1_2 W s) = Ret vk_instance ↔
  forallb (w_hlpIsInstanceExtensionSupported W)
    (w_glfwGetRequiredInstanceExtensions W ++ w_vklGetRequiredInstanceExtensions W)
    = true ∧
  w_hlpIsInstanceLayerSupported W validation_layer = true ∧
  w_glfwGetRequiredInstanceExtensions W ++ w_vklGetRequiredInstanceExtensions W ≠ [] ∧
  w_check_passes W (w_vkCreateInstance W).1 = true ∧
  live (w_vkCreateInstance W).2 = true ∧
  vk_instance = (w_vkCreateInstance W).2.
Proof.
  unfold task_1_2, getRequiredInstanceExtensions, VKL_CHECK_VULKAN_RESULT, live.
  run_monad.
  generalize (w_glfwGetRequiredInstanceExtensions W
              ++ w_vklGetRequiredInstanceExtensions W) as exts.
  intros exts.
  destruct (forallb (w_hlpIsInstanceExtensionSupported W) exts) eqn:Hall.
  2: { destruct (first_unsupported _ _ Hall) as (pre & ext & post & -> & Hpre & Hext).
       rewrite (check_extensions_unsupported W pre post ext s Hpre Hext).
       cbn. returns_iff. }
  rewrite (check_extensions_supported W _ s Hall). cbn.
  destruct (w_hlpIsInstanceLayerSupported W validation_layer); cbn; [|returns_iff].
  destruct exts as [|first rest]; cbn; [returns_iff|].
  destruct (w_vkCreateInstance W) as [result h]. cbn [fst snd].
  destruct (w_check_passes W result); cbn; [|returns_iff].
  destruct (h =? 0); cbn; returns_iff.
Qed.

Lemma task_1_3_returns (W : world) (window vk_instance : handle) (s : state)
    (vk_surface : handle) :
  outcome_of (task_1_3 W window vk_instance s) = Ret vk_surface ↔
  w_check_passes W (w_glfwCreateWindowSurface W).1 = true ∧
  live (w_glfwCreateWindowSurface W).2 = true ∧
  vk_surface = (w_glfwCreateWindowSurface W).2.
Proof.
  unfold task_1_3, VKL_CHECK_VULKAN_RESULT, live. run_monad.
  destruct (w_glfwCreateWindowSurface W) as [result h]. cbn [fst snd].
  destruct (w_check_passes W result); cbn; [|returns_iff].
  destruct (h =? 0); cbn; returns_iff.
Qed.

Lemma first_slot (n : Z) :
  replicate (Z.to_nat n) VK_NULL_HANDLE !! 0%nat
  = if 0 <? n then Some VK_NULL_HANDLE else None.
Proof.
  destruct (0 <? n) eqn:Hn.
  - apply Z.ltb_lt in Hn. destruct (Z.to_nat n) eqn:Hk; [lia|done].
  - apply Z.ltb_ge in Hn. by replace (Z.to_nat n) with 0%nat by lia.
Qed.

Lemma task_1_4_returns (W : world) (vk_instance vk_surface : handle) (s : state)
    (vk_physical_device : handle) :
  outcome_of (task_1_4 W vk_instance vk_surface s) = Ret vk_physical_device ↔
  w_check_passes W (w_vkEnumeratePhysicalDevices_count W).1 = true ∧
  0 < (w_vkEnumeratePhysicalDevices_count W).2 ∧
  w_check_passes W (w_vkEnumeratePhysicalDevices W).1 = true ∧
  phys_devices W
    !! Z.to_nat (w_hlpSelectPhysicalDeviceIndex W (phys_devices W) vk_surface)
    = Some vk_physical_device ∧
  live vk_physical_device = true.
Proof.
  unfold task_1_4, VKL_CHECK_VULKAN_RESULT, phys_devices, live. run_monad.
  destruct (w_vkEnumeratePhysicalDevices_count W) as [result num]. cbn [fst snd].
  rewrite first_slot.
  destruct (w_check_passes W result); cbn; [|returns_iff].
  destruct (0 <? num) eqn:Hpos; cbn.
  2: { apply Z.ltb_ge in Hpos. split; [done|]. intros (_ & ? & _). lia. }
  apply Z.ltb_lt in Hpos.
  destruct (w_vkEnumeratePhysicalDevices W) as [result' written]. cbn [fst snd].
  destruct (w_check_passes W result'); cbn; [|returns_iff].
  match goal with |- context [?l !! ?i] => destruct (l !! i) as [d|] end; cbn;
    [|returns_iff].
  destruct (d =? 0) eqn:Hz; cbn.
  - split; [done|]. intros (_ & _ & _ & [= <-] & Hlive). by rewrite Hz in Hlive.
  - split; [intros [= <-]; by rewrite Hz|]. by intros (_ & _ & _ & [= <-] & _).
Qed.

Lemma task_1_5_returns (W : world) (vk_physical_device vk_surface : handle)
    (s : state) (i : Z) :
  outcome_of (task_1_5 W vk_physical_device vk_surface s) = Ret i ↔
  selected W vk_physical_device vk_surface i.
Proof.
  unfold task_1_5, sanity_check, selected. run_monad.
  destruct (selectQueueFamilyIndex_run W vk_physical_device vk_surface
              (initial_state W) s) as (o & calls & -> & -> & _ & Ho).
  destruct o as [j|f| |]; cbn; [|returns_iff..].
  destruct (j >=? Z.of_nat (length (w_queue_families W vk_physical_device))) eqn:Hge;
    cbn.
  - split; [done|]. intros ([= <-] & _ & Hlt). lia.
  - split; [intros [= <-]; split; [done|lia]|]. by intros ([= <-] & _).
Qed.

Lemma task_1_6_returns (W : world) (vk_physical_device : handle) (i : Z) (s : state)
    (vk_device vk_queue : handle) :
  outcome_of (task_1_6 W vk_physical_device i s) = Ret (vk_device, vk_queue) ↔
  w_check_passes W (w_vkCreateDevice W).1 = true ∧
  live (w_vkCreateDevice W).2 = true ∧
  live (w_vkGetDeviceQueue W) = true ∧
  vk_device = (w_vkCreateDevice W).2 ∧ vk_queue = w_vkGetDeviceQueue W.
Proof.
  unfold task_1_6, VKL_CHECK_VULKAN_RESULT, live. run_monad.
  destruct (w_vkCreateDevice W) as [result h]. cbn [fst snd].
  destruct (w_check_passes W result); cbn; [|returns_iff].
  destruct (h =? 0); cbn; [returns_iff|].
  destruct (w_vkGetDeviceQueue W =? 0); cbn; returns_iff.
Qed.

Lemma task_1_7_returns (W : world) (vk_physical_device vk_surface vk_device : handle)
    (i : Z) (s : state) (x : VkSwapchainCreateInfoKHR * handle * list handle) :
  outcome_of (task_1_7 W vk_physical_device vk_surface vk_device i s) = Ret x ↔
  w_check_passes W (w_vkCreateSwapchainKHR W).1 = true ∧
  live (w_vkCreateSwapchainKHR W).2 = true ∧
  0 < minImageCount (w_surface_capabilities W) ∧
  w_check_passes W (w_vkGetSwapchainImagesKHR W).1.1 = true ∧
  retrieved_image_count W = minImageCount (w_surface_capabilities W) ∧
  x = (swapchain_create_info vk_surface (w_surface_capabilities W) i
         (format (w_surface_format W)) (colorSpace (w_surface_format W)),
       (w_vkCreateSwapchainKHR W).2,
       resize (Z.to_nat (minImageCount (w_surface_capabilities W))) VK_NULL_HANDLE
         (w_vkGetSwapchainImagesKHR W).2).
Proof.
  unfold task_1_7, hlpGetSurfaceImageFormat, VKL_CHECK_VULKAN_RESULT, live,
    retrieved_image_count.
  run_monad. rewrite first_slot.
  destruct (w_vkCreateSwapchainKHR W) as [result h]. cbn [fst snd].
  destruct (w_check_passes W result); cbn; [|returns_iff].
  destruct (h =? 0); cbn; [returns_iff|].
  destruct (0 <? minImageCount (w_surface_capabilities W)) eqn:Hpos; cbn.
  2: { apply Z.ltb_ge in Hpos. split; [done|]. intros (_ & _ & ? & _). lia. }
  apply Z.ltb_lt in Hpos.
  destruct (w_vkGetSwapchainImagesKHR W) as [[result' image_count] written].
  cbn [fst snd].
  destruct (w_check_passes W result'); cbn; [|returns_iff].
  match goal with |- context [is_empty ?l] => destruct l as [|image rest] eqn:Hl end;
    cbn.
  { apply (f_equal length) in Hl. rewrite length_resize in Hl. cbn in Hl. lia. }
  destruct (image_count =? minImageCount (w_surface_capabilities W)) eqn:Hcount; cbn.
  - apply Z.eqb_eq in Hcount. returns_iff.
  - apply Z.eqb_neq in Hcount. returns_iff.
Qed.

Ltac returns_some :=
  cbn; split;
  [ let H := fresh in intros [? H]; first [discriminate H | done]
  | let H := fresh in intros H; decompose [and] H; first [done | by eexists] ].

Lemma frame_part_returns (W : world)
    (vk_instance vk_surface vk_physical_device vk_device vk_queue : handle)
    (info : VkSwapchainCreateInfoKHR) (vk_swapchain : handle)
    (swap_chain_images : list handle) (window : handle) (s : state) :
  ∃ o calls,
    (task_1_8 W vk_instance vk_surface vk_physical_device vk_device vk_queue
       info vk_swapchain swap_chain_images;;
     create_frame_resources W window vk_device initial_uniform_buffer_data) s
      = Run o s calls ∧
    ((∃ r, o = Ret r) ↔
     w_vklInitFramework W = true ∧
     w_check_passes W (w_vkCreateDescriptorPool W).1 = true ∧
     w_check_passes W (w_vkCreateDescriptorSetLayout W).1 = true).
Proof.
  unfold task_1_8, create_frame_resources, VKL_CHECK_VULKAN_RESULT.
  run_monad. rewrite swapchain_framebuffers_run. cbn.
  destruct (w_vklInitFramework W); cbn; [|eexists _, _; split; [done|returns_some]].
  destruct (w_vkCreateDescriptorPool W) as [result vk_descriptor_pool]. cbn [fst snd].
  destruct (w_check_passes W result); cbn;
    [|eexists _, _; split; [done|returns_some]].
  destruct (w_vkCreateDescriptorSetLayout W) as [result' vk_descriptor_set_layout].
  cbn [fst snd].
  destruct (w_check_passes W result'); cbn;
    [|eexists _, _; split; [done|returns_some]].
  destruct (w_vkAllocateDescriptorSets W) as [result'' descriptor_set]. cbn.
  eexists _, _. split; [done|returns_some].
Qed.

Ltac destruct_checks Hall :=
  destruct Hall as
    (Cinit & Cwindow & Cexts & Clayer & Csome & Cinstance & Linstance & Csurface
     & Lsurface & Ccount & Cdevices & Cenumerate
     & (chosen & family & [Cchosen Cfamily] & Lchosen)
     & Cdevice & Ldevice & Lqueue & Cswapchain & Lswapchain & Cimages & Cretrieve
     & Cretrieved & Cframework & Cpool & Clayout).

Lemma bring_up_returns (W : world) (s : state) :
  (∃ x, outcome_of (bring_up W s) = Ret x) ↔ all_checks_pass W.
Proof.
  unfold bring_up, all_checks_pass. cbv [mbind mret M_MBind M_MRet M_bind M_ret].
  cbv zeta.
  pose proof (task_1_1_returns W s) as R1.
  destruct (task_1_1_live W s) as (o1 & c1 & E1 & _). rewrite E1 in R1 |- *.
  cbn [outcome_of] in R1.
  destruct o1 as [window|f| |];
    [|split; [by intros [x Hx]|intros Hall; destruct_checks Hall;
              discriminate (proj2 (R1 (w_glfwCreateWindow W))
                              ltac:(split_and!; done))]..].
  destruct (proj1 (R1 window) eq_refl) as (Hinit & Hwindow & ->). clear R1.
  pose proof (task_1_2_returns W s) as R2.
  destruct (task_1_2_live W s) as (o2 & c2 & E2 & _). rewrite E2 in R2 |- *.
  cbn [outcome_of] in R2.
  destruct o2 as [vk_instance|f| |];
    [|split; [by intros [x Hx]|intros Hall; destruct_checks Hall;
              discriminate (proj2 (R2 (w_vkCreateInstance W).2)
                              ltac:(split_and!; done))]..].
  destruct (proj1 (R2 vk_instance) eq_refl)
    as (Hexts & Hlayer & Hsome & Hpass2 & Hinst & ->).
  clear R2.
  pose proof (task_1_3_returns W (w_glfwCreateWindow W) (w_vkCreateInstance W).2 s)
    as R3.
  destruct (task_1_3_live W (w_glfwCreateWindow W) (w_vkCreateInstance W).2 s
              Hwindow Hinst) as (o3 & c3 & E3 & _).
  rewrite E3 in R3 |- *. cbn [outcome_of] in R3.
  destruct o3 as [vk_surface|f| |];
    [|split; [by intros [x Hx]|intros Hall; destruct_checks Hall;
              discriminate (proj2 (R3 (the_surface W)) ltac:(split_and!; done))]..].
  destruct (proj1 (R3 vk_surface) eq_refl) as (Hpass3 & Hsurf & ->). clear R3.
  fold (the_surface W) in *.
  pose proof (task_1_4_returns W (w_vkCreateInstance W).2 (the_surface W) s) as R4.
  destruct (task_1_4_live W (w_vkCreateInstance W).2 (the_surface W) s
              Hinst Hsurf) as (o4 & c4 & E4 & _).
  rewrite E4 in R4 |- *. cbn [outcome_of] in R4.
  destruct o4 as [vk_physical_device|f| |];
    [|split; [by intros [x Hx]|intros Hall; destruct_checks Hall;
              discriminate (proj2 (R4 chosen) ltac:(split_and!; done))]..].
  destruct (proj1 (R4 vk_physical_device) eq_refl)
    as (Hpass4 & Hcount4 & Hpass4' & Hdev & Hphys).
  clear R4.
  pose proof (task_1_5_returns W vk_physical_device (the_surface W) s) as R5.
  destruct (task_1_5_live W vk_physical_device (the_surface W) s Hphys Hsurf)
    as (o5 & c5 & E5 & _).
  rewrite E5 in R5 |- *. cbn [outcome_of] in R5.
  destruct o5 as [i|f| |];
    [|split; [by intros [x Hx]|intros Hall; destruct_checks Hall;
              rewrite Hdev in Cchosen; injection Cchosen as <-;
              discriminate (proj2 (R5 family) Cfamily)]..].
  pose proof (proj1 (R5 i) eq_refl) as Hsel. clear R5.
  pose proof (task_1_6_returns W vk_physical_device i s) as R6.
  destruct (task_1_6_live W vk_physical_device i s Hphys) as (o6 & c6 & E6 & _).
  rewrite E6 in R6 |- *. cbn [outcome_of] in R6.
  destruct o6 as [[vk_device vk_queue]|f| |];
    [|split; [by intros [x Hx]|intros Hall; destruct_checks Hall;
              discriminate (proj2 (R6 (the_device W) (w_vkGetDeviceQueue W))
                              ltac:(split_and!; done))]..].
  destruct (proj1 (R6 vk_device vk_queue) eq_refl) as (Hpass6 & Hdevice & Hqueue & -> & ->).
  clear R6. fold (the_device W) in *.
  pose proof (task_1_7_returns W vk_physical_device (the_surface W) (the_device W) i s)
    as R7.
  destruct (task_1_7_live W vk_physical_device (the_surface W) (the_device W) i s
              Hphys Hsurf Hdevice) as (o7 & c7 & E7 & _).
  rewrite E7 in R7 |- *. cbn [outcome_of] in R7.
  destruct o7 as [[[info vk_swapchain] swap_chain_images]|f| |];
    [|split; [by intros [x Hx]|intros Hall; destruct_checks Hall;
              discriminate (proj2 (R7 _) ltac:(split_and!; [done..|reflexivity]))]..].
  destruct (proj1 (R7 _) eq_refl) as (Hpass7 & Hsc & Hpos & Hpass7' & Hcount & _).
  clear R7.
  destruct (frame_part_returns W (w_vkCreateInstance W).2 (the_surface W)
              vk_physical_device (the_device W) (w_vkGetDeviceQueue W)
              info vk_swapchain swap_chain_images (w_glfwCreateWindow W) s)
    as (o8 & c8 & E8 & R8).
  cbv [mbind M_MBind M_bind] in E8.
  destruct (task_1_8 W (w_vkCreateInstance W).2 (the_surface W)
              vk_physical_device (the_device W) (w_vkGetDeviceQueue W)
              info vk_swapchain swap_chain_images s) as [[[]|f| |] s8 c8a].
  - destruct (create_frame_resources W (w_glfwCreateWindow W) (the_device W)
                initial_uniform_buffer_data s8) as [o9 s9 c9].
    injection E8 as <- -> <-.
    destruct o9 as [r|f| |]; cbn [outcome_of].
    + split; [intros _|by eexists].
      destruct (proj1 R8 ltac:(by eexists)) as (? & ? & ?).
      split_and!; try done. by exists vk_physical_device, i.
    + split; [by intros [x Hx]|]. intros Hall. destruct_checks Hall.
      destruct (proj2 R8 ltac:(split_and!; done)) as [? [=]].
    + split; [by intros [x Hx]|]. intros Hall. destruct_checks Hall.
      destruct (proj2 R8 ltac:(split_and!; done)) as [? [=]].
    + split; [by intros [x Hx]|]. intros Hall. destruct_checks Hall.
      destruct (proj2 R8 ltac:(split_and!; done)) as [? [=]].
  - injection E8 as <- -> <-. cbn [outcome_of].
    split; [by intros [x Hx]|]. intros Hall. destruct_checks Hall.
    destruct (proj2 R8 ltac:(split_and!; done)) as [? [=]].
  - injection E8 as <- -> <-. cbn [outcome_of].
    split; [by intros [x Hx]|]. intros Hall. destruct_checks Hall.
    destruct (proj2 R8 ltac:(split_and!; done)) as [? [=]].
  - injection E8 as <- -> <-. cbn [outcome_of].
    split; [by intros [x Hx]|]. intros Hall. destruct_checks Hall.
    destruct (proj2 R8 ltac:(split_and!; done)) as [? [=]].
Qed.

(** X16.  When the bring-up goes through.  [bring_up] returns exactly when
    everything [main] needs before the render loop holds: GLFW initialises,
    the window is not null, every required extension and the validation
    layer are supported, at least one extension is required, each checked
    Vulkan result passes and each checked handle is not null, at least one
    physical device is counted and the selected one is among the
    enumerated ones, a suitable queue family is found, at least one
    swapchain image is asked for and as many are reported, and the
    framework initialises.  Where one of the three vectors is empty, the
    address of its first element is taken all the same, which is undefined
    behaviour, and [bring_up] does not return.  When it returns, it returns
    the window, the device and the handles the loop works with, and leaves
    the state as it found it. *)
Theorem bring_up_succeeds_iff (W : world) (s : state) :
  ((∃ x, outcome_of (bring_up W s) = Ret x) ↔ all_checks_pass W) ∧
  (∀ x, outcome_of (bring_up W s) = Ret x →
        x = (w_glfwCreateWindow W, the_device W, the_resources W)) ∧
  state_of (bring_up W s) = s.
Proof.
  split; [apply bring_up_returns|].
  destruct (bring_up_run W s) as (o & context & frame & -> & _ & _ & Ho).
  cbn [outcome_of state_of]. split; [|done].
  intros [[window vk_device] r] ->. by destruct Ho as (-> & -> & -> & _).
Qed.

Lemma bring_up_succeeds_iff_witness :
  all_checks_pass sample_world ∧
  outcome_of (bring_up mismatch_world (initial_state mismatch_world))
    = Fatal (ErrorMessage "image count mismatch") ∧
  ¬ all_checks_pass mismatch_world ∧
  outcome_of (bring_up no_extension_world (initial_state no_extension_world))
    = Undefined ∧
  ¬ all_checks_pass no_extension_world.
Proof.
  split; [|split; [vm_compute; reflexivity|split; [|split; [vm_compute; reflexivity|]]]].
  - apply (proj1 (bring_up_succeeds_iff sample_world (initial_state sample_world))).
    eexists. vm_compute. reflexivity.
  - intros Hall.
    apply (proj1 (bring_up_succeeds_iff mismatch_world (initial_state mismatch_world)))
      in Hall as [x Hx].
    vm_compute in Hx. discriminate Hx.
  - intros Hall.
    apply (proj1 (bring_up_succeeds_iff no_extension_world
                    (initial_state no_extension_world))) in Hall as [x Hx].
    vm_compute in Hx. discriminate Hx.
Defined.

Lemma render_loop_close_seen (W : world) (budget : nat) (window : handle)
    (r : frame_resources) (u u' : UniformBufferData) (s : state) :
  outcome_of (render_loop W budget window r u s) = Ret u' →
  should_close s = true ∨ ∃ k, existsb requests_close (w_poll_events W k) = true.
Proof.
  revert u s. induction budget as [|budget IH]; intros u s.
  - destruct (should_close s) eqn:Hs; [by left|].
    cbn [render_loop]. unfold glfwWindowShouldClose. run_monad. by rewrite Hs.
  - destruct (should_close s) eqn:Hs; [by left|].
    rewrite render_loop_running by done. cbv zeta. cbn [outcome_of].
    intros Hrest. apply IH in Hrest as [Hflag|Hlater]; [|by right].
    destruct (render_frame_run W r u s) as (_ & _ & _ & Hclose). cbv zeta in Hclose.
    rewrite Hflag, Hs in Hclose. right. by exists (polls s).
Qed.

(** X17.  When [main] returns.  There is a number of iterations after which
    [main] has returned exactly when everything the bring-up needs holds
    (every check passes and none of the three vectors whose first element
    is addressed is empty) and a close request arrives at some point: the
    window is to close from the start, or some poll brings a close of the
    window or a release of Escape.  The code it returns is then
    EXIT_SUCCESS. *)
Theorem main_returns_iff (W : world) :
  ((∃ budget code, outcome_of (run_main W budget) = Ret code) ↔
   all_checks_pass W ∧ close_requested W) ∧
  (∀ budget code, outcome_of (run_main W budget) = Ret code → code = EXIT_SUCCESS).
Proof.
  split.
  - split.
    + intros (budget & code & Hret).
      destruct (main_unfold W budget) as (o & setup & Hbring & _ & Hmain).
      destruct o as [y|f| |]; [|by rewrite Hmain in Hret..|done].
      split.
      { apply (bring_up_returns W (initial_state W)). exists y. by rewrite Hbring. }
      cbv zeta in Hmain. rewrite Hmain in Hret.
      destruct (outcome_of (render_loop W budget (w_glfwCreateWindow W)
                              (the_resources W) initial_uniform_buffer_data
                              (initial_state W))) as [u| | |] eqn:Hloop; try done.
      exact (render_loop_close_seen W budget _ _ _ _ _ Hloop).
    + intros [Hchecks Hclose].
      apply (bring_up_returns W (initial_state W)) in Hchecks as [y Hy].
      assert (Hloop : ∃ budget u' s' calls,
                render_loop W budget (w_glfwCreateWindow W) (the_resources W)
                  initial_uniform_buffer_data (initial_state W)
                = Run (Ret u') s' calls).
      { destruct Hclose as [Hstart|[k Hk]].
        - exists 0%nat. rewrite render_loop_closing by done. by eexists _, _, _.
        - exists (S k).
          destruct (render_loop_returns W (S k) k (w_glfwCreateWindow W)
                      (the_resources W) initial_uniform_buffer_data
                      (initial_state W) ltac:(lia) Hk)
            as (u' & s' & calls & Hrun & _).
          by eexists _, _, _. }
      destruct Hloop as (budget & u' & s' & calls & Hloop).
      exists budget, EXIT_SUCCESS.
      destruct (main_unfold W budget) as (o & setup & Hbring & _ & Hmain).
      rewrite Hbring in Hy. cbn [outcome_of] in Hy. subst o.
      cbv zeta in Hmain. rewrite Hloop in Hmain. by rewrite Hmain.
  - intros budget code Hret.
    destruct (main_run W budget)
      as (o & s' & context & frame & loop & shutdown & Hrun & _ & _ & _ & Ho).
    rewrite Hrun in Hret. cbn [outcome_of] in Hret. subst o. by destruct Ho.
Qed.

Lemma main_returns_iff_witness :
  all_checks_pass sample_world ∧ close_requested sample_world ∧
  (∀ budget code, outcome_of (run_main mismatch_world budget) ≠ Ret code) ∧
  close_requested no_extension_world ∧
  ∀ budget code, outcome_of (run_main no_extension_world budget) ≠ Ret code.
Proof.
  destruct (main_returns_iff sample_world) as [Hiff _].
  destruct (proj1 Hiff) as [Hchecks Hclose].
  { exists 2%nat, EXIT_SUCCESS. vm_compute. reflexivity. }
  split; [exact Hchecks|]. split; [exact Hclose|]. split; [|split; [exact Hclose|]].
  - intros budget code Hret.
    destruct (proj1 (proj1 (main_returns_iff mismatch_world))) as [Hchecks' _].
    { by exists budget, code. }
    destruct_checks Hchecks'. vm_compute in Cretrieved. discriminate Cretrieved.
  - intros budget code Hret.
    destruct (proj1 (proj1 (main_returns_iff no_extension_world))) as [Hchecks' _].
    { by exists budget, code. }
    destruct_checks Hchecks'. by apply Csome.
Defined.
